(** * Verification of the NCCF API test runners

    A shallow embedding of the two runner variants of the repository,
    [Role_based.py] (aggregate-report runner) and [new.py] (assertion-based
    runner), followed by the properties proved about them.

    Modelling conventions.
    - Python [str] values are [string]s (byte sequences); case conversion,
      whitespace and the regular-expression character classes are modelled on
      the ASCII range.
    - Python [int] values are [Z]; the counters of [SUMMARY], which only ever
      count up from zero, are [nat].
    - Parsed JSON is the inductive type [json]; JSON objects keep their
      insertion order as association lists.  Dictionaries that the code only
      looks up, merges or rebuilds (headers, token tables, path parameters)
      are [gmap]s; where the code iterates over one of them, the model folds
      over the map, so the order of the messages it collects is the order of
      the fold.
    - Suite files and test cases are records whose fields have the types that
      the data model gives them; responses stay untyped [json], and the
      checks on their shape are modelled with the exceptions they raise.
    - The outside world is a parameter: the HTTP endpoint is a function of the
      number of the call and of the request, [hash] is the one of the running
      interpreter, and the text renderers of the Python runtime ([repr],
      [json.dumps], [jsonschema]) are functions that are left abstract.
    - A [while] loop is a function defined by well-founded recursion on what
      its counter leaves; the exceptions of [new.py] are the values of an
      error monad.  In [Role_based.py] the exception that the model lets out
      of [run_all_tests] is the one that [time.sleep] raises for a delay it
      does not accept: it is kept in the state, and the loops stop on it.
    - [log_message] only writes to the log file and the console; it is not
      modelled, and neither is the HTML page around the result groups. *)

From Stdlib Require Import ZArith String Ascii List Lia Bool.
From Stdlib Require Import DecimalString DecimalPos DecimalZ Sorted.
From Stdlib Require Import Floats.PrimFloat.
From Equations Require Import Equations.
From stdpp Require Import base option list gmap strings.

Set Warnings "-register-all".

Local Open Scope Z_scope.

(** ** Python primitives *)

Module Py.

(** [str.isspace] on the ASCII range: TAB..CR, FS..US and the space. *)
Definition is_space (c : ascii) : bool :=
  let n := N_of_ascii c in
  (((9 <=? n) && (n <=? 13)) || ((28 <=? n) && (n <=? 32)))%N.

Definition is_upper (c : ascii) : bool :=
  let n := N_of_ascii c in ((65 <=? n) && (n <=? 90))%N.

Definition is_lower (c : ascii) : bool :=
  let n := N_of_ascii c in ((97 <=? n) && (n <=? 122))%N.

Definition is_digit (c : ascii) : bool :=
  let n := N_of_ascii c in ((48 <=? n) && (n <=? 57))%N.

Definition lower_char (c : ascii) : ascii :=
  if is_upper c then ascii_of_N (N_of_ascii c + 32) else c.

Definition upper_char (c : ascii) : ascii :=
  if is_lower c then ascii_of_N (N_of_ascii c - 32) else c.

Fixpoint map_chars (f : ascii -> ascii) (s : string) : string :=
  match s with
  | EmptyString => EmptyString
  | String c r => String (f c) (map_chars f r)
  end.

(** [s.lower()] and [s.upper()]. *)
Definition lower (s : string) : string := map_chars lower_char s.
Definition upper (s : string) : string := map_chars upper_char s.

(** [s.lstrip(...)] and [s.rstrip(...)] for a set of characters [p]. *)
Fixpoint lstrip_by (p : ascii -> bool) (s : string) : string :=
  match s with
  | EmptyString => EmptyString
  | String c r => if p c then lstrip_by p r else s
  end.

Fixpoint rstrip_by (p : ascii -> bool) (s : string) : string :=
  match s with
  | EmptyString => EmptyString
  | String c r =>
      match rstrip_by p r with
      | EmptyString => if p c then EmptyString else String c EmptyString
      | r' => String c r'
      end
  end.

(** [s.strip()]. *)
Definition strip (s : string) : string := rstrip_by is_space (lstrip_by is_space s).

(** [s.rstrip("/")]. *)
Definition rstrip_slash (s : string) : string :=
  rstrip_by (fun c => Ascii.eqb c "/") s.

(** [needle in hay] on strings. *)
Fixpoint contains (needle hay : string) : bool :=
  String.prefix needle hay ||
  match hay with
  | EmptyString => false
  | String _ r => contains needle r
  end.

(** [s.split(sep)] for a one-character separator. *)
Fixpoint split_on (sep : ascii) (s : string) : list string :=
  match s with
  | EmptyString => [EmptyString]
  | String c r =>
      if Ascii.eqb c sep then EmptyString :: split_on sep r
      else match split_on sep r with
           | h :: t => String c h :: t
           | [] => [String c EmptyString]
           end
  end.

(** [str(n)] for an [int]. *)
Definition str_int (n : Z) : string := NilZero.string_of_int (Z.to_int n).

(** [f"{n:03d}"] for a non-negative [n]. *)
Definition pad3 (n : nat) : string :=
  let s := str_int (Z.of_nat n) in
  match String.length s with
  | 1%nat => "00" +:+ s
  | 2%nat => "0" +:+ s
  | _ => s
  end.

(** [int(s)] for a [str]: surrounding whitespace, an optional sign, then
    decimal digits in which single underscores may separate digits.
    [None] stands for [ValueError]. *)
Fixpoint int_digits (acc : Z) (prev_digit : bool) (s : string) : option Z :=
  match s with
  | EmptyString => if prev_digit then Some acc else None
  | String c r =>
      if is_digit c then
        int_digits (10 * acc + Z.of_N (N_of_ascii c - 48)) true r
      else if Ascii.eqb c "_" && prev_digit then
        match r with
        | String d _ => if is_digit d then int_digits acc false r else None
        | EmptyString => None
        end
      else None
  end.

Definition int_of_str (s : string) : option Z :=
  match strip s with
  | String "-" r => Z.opp <$> int_digits 0 false r
  | String "+" r => int_digits 0 false r
  | r => int_digits 0 false r
  end.

(** [s in (a, b, ...)] for strings. *)
Definition str_in (s : string) (l : list string) : bool :=
  existsb (String.eqb s) l.

(** The double-quote character, and a line feed. *)
Definition dquote : string := String (ascii_of_N 34) EmptyString.
Definition nl : string := String (ascii_of_N 10) EmptyString.

(** [html.escape(s)] (with [quote=True]). *)
Fixpoint html_escape (s : string) : string :=
  match s with
  | EmptyString => EmptyString
  | String c r =>
      (if Ascii.eqb c "&" then "&amp;"
       else if Ascii.eqb c "<" then "&lt;"
       else if Ascii.eqb c ">" then "&gt;"
       else if Ascii.eqb c (ascii_of_N 34) then "&quot;"
       else if Ascii.eqb c "'" then "&#x27;"
       else String c EmptyString) +:+ html_escape r
  end.

(** Parsed JSON documents, as [json.load] and [Response.json] return them. *)
Inductive json : Type :=
| JNull
| JBool (b : bool)
| JInt (n : Z)
| JFloat (f : float)
| JStr (s : string)
| JList (l : list json)
| JDict (d : list (string * json)).

(** Truth value of a JSON value ([if v:], [a or b]). *)
Definition truthy (v : json) : bool :=
  match v with
  | JNull => false
  | JBool b => b
  | JInt n => negb (n =? 0)
  | JFloat f => negb (PrimFloat.eqb f PrimFloat.zero)
  | JStr s => negb (String.eqb s "")
  | JList l => match l with [] => false | _ => true end
  | JDict d => match d with [] => false | _ => true end
  end.

(** [type(v).__name__]. *)
Definition type_name (v : json) : string :=
  match v with
  | JNull => "NoneType"
  | JBool _ => "bool"
  | JInt _ => "int"
  | JFloat _ => "float"
  | JStr _ => "str"
  | JList _ => "list"
  | JDict _ => "dict"
  end.

(** Association lists for insertion-ordered dictionaries: [d.get(k)]. *)
Fixpoint dict_get {V : Type} (k : string) (d : list (string * V)) : option V :=
  match d with
  | [] => None
  | (k', v) :: r => if String.eqb k k' then Some v else dict_get k r
  end.

(** [str(v)]: the text of scalars is computed; the text of floats and of
    containers is Python's [repr], given by [py_repr]. *)
Definition str (py_repr : json -> string) (v : json) : string :=
  match v with
  | JNull => "None"
  | JBool true => "True"
  | JBool false => "False"
  | JInt n => str_int n
  | JStr s => s
  | _ => py_repr v
  end.

(** Path placeholders: the code shared by both runners. *)

Definition is_word (c : ascii) : bool :=
  is_upper c || is_lower c || is_digit c || Ascii.eqb c "_".

(** The longest prefix of [s] made of characters in [p], and what follows. *)
Fixpoint span (p : ascii -> bool) (s : string) : string * string :=
  match s with
  | String c r =>
      if p c then let '(a, b) := span p r in (String c a, b)
      else (EmptyString, s)
  | EmptyString => (EmptyString, EmptyString)
  end.

(** A match of [\{(\w+)\}] at the head of [s]: the captured name. *)
Definition placeholder_at (s : string) : option string :=
  match s with
  | String "{" r =>
      match span is_word r with
      | (String _ _ as name, String "}" _) => Some name
      | _ => None
      end
  | _ => None
  end.

(** [re.findall(r"\{(\w+)\}", s)]; [skip] counts the characters that the
    previous match still covers. *)
Fixpoint findall_placeholders (skip : nat) (s : string) : list string :=
  match s with
  | EmptyString => []
  | String _ r =>
      match skip with
      | S k => findall_placeholders k r
      | O =>
          match placeholder_at s with
          | Some name => name :: findall_placeholders (S (String.length name)) r
          | None => findall_placeholders 0 r
          end
      end
  end.

(** [s.replace(old, new)] for a non-empty [old]. *)
Fixpoint replace (old new : string) (skip : nat) (s : string) : string :=
  match s with
  | EmptyString => EmptyString
  | String c r =>
      match skip with
      | S k => replace old new k r
      | O =>
          if String.prefix old s
          then new +:+ replace old new (String.length old - 1) r
          else String c (replace old new 0 r)
      end
  end.

Definition substitute_path_params (py_repr : json -> string)
    (path_params : gmap string json) (endpoint : string) : string :=
  fold_left
    (fun endpoint ph =>
       match path_params !! ph with
       | Some v => replace ("{" +:+ ph +:+ "}") (str py_repr v) 0 endpoint
       | None => endpoint
       end)
    (findall_placeholders 0 endpoint) endpoint.

(** [a or b] on optional strings. *)
Definition or_str (a b : option string) : option string :=
  match a with
  | Some (String _ _) => a
  | _ => b
  end.

(** How an optional string prints inside an f-string. *)
Definition fmt_opt (o : option string) : string := default "None" o.

End Py.

(** ** The HTTP endpoint, shared by both runners *)

Module Http.
Import Py.

Record Response : Type := mkResponse {
  resp_status_code : Z;
  resp_headers : list (string * string);
  (** [resp.json()], or [None] when it raises *)
  resp_json : option json;
  resp_text : string;
  (** milliseconds measured around the call *)
  resp_elapsed_ms : Z }.

(** A call returns a response or raises a [requests.RequestException] whose
    text is given. *)
Inductive Outcome : Type :=
| Returned (resp : Response)
| Raised (text : string).

End Http.

(** ** [Role_based.py]: the aggregate-report runner *)

Module Role_based.
Import Py Http.

(** *** Configuration *)

Definition GLOBAL_PERF_THRESHOLD_MS : Z := 1500.

(** The token set that [get_tokens_from_api] returns for a role. *)
Record Tokens : Type := mkTokens {
  access_token : string;
  id_token : string;
  refresh_token : string }.

Definition role_map : list (string * string) :=
  [("valid_admin", "admin"); ("valid_aggregator", "aggregator");
   ("valid_branch", "branch"); ("valid", "admin")].

(** [ALL_TOKENS]: one login per entry of [role_map], made when the module is
    loaded.  [get_tokens_from_api i role] is what the [i]-th login returns; it
    always returns a token set (empty strings on failure). *)
Fixpoint fetch_all_tokens (get_tokens_from_api : nat -> string -> Tokens)
    (i : nat) (entries : list (string * string)) (acc : gmap string Tokens)
    : gmap string Tokens :=
  match entries with
  | [] => acc
  | (key, role) :: rest =>
      fetch_all_tokens get_tokens_from_api (S i) rest
        (<[key := get_tokens_from_api i role]> acc)
  end.

Definition ALL_TOKENS (get_tokens_from_api : nat -> string -> Tokens)
    : gmap string Tokens :=
  fetch_all_tokens get_tokens_from_api 0%nat role_map ∅.

(** [deterministic_dummy_id_token]; [py_hash] is the built-in [hash] of the
    running interpreter. *)
Definition deterministic_dummy_id_token (py_hash : option string -> Z)
    (seed_value : option string) : string :=
  "dummy-id-" +:+ str_int (Z.abs (py_hash seed_value) mod 10 ^ 12).

(** *** Header redaction *)

Definition sensitive_names : list string :=
  ["authorization"; "token"; "x-api-key"; "x-access-token"; "x-id-token"].

Definition redaction_marker : string := "***redacted***".

Definition redact_headers (headers : gmap string string) : gmap string string :=
  map_fold
    (fun k v redacted =>
       if negb (String.eqb k "") && str_in (lower k) sensitive_names
       then <[k := redaction_marker]> redacted
       else <[k := v]> redacted)
    ∅ headers.

(** *** Response validation *)

(** Walk of one dotted key path through a document; [JNull] is Python's
    [None], which the code uses for "not found". *)
Fixpoint resolve_path (val : json) (keys : list string) : json :=
  match keys with
  | [] => val
  | k :: ks =>
      match val with
      | JList l =>
          match int_of_str k with
          | Some idx =>
              if (0 <=? idx) && (idx <? Z.of_nat (length l))
              then resolve_path (nth (Z.to_nat idx) l JNull) ks
              else JNull
          | None => JNull
          end
      | JDict d =>
          match dict_get k d with
          | Some v => resolve_path v ks
          | None => JNull
          end
      | _ => JNull
      end
  end.

Definition is_null (v : json) : bool :=
  match v with JNull => true | _ => false end.

Section Validation.

Variable ALLOW_PARTIAL_MESSAGE_MATCH : bool.
Variable py_repr : json -> string.

(** One round of the loop [for key in ("status", "message")]. *)
Definition check_top_level (resp expected : list (string * json))
    (key : string) : list string :=
  match dict_get key expected with
  | None => []
  | Some ev =>
      let expected_value := strip (str py_repr ev) in
      let actual_value :=
        strip (str py_repr (default (JStr "") (dict_get key resp))) in
      if ALLOW_PARTIAL_MESSAGE_MATCH then
        if contains (lower expected_value) (lower actual_value) then []
        else ["Expected '" +:+ key +:+ "' to contain: " +:+ expected_value
                +:+ ", got: " +:+ actual_value]
      else
        if String.eqb expected_value actual_value then []
        else ["Expected '" +:+ key +:+ "': " +:+ expected_value
                +:+ ", got: " +:+ actual_value]
  end.

(** The [any(...)] over the items of the response's [data] list. *)
Definition item_matches (query_content : string) (item : json) : bool :=
  match item with
  | JDict d =>
      contains (lower query_content)
        (lower (str py_repr (default (JStr "") (dict_get "farmer_full_name" d))))
  | _ => false
  end.

Definition check_content (resp : list (string * json))
    (query_content : option string) (test_type : string) : list string :=
  match query_content with
  | Some (String _ _ as qc) =>
      if negb (String.eqb test_type "")
         && negb (contains "authentication" (lower test_type))
      then
        match default (JList []) (dict_get "data" resp) with
        | JList data_list =>
            if existsb (item_matches qc) data_list then []
            else ["Query content '" +:+ qc
                    +:+ "' not found in any farmer_full_name in response data"]
        | _ => ["Response 'data' is not a list"]
        end
      else []
  | _ => []
  end.

(** One round of the loop over [nested_keys.items()]. *)
Definition check_nested (resp_json : json) (entry : string * json)
    : list string :=
  let '(key_path, expected_value) := entry in
  let val := resolve_path resp_json (split_on "." key_path) in
  if is_null val then ["Missing nested key: " +:+ key_path]
  else
    let val_str := str py_repr val in
    if ALLOW_PARTIAL_MESSAGE_MATCH then
      if contains (lower (str py_repr expected_value)) (lower val_str) then []
      else ["Nested key '" +:+ key_path +:+ "' value mismatch: expected (partial) '"
              +:+ str py_repr expected_value +:+ "', got '" +:+ val_str +:+ "'"]
    else
      if String.eqb (str py_repr expected_value) val_str then []
      else ["Nested key '" +:+ key_path +:+ "' value mismatch: expected '"
              +:+ str py_repr expected_value +:+ "', got '" +:+ val_str +:+ "'"].

Definition is_nil {A : Type} (l : list A) : bool :=
  match l with [] => true | _ => false end.

Definition validate_response_simple (resp_json expected_response : json)
    (query_content : option string) (test_type : string)
    (nested_keys : list (string * json)) : bool * list string :=
  match resp_json with
  | JDict resp =>
      let expected_response_dict :=
        match expected_response with JDict d => d | _ => [] end in
      let errors :=
        concat (map (check_top_level resp expected_response_dict)
                  ["status"; "message"])
        ++ check_content resp query_content test_type
        ++ concat (map (check_nested resp_json) nested_keys) in
      (is_nil errors, errors)
  | _ => (false, ["Response is not a JSON object"])
  end.

(** [resp.headers.get(key)]: response headers are looked up without regard
    to case. *)
Definition header_get (key : string) (resp_headers : list (string * string))
    : option string :=
  snd <$> find (fun kv => String.eqb (lower (fst kv)) (lower key)) resp_headers.

Definition validate_headers (resp_headers : list (string * string))
    (expected_headers : gmap string string) : bool * list string :=
  let errors :=
    map_fold
      (fun key expected_value errors =>
         match header_get key resp_headers with
         | None => errors ++ ["Missing header: " +:+ key]
         | Some actual_value =>
             if negb (String.eqb (lower actual_value) (lower expected_value))
             then errors ++ ["Header '" +:+ key +:+ "' mismatch: expected '"
                               +:+ expected_value +:+ "', got '"
                               +:+ actual_value +:+ "'"]
             else errors
         end)
      [] expected_headers in
  (is_nil errors, errors).

End Validation.

(** *** Suite documents

    The fields of a suite file and of a test case, typed as the data model
    describes them; [None] is an absent (or null) key. *)

Record Case : Type := mkCase {
  case_test_id : option string;
  case_description : option string;
  case_type : option string;
  case_method : option string;
  case_endpoint : option string;
  case_api_endpoint : option string;
  case_headers : option (gmap string string);
  case_query_params : option (list (string * string));
  case_path_params : option (gmap string json);
  (** absent, [Some None] for a JSON null, or a string *)
  case_auth_token : option (option string);
  case_expected_status : option Z;
  case_expected_response : option json;
  case_expected_response_options : option json;
  case_nested_keys : option (list (string * json));
  case_expected_content_type : option string }.

Record Suite : Type := mkSuite {
  suite_stem : string;
  suite_base_url : option string;
  suite_method : option string;
  suite_headers : option (gmap string string);
  suite_tokens : option (gmap string string);
  suite_test_cases : option (list Case) }.

(** A file found by [JSON_DIR.rglob]: it fails to load, or holds a suite. *)
Inductive JsonFile : Type :=
| LoadError
| Loaded (data : Suite).

(** *** Results and the state of a run *)

Inductive Verdict : Type := PASS | FAIL | SKIPPED.

(** The [status_code] cell of a result: ["-"], ["ERROR"] or the HTTP status. *)
Inductive StatusCell : Type :=
| StatusDash
| StatusError
| StatusCode (code : Z).

Record Result : Type := mkResult {
  r_id : string;
  r_desc : string;
  r_status_code : StatusCell;
  r_result : Verdict;
  r_details : string;
  r_api_name : string;
  r_method : string;
  r_endpoint : option string }.

Record Summary : Type := mkSummary {
  total : nat;
  passed : nat;
  failed : nat;
  skipped : nat;
  results : list Result;
  slow_tests : list string }.

(** What the run does to the outside world, in order. *)
Inductive Event : Type :=
| EvGet (url : string) (headers : gmap string string)
        (params : list (string * string))
| EvSleep (seconds : Z).

(** The module globals [SUMMARY] and [PERF_STATS], with the number of HTTP
    calls made so far, the trace of effects, and the exception, if any, that
    no handler of [run_all_tests] has caught: once it is set, the exception
    leaves the loops and the function. *)
Record State : Type := mkState {
  SUMMARY : Summary;
  PERF_STATS : list Z;
  calls : nat;
  trace : list Event;
  uncaught : option string }.

Definition initial_state : State :=
  mkState (mkSummary 0 0 0 0 [] []) [] 0 [] None.

Definition with_summary (f : Summary -> Summary) (st : State) : State :=
  mkState (f (SUMMARY st)) (PERF_STATS st) (calls st) (trace st) (uncaught st).

(** [SUMMARY["total"] += 1] and its siblings. *)
Definition incr_total (s : Summary) : Summary :=
  mkSummary (S (total s)) (passed s) (failed s) (skipped s) (results s) (slow_tests s).
Definition incr_passed (s : Summary) : Summary :=
  mkSummary (total s) (S (passed s)) (failed s) (skipped s) (results s) (slow_tests s).
Definition incr_failed (s : Summary) : Summary :=
  mkSummary (total s) (passed s) (S (failed s)) (skipped s) (results s) (slow_tests s).
Definition incr_skipped (s : Summary) : Summary :=
  mkSummary (total s) (passed s) (failed s) (S (skipped s)) (results s) (slow_tests s).
(** [SUMMARY["results"].append(r)] and [SUMMARY["slow_tests"].append(t)]. *)
Definition append_result (r : Result) (s : Summary) : Summary :=
  mkSummary (total s) (passed s) (failed s) (skipped s) (results s ++ [r]) (slow_tests s).
Definition append_slow (t : string) (s : Summary) : Summary :=
  mkSummary (total s) (passed s) (failed s) (skipped s) (results s) (slow_tests s ++ [t]).

(** [PERF_STATS.append(ms)]. *)
Definition append_perf (ms : Z) (st : State) : State :=
  mkState (SUMMARY st) (PERF_STATS st ++ [ms]) (calls st) (trace st)
          (uncaught st).

(** One call of [requests.get], and one sleep that has returned. *)
Definition note_get (url : string) (headers : gmap string string)
    (params : list (string * string)) (st : State) : State :=
  mkState (SUMMARY st) (PERF_STATS st) (S (calls st))
          (trace st ++ [EvGet url headers params]) (uncaught st).
Definition note_sleep (seconds : Z) (st : State) : State :=
  mkState (SUMMARY st) (PERF_STATS st) (calls st)
          (trace st ++ [EvSleep seconds]) (uncaught st).

(** [time.sleep(seconds)] for an [int].  The length is first converted to
    the interpreter's time, a signed 64-bit count of nanoseconds: a length
    that does not fit raises [OverflowError].  A negative length then raises
    [ValueError].  Nothing is slept in either case; otherwise the sleep
    returns.  (What the operating system's clock does with a sleep of
    centuries is not part of the model.) *)
Definition SLEEP_MAX : Z := 9223372036.

Definition sleep_length_error : string :=
  "ValueError: sleep length must be non-negative".
Definition sleep_overflow_error : string :=
  "OverflowError: timestamp too large to convert to C _PyTime_t".

Definition time_sleep (seconds : Z) (st : State) : State + string :=
  if (seconds <? - SLEEP_MAX) || (SLEEP_MAX <? seconds)
  then inr sleep_overflow_error
  else if seconds <? 0 then inr sleep_length_error
  else inl (note_sleep seconds st).

(** An exception that nothing in [run_all_tests] catches. *)
Definition raise_uncaught (text : string) (st : State) : State :=
  mkState (SUMMARY st) (PERF_STATS st) (calls st) (trace st) (Some text).

(** *** [run_all_tests] *)

Section Runner.

(** Environment configuration. *)
Variable MAX_RETRIES : Z.
Variable RETRY_DELAY : Z.
Variable ALLOW_PARTIAL_MESSAGE_MATCH : bool.
Variable BASE_URL : string.

(** The interpreter and the network. *)
Variable py_hash : option string -> Z.
Variable py_repr : json -> string.
Variable repr_headers : gmap string string -> string.
(** [json.dumps(v, indent=2, ensure_ascii=b)] *)
Variable json_dumps_indent : bool -> json -> string.
Variable get_tokens_from_api : nat -> string -> Tokens.
(** [requests.get(url, headers=.., params=.., timeout=30)], by call number *)
Variable requests_get :
  nat -> string -> gmap string string -> list (string * string) -> Outcome.

(** The JSON-driven token logic: the headers after the [if]/[elif]/[else]
    on [token_key]. *)
Definition auth_headers (tokens_dict : gmap string string)
    (token_key : option string) (headers : gmap string string)
    : gmap string string :=
  match token_key ≫= (fun k => ALL_TOKENS get_tokens_from_api !! k) with
  | Some TOKENS =>
      <["X-ID-Token" := id_token TOKENS]>
        (<["Authorization" := "Bearer " +:+ access_token TOKENS]> headers)
  | None =>
      if bool_decide (token_key = Some "empty") then
        delete "X-ID-Token" (delete "Authorization" headers)
      else
        <["X-ID-Token" := deterministic_dummy_id_token py_hash token_key]>
          (<["Authorization" :=
               "Bearer " +:+ default "" (token_key ≫= (fun k => tokens_dict !! k))]>
             headers)
  end.

(** The request of one case, once resolved. *)
Record Prepared : Type := mkPrepared {
  p_test_id : string;
  p_desc : string;
  p_test_type : string;
  p_method : string;
  p_endpoint : string;
  p_url : string;
  p_headers : gmap string string;
  p_params : list (string * string);
  p_file_headers : gmap string string;
  p_case : Case }.

(** The verdict and the discrepancies of one response: the body of the
    [try] block between the request and the rendering. *)
Definition check_response (p : Prepared) (resp : Response)
    : bool * list string :=
  let status_code := resp_status_code resp in
  let resp_json := default (JDict []) (resp_json resp) in
  let status_errors :=
    match case_expected_status (p_case p) with
    | Some expected_status =>
        if negb (expected_status =? 0) && negb (status_code =? expected_status)
        then ["Expected " +:+ str_int expected_status +:+ ", got "
                +:+ str_int status_code]
        else []
    | None => []
    end in
  let expected_resp :=
    match case_expected_response (p_case p) with
    | Some v => if truthy v then Some v
                else case_expected_response_options (p_case p)
    | None => case_expected_response_options (p_case p)
    end in
  let query_content := dict_get "content" (p_params p) in
  let nested_keys := default [] (case_nested_keys (p_case p)) in
  let body_errors :=
    if from_option truthy false expected_resp || negb (is_nil nested_keys)
    then
      snd (validate_response_simple ALLOW_PARTIAL_MESSAGE_MATCH py_repr
             resp_json
             (match expected_resp with
              | Some v => if truthy v then v else JDict []
              | None => JDict []
              end)
             query_content (p_test_type p) nested_keys)
    else [] in
  let header_errors := snd (validate_headers (resp_headers resp) (p_file_headers p)) in
  let ct_expected :=
    default "application/json" (case_expected_content_type (p_case p)) in
  let ct_errors :=
    match header_get "Content-Type" (resp_headers resp) with
    | Some (String _ _ as ct) =>
        if negb (contains ct_expected ct)
        then ["Expected Content-Type '" +:+ ct_expected +:+ "', got '" +:+ ct +:+ "'"]
        else []
    | _ => []
    end in
  let errors := status_errors ++ body_errors ++ header_errors ++ ct_errors in
  (is_nil errors, errors).

(** The [details_html] of an answered request. *)
Definition render_details (p : Prepared) (resp : Response)
    (test_passed : bool) (errors : list string) : string :=
  let elapsed_ms := resp_elapsed_ms resp in
  let resp_body :=
    match resp_json resp with
    | Some v => json_dumps_indent false v
    | None => resp_text resp
    end in
  let slow_flag :=
    if elapsed_ms >? GLOBAL_PERF_THRESHOLD_MS
    then " → ⚠️ Slow (" +:+ str_int elapsed_ms +:+ " > "
           +:+ str_int GLOBAL_PERF_THRESHOLD_MS +:+ " ms)"
    else " → ✅ OK" in
  let request_display :=
    if is_nil (p_params p) then "-"
    else json_dumps_indent true
           (JDict (map (fun kv => (fst kv, JStr (snd kv))) (p_params p))) in
  let error_section :=
    if is_nil errors then ""
    else "<div style='color:red;font-weight:bold;'>Errors: "
           +:+ json_dumps_indent true (JList (map JStr errors)) +:+ "</div>" in
  nl +:+ "<pre>" +:+ nl
  +:+ "=== Request " +:+ p_test_id p +:+ " ===" +:+ nl
  +:+ "Scenario: " +:+ p_desc p +:+ nl
  +:+ "URL: " +:+ p_method p +:+ " " +:+ p_url p +:+ nl
  +:+ "Headers: " +:+ repr_headers (redact_headers (p_headers p)) +:+ nl
  +:+ html_escape request_display +:+ nl
  +:+ nl
  +:+ "--- Response " +:+ p_test_id p +:+ " --- " +:+ nl
  +:+ "Status: " +:+ str_int (resp_status_code resp) +:+ nl
  +:+ "Time: " +:+ str_int elapsed_ms +:+ " ms" +:+ slow_flag +:+ nl
  +:+ "Body:" +:+ nl
  +:+ html_escape resp_body +:+ nl
  +:+ "</pre>" +:+ nl
  +:+ error_section +:+ nl
  +:+ "<pre>" +:+ nl
  +:+ (if test_passed then "✅ PASSED" else "❌ FAILED") +:+ " " +:+ p_test_id p +:+ nl
  +:+ "</pre>" +:+ nl.

(** The [try] branch after [requests.get] has returned: the state before
    the [break]. *)
Definition record_response (p : Prepared) (resp : Response) (st : State)
    : State :=
  let st := append_perf (resp_elapsed_ms resp) st in
  let '(test_passed, errors) := check_response p resp in
  let st :=
    with_summary
      (append_result
         (mkResult (p_test_id p) (p_desc p) (StatusCode (resp_status_code resp))
            (if test_passed then PASS else FAIL)
            (render_details p resp test_passed errors)
            (p_method p +:+ " " +:+ p_endpoint p) (p_method p)
            (Some (p_endpoint p)))) st in
  let st :=
    if resp_elapsed_ms resp >? GLOBAL_PERF_THRESHOLD_MS
    then with_summary (append_slow (p_test_id p)) st else st in
  if test_passed then with_summary incr_passed st
  else with_summary incr_failed st.

(** The [except] branch once the retries are used up. *)
Definition record_exhausted (p : Prepared) (text : string) (st : State)
    : State :=
  with_summary
    (append_result
       (mkResult (p_test_id p) (p_desc p) StatusError FAIL
          ("<pre>Exception: " +:+ html_escape text +:+ "</pre>")
          (p_method p +:+ " " +:+ p_endpoint p) (p_method p)
          (Some (p_endpoint p))))
    (with_summary incr_failed st).

(** The loop [while attempt <= MAX_RETRIES], entered with [attempt].  The
    handler catches [requests.RequestException] only, and [time.sleep] is
    called inside it: the exception that it raises for a [RETRY_DELAY] that
    it does not accept leaves the loop uncaught. *)
Equations? request_loop (p : Prepared) (attempt : Z) (st : State) : State
    by wf (Z.to_nat (MAX_RETRIES + 1 - attempt)) lt :=
  request_loop p attempt st with Z_le_gt_dec attempt MAX_RETRIES => {
    | right _ => st
    | left _ =>
        let st1 := note_get (p_url p) (p_headers p) (p_params p) st in
        match requests_get (calls st) (p_url p) (p_headers p) (p_params p) with
        | Returned resp => record_response p resp st1
        | Raised text =>
            if attempt + 1 >? MAX_RETRIES
            then request_loop p (attempt + 1) (record_exhausted p text st1)
            else
              match time_sleep RETRY_DELAY st1 with
              | inl st2 => request_loop p (attempt + 1) st2
              | inr error => raise_uncaught error st1
              end
        end }.
Proof. all: lia. Qed.

(** The fields that the loop body reads first: [idx] counts from 1. *)
Definition test_id_of (data : Suite) (idx : nat) (case : Case) : string :=
  default (suite_stem data +:+ "_" +:+ pad3 idx) (case_test_id case).

Definition method_of (data : Suite) (case : Case) : string :=
  let default_method := upper (default "GET" (suite_method data)) in
  upper (default default_method (case_method case)).

Definition endpoint_of (case : Case) : option string :=
  or_str (case_endpoint case) (case_api_endpoint case).

(** The request of a case whose endpoint is [endpoint]: merged headers, query
    parameters, substituted path, URL and token headers. *)
Definition prepare (data : Suite) (idx : nat) (case : Case)
    (endpoint : string) : Prepared :=
  let base_url := rstrip_slash (default BASE_URL (suite_base_url data)) in
  let file_headers := default ∅ (suite_headers data) in
  let tokens_dict := default ∅ (suite_tokens data) in
  let headers :=
    <["Accept" := "application/json"]>
      (default ∅ (case_headers case) ∪ file_headers) in
  let params := default [] (case_query_params case) in
  let path_params := default ∅ (case_path_params case) in
  let endpoint := substitute_path_params py_repr path_params endpoint in
  let url := base_url +:+ endpoint in
  let token_key := default (Some "valid") (case_auth_token case) in
  let headers := auth_headers tokens_dict token_key headers in
  mkPrepared (test_id_of data idx case) (default "-" (case_description case))
    (default "" (case_type case)) (method_of data case) endpoint url headers
    params file_headers case.

(** The body of the loop over the cases of one file. *)
Definition process_case (data : Suite) (idx : nat) (case : Case)
    (st : State) : State :=
  let test_id := test_id_of data idx case in
  let desc := default "-" (case_description case) in
  let method := method_of data case in
  let endpoint := endpoint_of case in
  let st := with_summary incr_total st in
  if negb (String.eqb method "GET") then
    with_summary
      (append_result
         (mkResult test_id desc StatusDash SKIPPED
            ("Skipped non-GET method (" +:+ method +:+ ")")
            (method +:+ " " +:+ fmt_opt endpoint) method endpoint))
      (with_summary incr_skipped st)
  else
    match endpoint with
    | Some (String _ _ as endpoint) =>
        request_loop (prepare data idx case endpoint) 0 st
    | _ =>
        with_summary
          (append_result
             (mkResult test_id desc StatusDash SKIPPED "Missing endpoint"
                "Unknown" "" (Some "")))
          (with_summary incr_skipped st)
    end.

(** The loop [for idx, case in enumerate(..., 1)]: an exception that the
    body has not caught leaves the loop. *)
Fixpoint run_cases (data : Suite) (idx : nat) (cases : list Case)
    (st : State) : State :=
  match cases with
  | [] => st
  | case :: rest =>
      let st' := process_case data idx case st in
      match uncaught st' with
      | Some _ => st'
      | None => run_cases data (S idx) rest st'
      end
  end.

(** The loop over the files of [JSON_DIR], which the exception leaves as
    well. *)
Fixpoint run_files (files : list JsonFile) (st : State) : State :=
  match files with
  | [] => st
  | LoadError :: rest => run_files rest st
  | Loaded data :: rest =>
      let st' := run_cases data 1 (default [] (suite_test_cases data)) st in
      match uncaught st' with
      | Some _ => st'
      | None => run_files rest st'
      end
  end.

Record PerfStats : Type := mkPerfStats {
  avg : Z;
  max : Z;
  min : Z }.

Definition perf_summary (samples : list Z) : PerfStats :=
  match samples with
  | [] => mkPerfStats 0 0 0
  | x :: rest =>
      mkPerfStats (Z.quot (fold_right Z.add 0 samples) (Z.of_nat (length samples)))
                  (fold_right Z.max x rest) (fold_right Z.min x rest)
  end.

(** [run_all_tests()], from the globals in [st]: the final state, whose
    [SUMMARY] the function returns, and the performance figures.  When
    [uncaught] is set in the final state the function has not returned: the
    exception has left it, and the figures are not computed. *)
Definition run_all_tests (files : list JsonFile) (st : State)
    : State * PerfStats :=
  let st' := run_files files st in
  (st', perf_summary (PERF_STATS st')).

End Runner.

(** *** Grouping of the results in [generate_html] *)

Definition is_hex_dash (c : ascii) : bool :=
  let n := N_of_ascii c in
  (is_digit c || ((97 <=? n) && (n <=? 102)) || ((65 <=? n) && (n <=? 70))
   || Ascii.eqb c "-")%N.

(** Offset of the first closing brace that [.*?] can reach: [.] does not
    match a line feed. *)
Fixpoint index_close (s : string) : option nat :=
  match s with
  | EmptyString => None
  | String c r =>
      if Ascii.eqb c "}" then Some 0%nat
      else if Ascii.eqb c (ascii_of_N 10) then None
      else S <$> index_close r
  end.

(** The four alternatives of
    [/[0-9a-fA-F-]{8,}|/\d+|/invalid-[\w-]+|/\{.*?\}], each tried on the
    text [r] that follows a slash; the result is the length matched after
    the slash. *)
Definition alt_hex (r : string) : option nat :=
  let n := String.length (fst (span is_hex_dash r)) in
  if (8 <=? n)%nat then Some n else None.

Definition alt_digits (r : string) : option nat :=
  let n := String.length (fst (span is_digit r)) in
  if (1 <=? n)%nat then Some n else None.

Definition alt_invalid (r : string) : option nat :=
  if String.prefix "invalid-" r then
    let n :=
      String.length
        (fst (span (fun c => is_word c || Ascii.eqb c "-")
                (String.substring 8 (String.length r - 8) r))) in
    if (1 <=? n)%nat then Some (8 + n)%nat else None
  else None.

Definition alt_placeholder (r : string) : option nat :=
  match r with
  | String "{" r' => (fun i => S (S i)) <$> index_close r'
  | _ => None
  end.

(** Length of the match of the pattern at the head of [s], if there is one:
    the first alternative that matches wins. *)
Definition match_volatile (s : string) : option nat :=
  match s with
  | String "/" r =>
      S <$> (match alt_hex r with
             | Some n => Some n
             | None =>
                 match alt_digits r with
                 | Some n => Some n
                 | None =>
                     match alt_invalid r with
                     | Some n => Some n
                     | None => alt_placeholder r
                     end
                 end
             end)
  | _ => None
  end.

(** [re.sub(pattern, "", s)]: every match, found from left to right, is
    removed; [skip] counts the characters that the previous match still
    covers. *)
Fixpoint strip_volatile (skip : nat) (s : string) : string :=
  match s with
  | EmptyString => EmptyString
  | String c r =>
      match skip with
      | S k => strip_volatile k r
      | O =>
          match match_volatile s with
          | Some n => strip_volatile (n - 1) r
          | None => String c (strip_volatile 0 r)
          end
      end
  end.

(** The key under which [generate_html] files a result. *)
Definition group_key (r : Result) : string :=
  let endpoint := strip (r_method r +:+ " " +:+ fmt_opt (r_endpoint r)) in
  let endpoint := if String.eqb endpoint "" then r_api_name r else endpoint in
  let endpoint := hd "" (split_on "?" endpoint) in
  let base_endpoint := strip_volatile 0 endpoint in
  let base_endpoint := rstrip_slash base_endpoint in
  if String.eqb base_endpoint "" then "/" else base_endpoint.

(** [api_groups[key].append(r)] on a [defaultdict(list)]. *)
Fixpoint group_append (key : string) (r : Result)
    (groups : list (string * list Result)) : list (string * list Result) :=
  match groups with
  | [] => [(key, [r])]
  | (k, rs) :: rest =>
      if String.eqb k key then (k, rs ++ [r]) :: rest
      else (k, rs) :: group_append key r rest
  end.

Definition api_groups (summary : Summary) : list (string * list Result) :=
  fold_left (fun groups r => group_append (group_key r) r groups)
    (results summary) [].

End Role_based.

(** ** [new.py]: the assertion-based runner *)

Module New.
Import Py Http.

Definition GLOBAL_PERF_THRESHOLD_MS : Z := 1500.

(** *** Header redaction *)

Definition sensitive_names : list string :=
  ["authorization"; "token"; "x-api-key"; "x-access-token"].

Definition redaction_marker : string := "***redacted***".

Definition redact_headers (headers : gmap string string) : gmap string string :=
  map_fold
    (fun k v redacted =>
       if str_in (lower k) sensitive_names
       then <[k := redaction_marker]> redacted
       else <[k := v]> redacted)
    ∅ headers.

(** *** Exceptions *)

Inductive Exn : Type :=
| AssertionError (msg : string)
| Skipped (msg : string)
| RequestException (text : string)
| AttributeError
| TypeError.

(** A computation returns a value or raises. *)
Inductive Res (A : Type) : Type :=
| Ok (a : A)
| Raise (e : Exn).
Arguments Ok {A} a.
Arguments Raise {A} e.

#[global] Instance res_bind : MBind Res :=
  fun A B (k : A -> Res B) (m : Res A) =>
    match m with
    | Ok a => k a
    | Raise e => Raise e
    end.

(** *** Expectations

    An expectation object with the keys that [validate_response] reads,
    typed as the data model describes them. *)
Record ExpectDict : Type := mkExpectDict {
  exp_schema : option json;
  exp_mandatory_fields : option (list string);
  exp_field_types : option (list (string * string));
  (** whether the object has further keys *)
  exp_other_keys : bool }.

(** One candidate: an object, a string, or any other JSON value. *)
Inductive Candidate : Type :=
| CandDict (d : ExpectDict)
| CandStr (s : string)
| CandOther (v : json).

(** The value of [expected_response]: a list of candidates, or one. *)
Inductive Expected : Type :=
| Single (c : Candidate)
| Options (l : list Candidate).

Definition present {A : Type} (o : option A) : bool :=
  match o with Some _ => true | None => false end.

Definition candidate_truthy (c : Candidate) : bool :=
  match c with
  | CandDict d =>
      present (exp_schema d) || present (exp_mandatory_fields d)
      || present (exp_field_types d) || exp_other_keys d
  | CandStr s => negb (String.eqb s "")
  | CandOther v => truthy v
  end.

Definition expected_truthy (e : Expected) : bool :=
  match e with
  | Single c => candidate_truthy c
  | Options l => match l with [] => false | _ => true end
  end.

Section Validation.

(** [jsonschema.validate]: [None] when the instance conforms, the message of
    the [ValidationError] otherwise. *)
Variable json_validate : json -> json -> option string.
(** [json.dumps(v)] *)
Variable json_dumps : json -> string.
(** [str] of a list of strings *)
Variable repr_errors : list string -> string.

Definition validate_schema (test_id : string) (resp_json schema : json)
    : Res unit :=
  match json_validate resp_json schema with
  | None => Ok tt
  | Some message =>
      Raise (AssertionError
               (test_id +:+ " | Schema validation failed: " +:+ message))
  end.

(** [field in data_dict], for what [resp_json.get("data", {})] may be. *)
Definition has_field (field : string) (data_dict : json) : Res bool :=
  match data_dict with
  | JDict d => Ok (present (dict_get field d))
  | JList l =>
      Ok (existsb (fun v => match v with
                            | JStr s => String.eqb s field
                            | _ => false
                            end) l)
  | JStr s => Ok (contains field s)
  | _ => Raise TypeError
  end.

(** [data_dict.get(k)] *)
Definition get_field (k : string) (data_dict : json) : Res json :=
  match data_dict with
  | JDict d => Ok (default JNull (dict_get k d))
  | _ => Raise AttributeError
  end.

Fixpoint check_mandatory (fields : list string) (data_dict : json)
    (temp_errors : list string) : Res (list string) :=
  match fields with
  | [] => Ok temp_errors
  | field :: rest =>
      found ← has_field field data_dict;
      check_mandatory rest data_dict
        (if found : bool then temp_errors
         else temp_errors ++ ["Missing mandatory field: " +:+ field])
  end.

Definition is_str (v : json) : bool :=
  match v with JStr _ => true | _ => false end.
Definition is_bool (v : json) : bool :=
  match v with JBool _ => true | _ => false end.
Definition is_none (v : json) : bool :=
  match v with JNull => true | _ => false end.

Fixpoint check_field_types (field_types : list (string * string))
    (data_dict : json) (temp_errors : list string) : Res (list string) :=
  match field_types with
  | [] => Ok temp_errors
  | (k, v_type) :: rest =>
      value ← get_field k data_dict;
      check_field_types rest data_dict
        (if String.eqb v_type "string" && negb (is_none value)
            && negb (is_str value)
         then temp_errors ++ ["Field '" +:+ k +:+ "' expected string, got "
                                +:+ type_name value]
         else if String.eqb v_type "boolean" && negb (is_bool value)
         then temp_errors ++ ["Field '" +:+ k +:+ "' expected boolean, got "
                                +:+ type_name value]
         else if String.eqb v_type "null|string" && negb (is_none value)
                 && negb (is_str value)
         then temp_errors ++ ["Field '" +:+ k +:+ "' expected null|string, got "
                                +:+ type_name value]
         else temp_errors)
  end.

(** The [temp_errors] of one object candidate. *)
Definition dict_candidate_errors (test_id : string) (resp_json : json)
    (expected_response : ExpectDict) : Res (list string) :=
  match resp_json with
  | JDict resp =>
      let data_dict := default (JDict []) (dict_get "data" resp) in
      _ ← match exp_schema expected_response with
          | Some schema => validate_schema test_id resp_json schema
          | None => Ok tt
          end;
      temp_errors ←
        check_mandatory (default [] (exp_mandatory_fields expected_response))
          data_dict [];
      check_field_types (default [] (exp_field_types expected_response))
        data_dict temp_errors
  | _ => Raise AttributeError
  end.

Definition is_nil {A : Type} (l : list A) : bool :=
  match l with [] => true | _ => false end.

(** The loop over the candidates: [matched] and [errors] at its end. *)
Fixpoint validate_loop (test_id : string) (resp_json : json)
    (options : list Candidate) (errors : list string)
    : Res (bool * list string) :=
  match options with
  | [] => Ok (false, errors)
  | CandDict expected_response :: rest =>
      temp_errors ← dict_candidate_errors test_id resp_json expected_response;
      if is_nil temp_errors then Ok (true, errors)
      else validate_loop test_id resp_json rest (errors ++ temp_errors)
  | CandStr expected_response :: rest =>
      if contains expected_response (json_dumps resp_json)
      then Ok (true, errors)
      else validate_loop test_id resp_json rest
             (errors ++ ["Expected message not found: " +:+ expected_response])
  | CandOther _ :: rest => validate_loop test_id resp_json rest errors
  end.

Definition validate_response (test_id : string) (resp_json : json)
    (expected_response_options : Expected) : Res unit :=
  let options :=
    match expected_response_options with
    | Options l => l
    | Single c => [c]
    end in
  '(matched, errors) ← validate_loop test_id resp_json options [];
  if matched : bool then Ok tt
  else Raise (AssertionError
                (test_id +:+ " | Response validation failed: "
                   +:+ repr_errors errors)).

End Validation.

(** *** Suite documents *)

Record Case : Type := mkCase {
  case_test_id : option string;
  case_endpoint : option string;
  case_api_endpoint : option string;
  case_method : option string;
  case_headers : option (gmap string string);
  case_body : option json;
  case_request_body : option json;
  case_payload : option json;
  case_query_params : option (list (string * string));
  case_path_params : option (gmap string json);
  (** absent, [Some None] for a JSON null, or a string *)
  case_auth_token : option (option string);
  case_expected_status : option Z;
  case_expected_response : option Expected }.

Record Suite : Type := mkSuite {
  suite_base_url : option string;
  suite_method : option string;
  suite_headers : option (gmap string string);
  suite_tokens : option (gmap string string);
  suite_test_cases : option (list Case) }.

(** [load_json_files]: the files of [JSON_DIR] by stem, each with the
    document it parses to, if it parses. *)
Definition load_json_files (json_files : list (string * option Suite))
    : list (string * Suite) :=
  omap (fun jf => match snd jf with
                  | Some data => Some (fst jf, data)
                  | None => None
                  end) json_files.

(** *** The state of a session *)

Record Summary : Type := mkSummary {
  total : nat;
  passed : nat;
  failed : nat;
  skipped : nat;
  times : list (string * Z * string) }.

Inductive Event : Type :=
| EvRequest (method url : string) (headers : gmap string string)
            (json_body : option json).

Record State : Type := mkState {
  SUMMARY : Summary;
  calls : nat;
  trace : list Event }.

Definition initial_state : State := mkState (mkSummary 0 0 0 0 []) 0 [].

Definition with_summary (f : Summary -> Summary) (st : State) : State :=
  mkState (f (SUMMARY st)) (calls st) (trace st).

Definition incr_total (s : Summary) : Summary :=
  mkSummary (S (total s)) (passed s) (failed s) (skipped s) (times s).
Definition incr_passed (s : Summary) : Summary :=
  mkSummary (total s) (S (passed s)) (failed s) (skipped s) (times s).
Definition incr_skipped (s : Summary) : Summary :=
  mkSummary (total s) (passed s) (failed s) (S (skipped s)) (times s).
Definition append_time (t : string * Z * string) (s : Summary) : Summary :=
  mkSummary (total s) (passed s) (failed s) (skipped s) (times s ++ [t]).

Definition note_request (method url : string) (headers : gmap string string)
    (json_body : option json) (st : State) : State :=
  mkState (SUMMARY st) (S (calls st))
          (trace st ++ [EvRequest method url headers json_body]).

(** [a or b] on optional JSON values. *)
Definition or_json (a b : option json) : option json :=
  match a with
  | Some v => if truthy v then a else b
  | None => b
  end.

(** *** [test_api_from_json] *)

Section Runner.

Variable json_validate : json -> json -> option string.
Variable json_dumps : json -> string.
Variable repr_errors : list string -> string.
Variable py_repr : json -> string.
(** [requests.request(method=.., url=.., headers=.., json=.., timeout=30)],
    by call number *)
Variable requests_request :
  nat -> string -> string -> gmap string string -> option json -> Outcome.

(** The token handling: the headers after the [if]/[elif] on
    [token_value]. *)
Definition auth_headers (tokens : gmap string string)
    (token_key : option string) (headers : gmap string string)
    : gmap string string :=
  match token_key ≫= (fun k => tokens !! k) with
  | Some (String _ _ as token_value) =>
      <["Authorization" := "Bearer " +:+ token_value]> headers
  | _ =>
      if bool_decide (token_key = None) || bool_decide (token_key = Some "empty")
      then delete "Authorization" headers
      else headers
  end.

(** The body of the loop over the cases of one file; [idx] counts from 1. *)
Definition test_id_of (filename : string) (idx : nat) (case : Case) : string :=
  default (filename +:+ "_" +:+ pad3 idx) (case_test_id case).

Definition run_case (filename : string) (data : Suite) (base_url : string)
    (idx : nat) (case : Case) (st : State) : State * Res unit :=
  let st := with_summary incr_total st in
  let test_id := test_id_of filename idx case in
  match or_str (case_endpoint case) (case_api_endpoint case) with
  | Some (String _ _ as endpoint) =>
      let method :=
        upper (default (default "POST" (suite_method data)) (case_method case)) in
      let headers :=
        <["Accept" := "application/json"]>
          (default ∅ (case_headers case) ∪ default ∅ (suite_headers data)) in
      let body :=
        default (JDict [])
          (or_json (or_json (or_json (case_body case) (case_request_body case))
                      (case_payload case))
             (Some (JDict []))) in
      let path_params := default ∅ (case_path_params case) in
      let endpoint := substitute_path_params py_repr path_params endpoint in
      let url := base_url +:+ endpoint in
      let token_key := default (Some "valid") (case_auth_token case) in
      let headers :=
        auth_headers (default ∅ (suite_tokens data)) token_key headers in
      let json_body :=
        if str_in method ["POST"; "PUT"; "PATCH"] then Some body else None in
      let st1 := note_request method url headers json_body st in
      match requests_request (calls st) method url headers json_body with
      | Raised text => (st1, Raise (RequestException text))
      | Returned response =>
          let st2 :=
            with_summary
              (append_time (test_id, resp_elapsed_ms response, url)) st1 in
          let resp_json := default (JDict []) (resp_json response) in
          let status_check : Res unit :=
            match case_expected_status case with
            | Some expected_status =>
                if negb (expected_status =? 0)
                   && negb (resp_status_code response =? expected_status)
                then Raise (AssertionError
                              (test_id +:+ " | Expected "
                                 +:+ str_int expected_status +:+ ", got "
                                 +:+ str_int (resp_status_code response)))
                else Ok tt
            | None => Ok tt
            end in
          let body_check : Res unit :=
            match case_expected_response case with
            | Some expected_response =>
                if expected_truthy expected_response
                then validate_response json_validate json_dumps repr_errors
                       test_id resp_json expected_response
                else Ok tt
            | None => Ok tt
            end in
          match status_check ≫= (fun _ => body_check) with
          | Ok _ => (with_summary incr_passed st2, Ok tt)
          | Raise e => (st2, Raise e)
          end
      end
  | _ =>
      (with_summary incr_skipped st,
       Raise (Skipped (test_id +:+ " skipped: 'endpoint' missing in JSON")))
  end.

(** The loop [for idx, case in enumerate(..., 1)]: an exception raised by a
    case leaves the loop. *)
Fixpoint run_cases (filename : string) (data : Suite) (base_url : string)
    (idx : nat) (cases : list Case) (st : State) : State * Res unit :=
  match cases with
  | [] => (st, Ok tt)
  | case :: rest =>
      match run_case filename data base_url idx case st with
      | (st', Ok _) => run_cases filename data base_url (S idx) rest st'
      | (st', Raise e) => (st', Raise e)
      end
  end.

Definition test_api_from_json (filename : string) (data : Suite)
    (st : State) : State * Res unit :=
  let base_url := rstrip_slash (default "" (suite_base_url data)) in
  if String.eqb base_url "" then
    (st, Raise (AssertionError (filename +:+ ".json must have 'base_url'")))
  else
    run_cases filename data base_url 1 (default [] (suite_test_cases data)) st.

(** The parametrised test as the test harness runs it: once per loaded file,
    in order, whatever the outcome of the earlier instances. *)
Fixpoint session (all_json_data : list (string * Suite)) (st : State)
    : State * list (string * Res unit) :=
  match all_json_data with
  | [] => (st, [])
  | (filename, data) :: rest =>
      let '(st', outcome) := test_api_from_json filename data st in
      let '(st'', outcomes) := session rest st' in
      (st'', (filename, outcome) :: outcomes)
  end.

End Runner.

End New.

(** ** The rest of [Role_based.py]: old reports, report rows, exit status *)

Module Housekeeping.
Import Py Role_based.

(** *** [cleanup_old_reports] *)

Definition MAX_REPORTS_TO_KEEP : nat := 5.

(** A file that [REPORTS_DIR.glob("api_report_*.html")] finds, with its
    modification time. *)
Record ReportFile : Type := mkReportFile {
  report_name : string;
  report_mtime : Z }.

(** [sorted(..., key=os.path.getmtime, reverse=True)]: newest first, files of
    equal age in the order they were found. *)
Fixpoint insert_report (r : ReportFile) (reports : list ReportFile)
    : list ReportFile :=
  match reports with
  | [] => [r]
  | x :: rest =>
      if report_mtime x >? report_mtime r then x :: insert_report r rest
      else r :: reports
  end.

Definition newest_first (reports : list ReportFile) : list ReportFile :=
  fold_right insert_report [] reports.

(** The loop [for old_report in reports[MAX_REPORTS_TO_KEEP:]] inside the
    [try]: the files unlinked before an [unlink] raises, if one does. *)
Fixpoint unlink_each (unlink_ok : string -> bool) (old : list ReportFile)
    : list ReportFile :=
  match old with
  | [] => []
  | old_report :: rest =>
      if unlink_ok (report_name old_report)
      then old_report :: unlink_each unlink_ok rest
      else []
  end.

(** [cleanup_old_reports()]: the files deleted, and the files left. *)
Definition cleanup_old_reports (unlink_ok : string -> bool)
    (found : list ReportFile) : list ReportFile * list ReportFile :=
  let reports := newest_first found in
  let deleted := unlink_each unlink_ok (drop MAX_REPORTS_TO_KEEP reports) in
  (deleted,
   take MAX_REPORTS_TO_KEEP reports
   ++ drop (length deleted) (drop MAX_REPORTS_TO_KEEP reports)).

(** *** The rows of [generate_html] *)

Definition is_alnum (c : ascii) : bool :=
  is_upper c || is_lower c || is_digit c.

(** [re.sub(r'[^a-zA-Z0-9]', '_', api_name).strip('_')] *)
Definition group_id (api_name : string) : string :=
  let underscore := fun c => Ascii.eqb c "_" in
  rstrip_by underscore
    (lstrip_by underscore
       (map_chars (fun c => if is_alnum c then c else "_"%char) api_name)).

(** [f"det_{group_id}_{i}"]; [i] counts the rows of a group from 1. *)
Definition row_id (api_name : string) (i : nat) : string :=
  "det_" +:+ group_id api_name +:+ "_" +:+ str_int (Z.of_nat i).

(** The style class of a row. *)
Definition row_class (r : Result) : string :=
  match r_result r with
  | PASS => "pass"
  | FAIL => "fail"
  | SKIPPED => "skip"
  end.

(** *** The exit status of the script *)

(** [sys.exit(1 if final_summary["failed"] > 0 else 0)] *)
Definition exit_status (final_summary : Summary) : Z :=
  if (0 <? failed final_summary)%nat then 1 else 0.

End Housekeeping.

(** ** A sample environment

    Concrete suites and endpoints on which the runners are evaluated.  The
    renderers of the Python runtime are stood in for by constant texts; the
    evaluations below do not depend on the text they produce. *)

Module Sample.
Import Py Http.

Definition py_repr (v : json) : string := "<repr>".
Definition repr_headers (h : gmap string string) : string := "<headers>".
Definition json_dumps_indent (ensure_ascii : bool) (v : json) : string := "<json>".
Definition json_dumps (v : json) : string := "<json>".
Definition repr_errors (errors : list string) : string := "<errors>".
Definition json_validate (instance schema : json) : option string := None.
Definition py_hash (v : option string) : Z := 0.

(** Every login fails: the token sets hold empty strings. *)
Definition get_tokens_from_api (i : nat) (role : string) : Role_based.Tokens :=
  Role_based.mkTokens "" "" "".

(** An endpoint that is down, and one that answers 200 or 500. *)
Definition connection_refused (i : nat) (url : string)
    (headers : gmap string string) (params : list (string * string))
    : Outcome :=
  Raised "connection refused".

Definition ok_response : Response :=
  mkResponse 200 [("Content-Type", "application/json")]
    (Some (JDict [("status", JStr "ok")])) "" 12.

Definition answers_ok (i : nat) (url : string)
    (headers : gmap string string) (params : list (string * string))
    : Outcome :=
  Returned ok_response.

Definition ping : Role_based.Case :=
  Role_based.mkCase (Some "PING_001") None None None (Some "/ping") None None
    None None None (Some 200) None None None None.

Definition ping_suite : Role_based.Suite :=
  Role_based.mkSuite "ping" (Some "https://api.x") None None None
    (Some [ping; ping]).

(** A suite for [new.py]: two cases in one file, and an endpoint that
    answers 500. *)
Definition new_ping : New.Case :=
  New.mkCase (Some "PING_001") (Some "/ping") None (Some "GET") None None None
    None None None None (Some 200) None.

Definition new_suite : New.Suite :=
  New.mkSuite (Some "https://api.x") None None None (Some [new_ping; new_ping]).

Definition server_error (i : nat) (method url : string)
    (headers : gmap string string) (json_body : option json) : Outcome :=
  Returned (mkResponse 500 [] None "" 7).

(** A case that asks for no credentials, in a suite whose token table has an
    entry named like the sentinel. *)
Definition anonymous_ping : New.Case :=
  New.mkCase (Some "ANON_001") (Some "/ping") None (Some "GET") None None None
    None None None (Some (Some "empty")) None None.

Definition suite_with_empty_token : New.Suite :=
  New.mkSuite (Some "https://api.x") None None (Some {["empty" := "abc"]})
    (Some [anonymous_ping]).

(** The same for [Role_based.py], with headers in the file and the case. *)
Definition anonymous : Role_based.Case :=
  Role_based.mkCase (Some "ANON_001") None None None (Some "/ping") None
    (Some {["X-ID-Token" := "case-level"]}) None None (Some (Some "empty"))
    None None None None None.

Definition suite_with_credentials : Role_based.Suite :=
  Role_based.mkSuite "anon" (Some "https://api.x")
    None (Some {["Authorization" := "Bearer file-level"]})
    (Some {["empty" := "abc"]}) (Some [anonymous]).

(** Two candidates: an object that requires a field [name] of the data, and
    one that requires a field [id]; and a response that has [id] only. *)
Definition wants_name : New.Candidate :=
  New.CandDict (New.mkExpectDict None (Some ["name"]) None false).
Definition wants_id : New.Candidate :=
  New.CandDict (New.mkExpectDict None (Some ["id"]) None false).
Definition body_with_id : json :=
  JDict [("data", JDict [("id", JInt 7)])].

End Sample.

(** Further sample data: an endpoint that times out once and then answers,
    cases without an endpoint, and a schema validator that rejects. *)
Module Fixtures.
Import Py Http.


Definition no_endpoint : Role_based.Case :=
  Role_based.mkCase (Some "NOEP_001") None None None None None None None None
    None None None None None None.

Definition answers_200 (i : nat) (method url : string)
    (headers : gmap string string) (json_body : option json) : Outcome :=
  Returned Sample.ok_response.

Definition new_no_endpoint : New.Case :=
  New.mkCase (Some "NOEP_001") None None None None None None None None None
    None None None.

Definition rejects (instance schema : json) : option string :=
  Some "'name' is a required property".

Definition schema_expectation : New.ExpectDict :=
  New.mkExpectDict (Some (JDict [("required", JList [JStr "name"])])) None None
    false.

(** [json.dumps(v, indent=2)] on a non-empty list of strings that hold no
    quote, backslash, control or non-ASCII character; no other value is
    rendered. *)
Definition dumps_item (v : json) : string :=
  match v with
  | JStr s => dquote +:+ s +:+ dquote
  | _ => "<json>"
  end.

Definition json_dumps_indent (ensure_ascii : bool) (v : json) : string :=
  match v with
  | JList (first :: rest) =>
      "[" +:+ nl +:+ "  " +:+ dumps_item first
      +:+ fold_right
            (fun item s => "," +:+ nl +:+ "  " +:+ dumps_item item +:+ s)
            "" rest
      +:+ nl +:+ "]"
  | _ => "<json>"
  end.

(** A suite whose file-level headers hold an API key, and an endpoint that
    answers with another value of that header. *)
Definition suite_with_api_key : Role_based.Suite :=
  Role_based.mkSuite "keys" (Some "https://api.x") None
    (Some {["X-Api-Key" := "s3cr3t-2"]}) None (Some [Sample.ping]).

Definition answers_other_key (i : nat) (url : string)
    (headers : gmap string string) (params : list (string * string))
    : Outcome :=
  Returned
    (mkResponse 200
       [("Content-Type", "application/json"); ("X-Api-Key", "other")]
       (Some (JDict [("status", JStr "ok")])) "" 12).

Definition farmers : Role_based.Result :=
  Role_based.mkResult "F_001" "-" (Role_based.StatusCode 200) Role_based.PASS
    "" "GET /farmers" "GET" (Some "/farmers").

Definition farmers_page : Role_based.Result :=
  Role_based.mkResult "F_002" "-" (Role_based.StatusCode 200) Role_based.PASS
    "" "GET /farmers?page=2" "GET" (Some ("/farmers" +:+ "?" +:+ "page=2")).

End Fixtures.

(** ** Vocabulary of the statements *)

(** A header name matches a set of lower-case names without regard to
    case. *)
Definition is_sensitive (names : list string) (k : string) : bool :=
  Py.str_in (Py.lower k) names.

(** The effects of [n] attempts: each is a request, and a sleep separates
    two consecutive attempts. *)
Fixpoint retry_trace (request pause : Role_based.Event) (n : nat)
    : list Role_based.Event :=
  match n with
  | O => []
  | S O => [request]
  | S n' => request :: pause :: retry_trace request pause n'
  end.

(** The elapsed times of the calls [first], ..., [first + n - 1] of a request
    that returned a response, in order. *)
Definition answered_ms
    (requests_get :
       nat -> string -> gmap string string -> list (string * string)
       -> Http.Outcome)
    (p_url : string) (p_headers : gmap string string)
    (p_params : list (string * string)) (first n : nat) : list Z :=
  omap (fun i => match requests_get i p_url p_headers p_params with
                 | Http.Returned resp => Some (Http.resp_elapsed_ms resp)
                 | Http.Raised _ => None
                 end) (seq first n).

(** One result for the test [id] has been recorded between two summaries,
    as a PASS or as a FAIL. *)
Definition recorded_executed (id : string) (s s' : Role_based.Summary) : Prop :=
  Role_based.total s' = Role_based.total s /\
  Role_based.skipped s' = Role_based.skipped s /\
  exists r,
    Role_based.results s' = Role_based.results s ++ [r] /\
    Role_based.r_id r = id /\
    ((Role_based.r_result r = Role_based.PASS /\
      Role_based.passed s' = S (Role_based.passed s) /\
      Role_based.failed s' = Role_based.failed s)
     \/
     (Role_based.r_result r = Role_based.FAIL /\
      Role_based.passed s' = Role_based.passed s /\
      Role_based.failed s' = S (Role_based.failed s))).

(** The counters of a summary add up, and count the results. *)
Definition counters_consistent (s : Role_based.Summary) : Prop :=
  Role_based.total s
  = (Role_based.passed s + Role_based.failed s + Role_based.skipped s)%nat /\
  Role_based.total s = length (Role_based.results s).

(** One case has been recorded between two summaries: one more in [total],
    one result for the test [id], and one more in the counter of its
    verdict. *)
Definition recorded_case (id : string) (s s' : Role_based.Summary) : Prop :=
  Role_based.total s' = S (Role_based.total s) /\
  exists r,
    Role_based.results s' = Role_based.results s ++ [r] /\
    Role_based.r_id r = id /\
    ((Role_based.r_result r = Role_based.PASS /\
      Role_based.passed s' = S (Role_based.passed s) /\
      Role_based.failed s' = Role_based.failed s /\
      Role_based.skipped s' = Role_based.skipped s)
     \/
     (Role_based.r_result r = Role_based.FAIL /\
      Role_based.passed s' = Role_based.passed s /\
      Role_based.failed s' = S (Role_based.failed s) /\
      Role_based.skipped s' = Role_based.skipped s)
     \/
     (Role_based.r_result r = Role_based.SKIPPED /\
      Role_based.passed s' = Role_based.passed s /\
      Role_based.failed s' = Role_based.failed s /\
      Role_based.skipped s' = S (Role_based.skipped s))).

(** The test identifiers of the cases of a file, and of a run, in the order
    of discovery. *)
Fixpoint ids_of_cases (data : Role_based.Suite) (idx : nat)
    (cases : list Role_based.Case) : list string :=
  match cases with
  | [] => []
  | case :: rest =>
      Role_based.test_id_of data idx case :: ids_of_cases data (S idx) rest
  end.

Fixpoint ids_of_files (files : list Role_based.JsonFile) : list string :=
  match files with
  | [] => []
  | Role_based.LoadError :: rest => ids_of_files rest
  | Role_based.Loaded data :: rest =>
      ids_of_cases data 1 (default [] (Role_based.suite_test_cases data))
      ++ ids_of_files rest
  end.




(** The discrepancies that [validate_response] finds for one candidate taken
    alone: the [temp_errors] of an object, the one message of a string that
    the serialized body does not contain. *)
Definition discrepancies (json_validate : Py.json -> Py.json -> option string)
    (json_dumps : Py.json -> string) (test_id : string) (resp_json : Py.json)
    (c : New.Candidate) : New.Res (list string) :=
  match c with
  | New.CandDict d => New.dict_candidate_errors json_validate test_id resp_json d
  | New.CandStr s =>
      New.Ok (if Py.contains s (json_dumps resp_json) then []
              else ["Expected message not found: " +:+ s])
  | New.CandOther _ => New.Ok []
  end.

(** A candidate is an expectation object or a literal string. *)
Definition dict_or_literal (c : New.Candidate) : Prop :=
  match c with
  | New.CandOther _ => False
  | _ => True
  end.

(** Every character of a string satisfies [p]. *)
Fixpoint all_chars (p : ascii -> bool) (s : string) : bool :=
  match s with
  | EmptyString => true
  | String c r => p c && all_chars p r
  end.

(** The number of results with a given verdict. *)
Definition verdict_eqb (a b : Role_based.Verdict) : bool :=
  match a, b with
  | Role_based.PASS, Role_based.PASS => true
  | Role_based.FAIL, Role_based.FAIL => true
  | Role_based.SKIPPED, Role_based.SKIPPED => true
  | _, _ => false
  end.

Definition count_verdict (v : Role_based.Verdict)
    (results : list Role_based.Result) : nat :=
  length (List.filter (fun r => verdict_eqb (Role_based.r_result r) v) results).

(** Each counter of a summary counts the results of its verdict. *)
Definition counters_by_verdict (s : Role_based.Summary) : Prop :=
  Role_based.passed s = count_verdict Role_based.PASS (Role_based.results s) /\
  Role_based.failed s = count_verdict Role_based.FAIL (Role_based.results s) /\
  Role_based.skipped s
  = count_verdict Role_based.SKIPPED (Role_based.results s).

(** What [new.py] hands to [requests.request]: the [Accept] header is set,
    a JSON body goes with the methods POST, PUT and PATCH and with no other,
    and a body is a value that counts as true or the empty object. *)
Definition well_formed_request (ev : New.Event) : Prop :=
  match ev with
  | New.EvRequest method url headers json_body =>
      headers !! "Accept" = Some "application/json" /\
      (json_body = None <-> Py.str_in method ["POST"; "PUT"; "PATCH"] = false) /\
      forall body : Py.json,
        json_body = Some body -> Py.truthy body = true \/ body = Py.JDict []
  end.

(** The number of test instances of a session that ended with an
    exception. *)
Definition raised_outcomes (outcomes : list (string * New.Res unit)) : nat :=
  length (List.filter
            (fun o => match snd o with New.Raise _ => true | New.Ok _ => false end)
            outcomes).

(** How the counters of [new.py] move from [s] to [s'] over cases of which
    at most [raised] ended with an exception: [total] counts every case,
    [passed] those that returned, [skipped] some of those that raised. *)
Definition counted (raised : nat) (s s' : New.Summary) : Prop :=
  New.failed s' = New.failed s /\
  (New.passed s <= New.passed s')%nat /\
  (New.skipped s <= New.skipped s')%nat /\
  (New.total s + New.passed s' + New.skipped s'
   <= New.total s' + New.passed s + New.skipped s)%nat /\
  (New.total s' + New.passed s <= New.total s + New.passed s' + raised)%nat /\
  (New.skipped s' <= New.skipped s + raised)%nat.

(** * Properties *)

(** ** The model on small inputs *)

Example strip_example : Py.strip "  a b  " = "a b".
Proof. reflexivity. Qed.

Example split_on_example :
  Py.split_on "." "data.0.name" = ["data"; "0"; "name"]
  /\ Py.split_on "." "" = [""].
Proof. split; reflexivity. Qed.

Example int_of_str_example :
  Py.int_of_str " -12 " = Some (-12) /\ Py.int_of_str "1_000" = Some 1000
  /\ Py.int_of_str "1__0" = None /\ Py.int_of_str "x" = None.
Proof. repeat split; reflexivity. Qed.

Example pad3_example : Py.pad3 7 = "007" /\ Py.pad3 1234 = "1234".
Proof. split; reflexivity. Qed.

Example html_escape_example : Py.html_escape "<a&b>" = "&lt;a&amp;b&gt;".
Proof. reflexivity. Qed.

Example substitute_path_params_example :
  Py.substitute_path_params Sample.py_repr (<["id" := Py.JInt 5]> ∅)
    "/a/{id}/b/{id}/{x}"
  = "/a/5/b/5/{x}".
Proof. vm_compute. reflexivity. Qed.

Example resolve_path_example :
  let doc :=
    Py.JDict [("data", Py.JList [Py.JDict [("name", Py.JStr "Asha")]])] in
  Role_based.resolve_path doc (Py.split_on "." "data.0.name") = Py.JStr "Asha"
  /\ Role_based.resolve_path doc (Py.split_on "." "data.1.name") = Py.JNull
  /\ Role_based.resolve_path doc (Py.split_on "." "data.x") = Py.JNull.
Proof. repeat split; reflexivity. Qed.

Example strip_volatile_example :
  Role_based.strip_volatile 0 "GET /farmers/{id}/crops/12ab"
  = "GET /farmers/cropsab"
  /\ Role_based.strip_volatile 0 "GET /facade-abc/1" = "GET ".
Proof. split; reflexivity. Qed.

(** A suite with one case [/ping] that expects 200, against an endpoint that
    answers 200 with the body [{"status": "ok"}]: one case, passed. *)
Example ping_passes :
  let summary :=
    Role_based.SUMMARY
      (fst (Role_based.run_all_tests 2 1 false "" Sample.py_hash
              Sample.py_repr Sample.repr_headers Sample.json_dumps_indent
              Sample.get_tokens_from_api Sample.answers_ok
              [Role_based.Loaded
                 (Role_based.mkSuite "ping" (Some "https://api.x") None None
                    None (Some [Sample.ping]))]
              Role_based.initial_state)) in
  Role_based.total summary = 1%nat /\ Role_based.passed summary = 1%nat
  /\ Role_based.failed summary = 0%nat
  /\ map Role_based.r_result (Role_based.results summary) = [Role_based.PASS].
Proof. vm_compute. repeat split; reflexivity. Qed.

(** ** Strings *)

Lemma prefix_refl (s : string) : String.prefix s s = true.
Proof.
  induction s as [|c s IH]; simpl; [reflexivity|].
  destruct (ascii_dec c c); [exact IH | congruence].
Qed.

Lemma contains_refl (s : string) : Py.contains s s = true.
Proof.
  destruct s as [|c s]; [reflexivity|].
  cbn [Py.contains]. rewrite prefix_refl. reflexivity.
Qed.

Lemma eqb_contains (a b : string) :
  String.eqb a b = true -> Py.contains (Py.lower a) (Py.lower b) = true.
Proof. intros H. apply String.eqb_eq in H. subst. apply contains_refl. Qed.

Lemma append_cons (x : ascii) (a b : string) :
  String x a +:+ b = String x (a +:+ b).
Proof. reflexivity. Qed.

Lemma append_assoc (a b c : string) : (a +:+ b) +:+ c = a +:+ (b +:+ c).
Proof.
  induction a as [|x a IH]; [reflexivity|].
  rewrite !append_cons, IH. reflexivity.
Qed.

Lemma all_chars_app (p : ascii -> bool) (a b : string) :
  all_chars p (a +:+ b) = all_chars p a && all_chars p b.
Proof.
  induction a as [|x a IH]; [reflexivity|].
  rewrite append_cons. cbn [all_chars]. rewrite IH, andb_assoc. reflexivity.
Qed.

Lemma all_chars_weaken (p q : ascii -> bool) (s : string) :
  (forall c, p c = true -> q c = true) ->
  all_chars p s = true -> all_chars q s = true.
Proof.
  intros Hpq. induction s as [|c s IH]; cbn; [reflexivity|].
  intros H. apply andb_true_iff in H. destruct H as [Hc Hs].
  rewrite (Hpq c Hc), (IH Hs). reflexivity.
Qed.

Lemma span_all (p : ascii -> bool) (s : string) :
  all_chars p s = true -> Py.span p s = (s, EmptyString).
Proof.
  induction s as [|c s IH]; cbn; [reflexivity|].
  intros H. apply andb_true_iff in H. destruct H as [-> Hs].
  rewrite (IH Hs). reflexivity.
Qed.

(** Stripping on the right keeps a string that ends with characters outside
    the stripped set. *)
Lemma rstrip_by_keep (p : ascii -> bool) (s t : string) :
  t <> EmptyString -> all_chars (fun c => negb (p c)) t = true ->
  Py.rstrip_by p (s +:+ t) = s +:+ t.
Proof.
  intros Hne Ht.
  assert (Hbase : Py.rstrip_by p t = t).
  { clear Hne. induction t as [|c t IH]; cbn; [reflexivity|].
    cbn in Ht. apply andb_true_iff in Ht. destruct Ht as [Hc Ht].
    rewrite (IH Ht). apply negb_true_iff in Hc. rewrite Hc.
    destruct t; reflexivity. }
  induction s as [|c s IH]; [exact Hbase|].
  rewrite append_cons. cbn [Py.rstrip_by]. rewrite IH.
  destruct (s +:+ t) eqn:Happ; [|reflexivity].
  destruct s; [contradiction | discriminate].
Qed.

Lemma split_on_absent (sep : ascii) (s : string) :
  all_chars (fun c => negb (Ascii.eqb c sep)) s = true ->
  Py.split_on sep s = [s].
Proof.
  induction s as [|c s IH]; cbn; [reflexivity|].
  intros H. apply andb_true_iff in H. destruct H as [Hc Hs].
  apply negb_true_iff in Hc. rewrite Hc, (IH Hs). reflexivity.
Qed.

(** Character classes. *)
Lemma upper_not_space (c : ascii) : Py.is_upper c = true -> Py.is_space c = false.
Proof.
  unfold Py.is_upper, Py.is_space. intros H.
  apply andb_true_iff in H. destruct H as [H1 H2].
  apply N.leb_le in H1. apply N.leb_le in H2.
  apply orb_false_iff; split; apply andb_false_iff.
  - right. apply N.leb_gt. lia.
  - right. apply N.leb_gt. lia.
Qed.

Lemma digit_not_space (c : ascii) : Py.is_digit c = true -> Py.is_space c = false.
Proof.
  unfold Py.is_digit, Py.is_space. intros H.
  apply andb_true_iff in H. destruct H as [H1 H2].
  apply N.leb_le in H1. apply N.leb_le in H2.
  apply orb_false_iff; split; apply andb_false_iff.
  - right. apply N.leb_gt. lia.
  - right. apply N.leb_gt. lia.
Qed.

Lemma upper_is_not (c x : ascii) :
  (N_of_ascii x < 65)%N -> Py.is_upper c = true -> Ascii.eqb c x = false.
Proof.
  unfold Py.is_upper. intros Hx H.
  apply andb_true_iff in H. destruct H as [H1 _]. apply N.leb_le in H1.
  apply Ascii.eqb_neq. intros ->. lia.
Qed.

Lemma digit_is_not (c x : ascii) :
  (N_of_ascii x < 48 \/ 57 < N_of_ascii x)%N -> Py.is_digit c = true ->
  Ascii.eqb c x = false.
Proof.
  unfold Py.is_digit. intros Hx H.
  apply andb_true_iff in H. destruct H as [H1 H2].
  apply N.leb_le in H1. apply N.leb_le in H2.
  apply Ascii.eqb_neq. intros ->. lia.
Qed.

(** ** Endpoint groups *)

Lemma match_volatile_needs_slash (c : ascii) (r : string) :
  Ascii.eqb c "/" = false -> Role_based.match_volatile (String c r) = None.
Proof.
  destruct c as [[] [] [] [] [] [] [] []]; cbn; congruence.
Qed.

Lemma strip_volatile_plain (s t : string) :
  all_chars (fun c => negb (Ascii.eqb c "/")) s = true ->
  Role_based.strip_volatile 0 (s +:+ t) = s +:+ Role_based.strip_volatile 0 t.
Proof.
  induction s as [|c s IH]; [reflexivity|].
  rewrite !append_cons. cbn [all_chars].
  intros H. apply andb_true_iff in H. destruct H as [Hc Hs].
  apply negb_true_iff in Hc.
  cbn [Role_based.strip_volatile].
  rewrite (match_volatile_needs_slash c _ Hc), (IH Hs). reflexivity.
Qed.

Lemma strip_volatile_skip (d : string) :
  Role_based.strip_volatile (String.length d) d = EmptyString.
Proof. induction d as [|c d IH]; cbn; [reflexivity | exact IH]. Qed.

(** A slash followed by digits up to the end is removed whole. *)
Lemma strip_volatile_numeric (d : string) :
  d <> EmptyString -> all_chars Py.is_digit d = true ->
  Role_based.strip_volatile 0 (String "/" d) = EmptyString.
Proof.
  intros Hne Hd.
  assert (Hmatch : Role_based.match_volatile (String "/" d)
                   = Some (S (String.length d))).
  { unfold Role_based.match_volatile, Role_based.alt_hex, Role_based.alt_digits.
    rewrite (span_all Role_based.is_hex_dash d).
    2:{ apply (all_chars_weaken Py.is_digit); [|exact Hd].
        intros c Hc. unfold Role_based.is_hex_dash. rewrite Hc. reflexivity. }
    rewrite (span_all Py.is_digit d Hd). cbn [fst].
    destruct (8 <=? String.length d)%nat; [reflexivity|].
    destruct d; [contradiction | reflexivity]. }
  cbn [Role_based.strip_volatile]. rewrite Hmatch.
  replace (S (String.length d) - 1)%nat with (String.length d) by lia.
  apply strip_volatile_skip.
Qed.

Lemma strip_volatile_farmers (d : string) :
  Role_based.strip_volatile 0 (" /farmers/" +:+ d)
  = " /farmers" +:+ Role_based.strip_volatile 0 (String "/" d).
Proof. reflexivity. Qed.

(** The group key of a numeric child of [/farmers]. *)
Lemma group_key_farmers (r : Role_based.Result) (m d : string) :
  m <> EmptyString -> all_chars Py.is_upper m = true ->
  d <> EmptyString -> all_chars Py.is_digit d = true ->
  Role_based.r_method r = m ->
  Role_based.r_endpoint r = Some ("/farmers/" +:+ d) ->
  Role_based.group_key r = m +:+ " /farmers".
Proof.
  intros Hm Hupper Hd Hdigits Hmethod Hendpoint.
  unfold Role_based.group_key. rewrite Hmethod, Hendpoint.
  change (Py.fmt_opt (Some ("/farmers/" +:+ d))) with ("/farmers/" +:+ d).
  change (m +:+ " " +:+ "/farmers/" +:+ d) with (m +:+ " /farmers/" +:+ d).
  assert (Hstrip : Py.strip (m +:+ " /farmers/" +:+ d)
                   = m +:+ " /farmers/" +:+ d).
  { unfold Py.strip.
    replace (Py.lstrip_by Py.is_space (m +:+ " /farmers/" +:+ d))
      with (m +:+ " /farmers/" +:+ d).
    2:{ destruct m as [|c m]; [contradiction|]. cbn [all_chars] in Hupper.
        apply andb_true_iff in Hupper. destruct Hupper as [Hc _].
        rewrite append_cons. cbn [Py.lstrip_by].
        rewrite (upper_not_space c Hc). reflexivity. }
    rewrite <- append_assoc. apply rstrip_by_keep; [exact Hd|].
    apply (all_chars_weaken Py.is_digit); [|exact Hdigits].
    intros c Hc. rewrite (digit_not_space c Hc). reflexivity. }
  rewrite Hstrip.
  assert (Hnonempty : forall t, String.eqb (m +:+ t) "" = false).
  { intros t. destruct m; [contradiction | reflexivity]. }
  rewrite Hnonempty.
  rewrite split_on_absent.
  2:{ rewrite !all_chars_app.
      rewrite (all_chars_weaken Py.is_upper _ m) by
        (exact Hupper
         || (intros c H; rewrite (upper_is_not c "?"); [reflexivity| |exact H];
             vm_compute; reflexivity)).
      rewrite (all_chars_weaken Py.is_digit _ d) by
        (exact Hdigits
         || (intros c H; rewrite (digit_is_not c "?"); [reflexivity| |exact H];
             right; vm_compute; reflexivity)).
      reflexivity. }
  cbn [hd].
  rewrite strip_volatile_plain.
  2:{ apply (all_chars_weaken Py.is_upper); [|exact Hupper].
      intros c Hc. rewrite (upper_is_not c "/"); [reflexivity| |exact Hc].
      vm_compute; reflexivity. }
  rewrite strip_volatile_farmers, (strip_volatile_numeric d Hd Hdigits).
  change (" /farmers" +:+ "") with (" /farmer" +:+ "s").
  unfold Py.rstrip_slash. rewrite <- append_assoc.
  rewrite rstrip_by_keep by (cbn; congruence).
  rewrite append_assoc, Hnonempty. reflexivity.
Qed.

(** C8.  Two results with the same method, a non-empty word of upper-case
    letters, and with the endpoints [/farmers/<digits>], such as
    [/farmers/123] and [/farmers/456], have the same group key, the method
    followed by [/farmers], and [generate_html] files both under that one
    heading; a UUID-like segment, an [invalid-*] segment and a
    [{placeholder}] segment are stripped as well. *)
Theorem numeric_children_share_a_group :
  (forall (m d1 d2 : string) (r1 r2 : Role_based.Result),
      m <> EmptyString -> all_chars Py.is_upper m = true ->
      d1 <> EmptyString -> all_chars Py.is_digit d1 = true ->
      d2 <> EmptyString -> all_chars Py.is_digit d2 = true ->
      Role_based.r_method r1 = m ->
      Role_based.r_endpoint r1 = Some ("/farmers/" +:+ d1) ->
      Role_based.r_method r2 = m ->
      Role_based.r_endpoint r2 = Some ("/farmers/" +:+ d2) ->
      Role_based.group_key r1 = m +:+ " /farmers" /\
      Role_based.group_key r2 = Role_based.group_key r1 /\
      forall total passed failed skipped slow_tests,
        Role_based.api_groups
          (Role_based.mkSummary total passed failed skipped [r1; r2] slow_tests)
        = [(m +:+ " /farmers", [r1; r2])]) /\
  (forall r : Role_based.Result,
      Role_based.r_method r = "GET" ->
      (Role_based.r_endpoint r
       = Some "/farmers/123e4567-e89b-12d3-a456-426614174000" \/
       Role_based.r_endpoint r = Some "/farmers/invalid-id" \/
       Role_based.r_endpoint r = Some "/farmers/{farmer_id}") ->
      Role_based.group_key r = "GET /farmers").
Proof.
  split.
  - intros m d1 d2 r1 r2 Hm Hupper Hd1 Hdigits1 Hd2 Hdigits2 Hm1 He1 Hm2 He2.
    pose proof (group_key_farmers r1 m d1 Hm Hupper Hd1 Hdigits1 Hm1 He1) as K1.
    pose proof (group_key_farmers r2 m d2 Hm Hupper Hd2 Hdigits2 Hm2 He2) as K2.
    split; [exact K1 | split; [congruence|]].
    intros. unfold Role_based.api_groups.
    cbn [Role_based.results fold_left Role_based.group_append].
    rewrite K1, K2, String.eqb_refl. reflexivity.
  - intros r Hmethod Hendpoint. unfold Role_based.group_key.
    rewrite Hmethod.
    destruct Hendpoint as [-> | [-> | ->]]; reflexivity.
Qed.

(** ** Header redaction *)

Section Redaction.

Variable sensitive : string -> bool.
Variable marker : string.

Let step (k v : string) (redacted : gmap string string) : gmap string string :=
  if sensitive k then <[k := marker]> redacted else <[k := v]> redacted.

(** A rebuild of a mapping entry by entry changes the values only. *)
Lemma rebuild_lookup (headers : gmap string string) (k : string) :
  map_fold step ∅ headers !! k
  = (fun v => if sensitive k then marker else v) <$> headers !! k.
Proof.
  revert k.
  apply (map_fold_weak_ind
           (fun r m => forall k, r !! k
              = (fun v => if sensitive k then marker else v) <$> m !! k)).
  - intros k. rewrite !lookup_empty. reflexivity.
  - intros i x m r Hi IH k. unfold step.
    destruct (decide (i = k)) as [->|Hne].
    + rewrite lookup_insert_eq.
      destruct (sensitive k); rewrite lookup_insert_eq; reflexivity.
    + rewrite (lookup_insert_ne m) by exact Hne.
      destruct (sensitive i); rewrite lookup_insert_ne by exact Hne; apply IH.
Qed.

End Redaction.

Lemma role_based_redact_lookup (headers : gmap string string) (k : string) :
  Role_based.redact_headers headers !! k
  = (fun v => if is_sensitive Role_based.sensitive_names k
              then Role_based.redaction_marker else v) <$> headers !! k.
Proof.
  unfold Role_based.redact_headers.
  rewrite (rebuild_lookup
             (fun k => negb (String.eqb k "")
                       && Py.str_in (Py.lower k) Role_based.sensitive_names)
             Role_based.redaction_marker).
  destruct (headers !! k) as [v|]; simpl; [|reflexivity].
  unfold is_sensitive.
  destruct k; simpl; reflexivity.
Qed.

Lemma new_redact_lookup (headers : gmap string string) (k : string) :
  New.redact_headers headers !! k
  = (fun v => if is_sensitive New.sensitive_names k
              then New.redaction_marker else v) <$> headers !! k.
Proof.
  unfold New.redact_headers.
  apply (rebuild_lookup (fun k => Py.str_in (Py.lower k) New.sensitive_names)).
Qed.

(** ** The partial-match toggle *)

Section PartialMatch.

Variable py_repr : Py.json -> string.

Import Py Role_based.

Lemma is_nil_true {A : Type} (l : list A) : is_nil l = true <-> l = [].
Proof. destruct l; cbn; split; congruence. Qed.

Lemma concat_map_nil {A B : Type} (f g : A -> list B) (l : list A) :
  (forall x, f x = [] -> g x = []) ->
  concat (map f l) = [] -> concat (map g l) = [].
Proof.
  intros Hfg. induction l as [|x l IH]; cbn; [reflexivity|].
  intros H. apply app_eq_nil in H. destruct H as [Hx Hl].
  rewrite (Hfg x Hx), (IH Hl). reflexivity.
Qed.

Lemma check_top_level_exact_partial (resp expected : list (string * json))
    (key : string) :
  check_top_level false py_repr resp expected key = [] ->
  check_top_level true py_repr resp expected key = [].
Proof.
  unfold check_top_level. destruct (dict_get key expected); [|reflexivity].
  destruct (String.eqb _ _) eqn:Heq; [|discriminate].
  intros _. rewrite (eqb_contains _ _ Heq). reflexivity.
Qed.

Lemma check_nested_exact_partial (resp_json : json) (entry : string * json) :
  check_nested false py_repr resp_json entry = [] ->
  check_nested true py_repr resp_json entry = [].
Proof.
  unfold check_nested. destruct entry as [key_path expected_value].
  destruct (is_null _); [discriminate|].
  destruct (String.eqb _ _) eqn:Heq; [|discriminate].
  intros _. rewrite (eqb_contains _ _ Heq). reflexivity.
Qed.

Lemma validate_exact_partial (resp_json expected_response : json)
    (query_content : option string) (test_type : string)
    (nested_keys : list (string * json)) :
  fst (validate_response_simple false py_repr resp_json expected_response
         query_content test_type nested_keys) = true ->
  fst (validate_response_simple true py_repr resp_json expected_response
         query_content test_type nested_keys) = true.
Proof.
  unfold validate_response_simple.
  destruct resp_json as [| | | | | |resp]; try (cbn; discriminate).
  cbn [fst]. rewrite !is_nil_true. intros H.
  apply app_eq_nil in H. destruct H as [Htop H].
  apply app_eq_nil in H. destruct H as [Hcontent Hnested].
  rewrite Hcontent.
  rewrite (concat_map_nil _ _ _ (check_top_level_exact_partial resp _) Htop).
  rewrite (concat_map_nil _ _ _ (check_nested_exact_partial _) Hnested).
  reflexivity.
Qed.

End PartialMatch.

(** C4.  Whatever the response document, the expectation and the nested
    keys, a validation that succeeds with [ALLOW_PARTIAL_MESSAGE_MATCH] off
    succeeds with it on; and for some input it succeeds with the toggle on
    and fails with it off. *)
Theorem partial_match_is_more_permissive :
  (forall py_repr resp_json expected_response query_content test_type
          nested_keys,
      fst (Role_based.validate_response_simple false py_repr resp_json
             expected_response query_content test_type nested_keys) = true ->
      fst (Role_based.validate_response_simple true py_repr resp_json
             expected_response query_content test_type nested_keys) = true) /\
  (exists resp_json expected_response query_content test_type nested_keys,
      forall py_repr,
        fst (Role_based.validate_response_simple true py_repr resp_json
               expected_response query_content test_type nested_keys) = true /\
        fst (Role_based.validate_response_simple false py_repr resp_json
               expected_response query_content test_type nested_keys) = false).
Proof.
  split; [exact validate_exact_partial|].
  exists (Py.JDict [("message", Py.JStr "Farmer list fetched")]),
         (Py.JDict [("message", Py.JStr "farmer LIST")]), None, "", [].
  intros py_repr. split; reflexivity.
Qed.

(** ** The request loop of [run_all_tests] *)

Section RequestLoop.

Context (MAX_RETRIES RETRY_DELAY : Z) (ALLOW_PARTIAL_MESSAGE_MATCH : bool)
  (py_repr : Py.json -> string) (repr_headers : gmap string string -> string)
  (json_dumps_indent : bool -> Py.json -> string)
  (requests_get :
     nat -> string -> gmap string string -> list (string * string)
     -> Http.Outcome).

Import Py Http Role_based.

Abbreviation loop :=
  (request_loop MAX_RETRIES RETRY_DELAY ALLOW_PARTIAL_MESSAGE_MATCH py_repr
     repr_headers json_dumps_indent requests_get).
Abbreviation answer :=
  (record_response ALLOW_PARTIAL_MESSAGE_MATCH py_repr repr_headers
     json_dumps_indent).
Abbreviation get_of p := (note_get (p_url p) (p_headers p) (p_params p)).
Abbreviation call p st :=
  (requests_get (calls st) (p_url p) (p_headers p) (p_params p)).

Lemma attempt_exhausted (attempt : Z) :
  (attempt + 1 >? MAX_RETRIES) = true \/ (attempt + 1 >? MAX_RETRIES) = false.
Proof. destruct (attempt + 1 >? MAX_RETRIES); auto. Qed.

Lemma request_loop_exit (p : Prepared) (attempt : Z) (st : State) :
  attempt > MAX_RETRIES -> loop p attempt st = st.
Proof.
  intros H. rewrite request_loop_equation_1.
  destruct (Z_le_gt_dec attempt MAX_RETRIES); [lia | reflexivity].
Qed.

Lemma request_loop_step (p : Prepared) (attempt : Z) (st : State) :
  attempt <= MAX_RETRIES ->
  loop p attempt st =
  match call p st with
  | Returned resp => answer p resp (get_of p st)
  | Raised text =>
      if attempt + 1 >? MAX_RETRIES
      then loop p (attempt + 1) (record_exhausted p text (get_of p st))
      else
        match time_sleep RETRY_DELAY (get_of p st) with
        | inl st2 => loop p (attempt + 1) st2
        | inr error => raise_uncaught error (get_of p st)
        end
  end.
Proof.
  intros H. rewrite request_loop_equation_1.
  destruct (Z_le_gt_dec attempt MAX_RETRIES); [reflexivity | lia].
Qed.

(** Induction along the iterations of the loop: it ends at the exit test, at
    an answer, or at a sleep that raises; otherwise the handler records the
    exhaustion or sleeps, and the loop goes round. *)
Lemma request_loop_ind (p : Prepared) (P : Z -> State -> State -> Prop) :
  (forall attempt st, attempt > MAX_RETRIES -> P attempt st st) ->
  (forall attempt st resp,
      attempt <= MAX_RETRIES -> call p st = Returned resp ->
      P attempt st (answer p resp (get_of p st))) ->
  (forall attempt st text st',
      attempt <= MAX_RETRIES -> call p st = Raised text ->
      attempt + 1 > MAX_RETRIES \/ 0 <= RETRY_DELAY <= SLEEP_MAX ->
      P (attempt + 1)
        (if attempt + 1 >? MAX_RETRIES
         then record_exhausted p text (get_of p st)
         else note_sleep RETRY_DELAY (get_of p st)) st' ->
      P attempt st st') ->
  (forall attempt st text error,
      attempt + 1 <= MAX_RETRIES -> call p st = Raised text ->
      ~ 0 <= RETRY_DELAY <= SLEEP_MAX ->
      P attempt st (raise_uncaught error (get_of p st))) ->
  forall attempt st, P attempt st (loop p attempt st).
Proof.
  intros Hexit Hret Hraise Hcrash attempt st.
  remember (Z.to_nat (MAX_RETRIES + 1 - attempt)) as n eqn:Hn.
  revert attempt st Hn.
  induction n as [|n IH]; intros attempt st Hn.
  - rewrite request_loop_exit by lia. apply Hexit. lia.
  - assert (Hle : attempt <= MAX_RETRIES) by lia.
    rewrite request_loop_step by exact Hle.
    destruct (call p st) as [resp|text] eqn:Hcall.
    + apply Hret; assumption.
    + destruct (attempt + 1 >? MAX_RETRIES) eqn:Hlast.
      * apply (Hraise attempt st text); [assumption | assumption | lia |].
        rewrite Hlast. apply IH. lia.
      * unfold time_sleep.
        destruct ((RETRY_DELAY <? - SLEEP_MAX) || (SLEEP_MAX <? RETRY_DELAY))
          eqn:Hlong.
        -- apply (Hcrash attempt st text);
             [lia | assumption | unfold SLEEP_MAX in *; lia].
        -- destruct (RETRY_DELAY <? 0) eqn:Hshort.
           ++ apply (Hcrash attempt st text); [lia | assumption | lia].
           ++ apply (Hraise attempt st text);
                [assumption | assumption | unfold SLEEP_MAX in *; lia |].
              rewrite Hlast. apply IH. lia.
Qed.

(** What an answered request does to the globals. *)
Lemma answer_summary (p : Prepared) (resp : Response) (st : State) :
  recorded_executed (p_test_id p) (SUMMARY st) (SUMMARY (answer p resp st)).
Proof.
  unfold record_response.
  destruct (check_response _ _ p resp) as [test_passed errors].
  destruct (resp_elapsed_ms resp >? GLOBAL_PERF_THRESHOLD_MS);
    destruct test_passed; cbn;
    (split; [reflexivity | split; [reflexivity |]]);
    eexists; (split; [reflexivity | split; [reflexivity |]]); auto.
Qed.

Lemma answer_effects (p : Prepared) (resp : Response) (st : State) :
  PERF_STATS (answer p resp st) = PERF_STATS st ++ [resp_elapsed_ms resp]
  /\ calls (answer p resp st) = calls st
  /\ trace (answer p resp st) = trace st.
Proof.
  unfold record_response.
  destruct (check_response _ _ p resp) as [test_passed errors].
  destruct (resp_elapsed_ms resp >? GLOBAL_PERF_THRESHOLD_MS);
    destruct test_passed; cbn; auto.
Qed.

Lemma answer_uncaught (p : Prepared) (resp : Response) (st : State) :
  uncaught (answer p resp st) = uncaught st.
Proof.
  unfold record_response.
  destruct (check_response _ _ p resp) as [test_passed errors].
  destruct (resp_elapsed_ms resp >? GLOBAL_PERF_THRESHOLD_MS);
    destruct test_passed; reflexivity.
Qed.

Lemma exhausted_summary (p : Prepared) (text : string) (st : State) :
  recorded_executed (p_test_id p) (SUMMARY st)
    (SUMMARY (record_exhausted p text st)).
Proof.
  cbn. split; [reflexivity | split; [reflexivity |]].
  eexists; (split; [reflexivity | split; [reflexivity |]]). right. auto.
Qed.

(** The loop records exactly one result, for the case it was entered for,
    unless a sleep raises: then it records nothing, and the exception leaves
    it. *)
Lemma request_loop_outcome (p : Prepared) (attempt : Z) (st : State) :
  attempt <= MAX_RETRIES ->
  (recorded_executed (p_test_id p) (SUMMARY st) (SUMMARY (loop p attempt st))
   /\ uncaught (loop p attempt st) = uncaught st)
  \/
  (attempt < MAX_RETRIES /\ ~ 0 <= RETRY_DELAY <= SLEEP_MAX
   /\ SUMMARY (loop p attempt st) = SUMMARY st
   /\ is_Some (uncaught (loop p attempt st))).
Proof.
  intros Hle.
  cut ((attempt > MAX_RETRIES -> loop p attempt st = st) /\
       (attempt <= MAX_RETRIES ->
        (recorded_executed (p_test_id p) (SUMMARY st)
           (SUMMARY (loop p attempt st))
         /\ uncaught (loop p attempt st) = uncaught st)
        \/
        (attempt < MAX_RETRIES /\ ~ 0 <= RETRY_DELAY <= SLEEP_MAX
         /\ SUMMARY (loop p attempt st) = SUMMARY st
         /\ is_Some (uncaught (loop p attempt st))))).
  { intros [_ H]. exact (H Hle). }
  clear Hle.
  apply (request_loop_ind p
           (fun attempt st st' =>
              (attempt > MAX_RETRIES -> st' = st) /\
              (attempt <= MAX_RETRIES ->
               (recorded_executed (p_test_id p) (SUMMARY st) (SUMMARY st')
                /\ uncaught st' = uncaught st)
               \/
               (attempt < MAX_RETRIES /\ ~ 0 <= RETRY_DELAY <= SLEEP_MAX
                /\ SUMMARY st' = SUMMARY st /\ is_Some (uncaught st'))))).
  - intros a s Hgt. split; [reflexivity | lia].
  - intros a s resp Ha Hcall. split; [lia | intros _]. left. split.
    + apply (answer_summary p resp (get_of p s)).
    + apply (answer_uncaught p resp (get_of p s)).
  - intros a s text s' Ha Hcall _ [IHexit IHrun]. split; [lia | intros _].
    destruct (attempt_exhausted a) as [Hlast | Hmore].
    + rewrite Hlast in IHexit, IHrun.
      rewrite IHexit by lia. left. split; [|reflexivity].
      apply (exhausted_summary p text (get_of p s)).
    + rewrite Hmore in IHrun.
      destruct IHrun as [Hdone|(Hlt & Hcrashed)]; [lia | left; exact Hdone |].
      right. split; [lia | exact Hcrashed].
  - intros a s text error Ha Hcall Hdelay. split; [lia | intros _].
    right. split; [lia|]. split; [exact Hdelay|]. split; [reflexivity|].
    cbn. eauto.
Qed.



Lemma retry_trace_more (request pause : Event) (k : nat) :
  (1 <= k)%nat ->
  [request; pause] ++ retry_trace request pause k
  = retry_trace request pause (S k).
Proof. destruct k; [lia | reflexivity]. Qed.

(** The attempts of the loop: at least one, at most the number the counter
    still allows; its effects; and the samples added to [PERF_STATS]. *)
Lemma request_loop_effects (p : Prepared) (attempt : Z) (st : State) :
  attempt <= MAX_RETRIES ->
  exists k : nat,
    calls (loop p attempt st) = (calls st + k)%nat /\
    (1 <= k)%nat /\ Z.of_nat k <= MAX_RETRIES + 1 - attempt /\
    trace (loop p attempt st)
    = trace st ++ retry_trace (EvGet (p_url p) (p_headers p) (p_params p))
                    (EvSleep RETRY_DELAY) k /\
    PERF_STATS (loop p attempt st)
    = PERF_STATS st
      ++ answered_ms requests_get (p_url p) (p_headers p) (p_params p)
           (calls st) k.
Proof.
  intros Hle.
  cut ((attempt > MAX_RETRIES -> loop p attempt st = st) /\
       (attempt <= MAX_RETRIES ->
        exists k : nat,
          calls (loop p attempt st) = (calls st + k)%nat /\
          (1 <= k)%nat /\ Z.of_nat k <= MAX_RETRIES + 1 - attempt /\
          trace (loop p attempt st)
          = trace st ++ retry_trace (EvGet (p_url p) (p_headers p) (p_params p))
                          (EvSleep RETRY_DELAY) k /\
          PERF_STATS (loop p attempt st)
          = PERF_STATS st
            ++ answered_ms requests_get (p_url p) (p_headers p) (p_params p)
                 (calls st) k)).
  { intros [_ H]. exact (H Hle). }
  clear Hle.
  apply (request_loop_ind p
    (fun attempt st st' =>
       (attempt > MAX_RETRIES -> st' = st) /\
       (attempt <= MAX_RETRIES ->
        exists k : nat,
          calls st' = (calls st + k)%nat /\
          (1 <= k)%nat /\ Z.of_nat k <= MAX_RETRIES + 1 - attempt /\
          trace st'
          = trace st ++ retry_trace (EvGet (p_url p) (p_headers p) (p_params p))
                          (EvSleep RETRY_DELAY) k /\
          PERF_STATS st'
          = PERF_STATS st
            ++ answered_ms requests_get (p_url p) (p_headers p) (p_params p)
                 (calls st) k))).
  - intros a s Hgt. split; [reflexivity | lia].
  - intros a s resp Ha Hcall. split; [lia | intros _].
    destruct (answer_effects p resp (get_of p s)) as (Hperf & Hcalls & Htrace).
    exists 1%nat. rewrite Hperf, Hcalls, Htrace. cbn.
    unfold answered_ms. cbn. rewrite Hcall. cbn.
    repeat split; lia.
  - intros a s text s' Ha Hcall _ [IHexit IHrun]. split; [lia | intros _].
    destruct (attempt_exhausted a) as [Hlast | Hmore].
    + rewrite Hlast in IHexit. rewrite IHexit by lia.
      exists 1%nat. cbn. unfold answered_ms. cbn. rewrite Hcall. cbn.
      rewrite app_nil_r. repeat split; lia.
    + rewrite Hmore in IHrun.
      destruct IHrun as (k & Hcalls & Hk & Hbound & Htrace & Hperf); [lia|].
      exists (S k). cbn in Hcalls, Htrace, Hperf.
      rewrite Hcalls, Htrace, Hperf.
      rewrite <- retry_trace_more by exact Hk.
      unfold answered_ms. cbn [seq omap list_omap]. rewrite Hcall.
      rewrite <- !app_assoc. repeat split; lia.
  - intros a s text error Ha Hcall Hdelay. split; [lia | intros _].
    exists 1%nat. cbn. unfold answered_ms. cbn. rewrite Hcall. cbn.
    rewrite app_nil_r. repeat split; lia.
Qed.


(** The samples that the loop adds to [PERF_STATS]. *)
Lemma request_loop_perf (p : Prepared) (attempt : Z) (st : State) :
  attempt <= MAX_RETRIES ->
  exists attempts : nat,
    calls (loop p attempt st) = (calls st + attempts)%nat /\
    (1 <= attempts)%nat /\
    PERF_STATS (loop p attempt st)
    = PERF_STATS st
      ++ answered_ms requests_get (p_url p) (p_headers p) (p_params p)
           (calls st) attempts.
Proof.
  intros Hle.
  destruct (request_loop_effects p attempt st Hle)
    as (k & Hcalls & Hk & _ & _ & Hperf).
  exists k. auto.
Qed.

End RequestLoop.

(** ** What the report shows of the headers *)

(** C3, as the code has it.  [redact_headers] of [Role_based.py] replaces by
    the marker the value of every header whose name matches, without regard
    to case, one of authorization, token, x-api-key, x-access-token and
    x-id-token, and keeps every other header; [redact_headers] of [new.py]
    does so for the first four names only. *)
Theorem redaction_by_variant :
  (forall (headers : gmap string string) (k : string),
      Role_based.redact_headers headers !! k
      = (fun v => if is_sensitive
                       ["authorization"; "token"; "x-api-key";
                        "x-access-token"; "x-id-token"] k
                  then "***redacted***" else v) <$> headers !! k) /\
  (forall (headers : gmap string string) (k : string),
      New.redact_headers headers !! k
      = (fun v => if is_sensitive
                       ["authorization"; "token"; "x-api-key";
                        "x-access-token"] k
                  then "***redacted***" else v) <$> headers !! k).
Proof.
  split; [exact role_based_redact_lookup | exact new_redact_lookup].
Qed.

(** [new.py] does not redact an [X-ID-Token] header, whose name is in the
    set of five.  And in [Role_based.py] the value of a sensitive header of
    the suite file reaches the report: the headers of the file are also the
    headers expected of the response, and the mismatch message, which quotes
    the expected value, is written into the Errors section of the details as
    it is. *)
Lemma redaction_gaps :
  is_sensitive Role_based.sensitive_names "X-ID-Token" = true /\
  New.redact_headers {["X-ID-Token" := "s3cr3t"]} !! "X-ID-Token"
  = Some "s3cr3t" /\
  is_sensitive Role_based.sensitive_names "X-Api-Key" = true /\
  default ∅ (Role_based.suite_headers Fixtures.suite_with_api_key)
    !! "X-Api-Key" = Some "s3cr3t-2" /\
  map (fun r => (Role_based.r_result r,
                 Py.contains "expected 's3cr3t-2'" (Role_based.r_details r)))
    (Role_based.results
       (Role_based.SUMMARY
          (Role_based.process_case 2 1 false "" Sample.py_hash Sample.py_repr
             Sample.repr_headers Fixtures.json_dumps_indent
             Sample.get_tokens_from_api Fixtures.answers_other_key
             Fixtures.suite_with_api_key 1 Sample.ping
             Role_based.initial_state)))
  = [(Role_based.FAIL, true)].
Proof. repeat split; vm_compute; reflexivity. Qed.

(** ** The loops of [run_all_tests] over cases and files *)

Section Run.

Context (MAX_RETRIES RETRY_DELAY : Z) (ALLOW_PARTIAL_MESSAGE_MATCH : bool)
  (BASE_URL : string) (py_hash : option string -> Z)
  (py_repr : Py.json -> string) (repr_headers : gmap string string -> string)
  (json_dumps_indent : bool -> Py.json -> string)
  (get_tokens_from_api : nat -> string -> Role_based.Tokens)
  (requests_get :
     nat -> string -> gmap string string -> list (string * string)
     -> Http.Outcome).

Import Py Http Role_based.

Abbreviation loop :=
  (request_loop MAX_RETRIES RETRY_DELAY ALLOW_PARTIAL_MESSAGE_MATCH py_repr
     repr_headers json_dumps_indent requests_get).
Abbreviation prepared :=
  (prepare BASE_URL py_hash py_repr get_tokens_from_api).
Abbreviation case_step :=
  (process_case MAX_RETRIES RETRY_DELAY ALLOW_PARTIAL_MESSAGE_MATCH BASE_URL
     py_hash py_repr repr_headers json_dumps_indent get_tokens_from_api
     requests_get).
Abbreviation cases_loop :=
  (run_cases MAX_RETRIES RETRY_DELAY ALLOW_PARTIAL_MESSAGE_MATCH BASE_URL
     py_hash py_repr repr_headers json_dumps_indent get_tokens_from_api
     requests_get).
Abbreviation files_loop :=
  (run_files MAX_RETRIES RETRY_DELAY ALLOW_PARTIAL_MESSAGE_MATCH BASE_URL
     py_hash py_repr repr_headers json_dumps_indent get_tokens_from_api
     requests_get).

(** What every case keeps, the run keeps. *)
Lemma run_cases_invariant (P : State -> Prop) :
  (forall data idx case st, P st -> P (case_step data idx case st)) ->
  forall data cases idx st, P st -> P (cases_loop data idx cases st).
Proof.
  intros Hstep data cases.
  induction cases as [|case rest IH]; intros idx st Hst; cbn [run_cases];
    [exact Hst|].
  pose proof (Hstep data idx case st Hst) as Hst'.
  destruct (uncaught (case_step data idx case st)); [exact Hst'|].
  apply IH. exact Hst'.
Qed.

Lemma run_files_invariant (P : State -> Prop) :
  (forall data idx case st, P st -> P (case_step data idx case st)) ->
  forall files st, P st -> P (files_loop files st).
Proof.
  intros Hstep files.
  induction files as [|[|data] rest IH]; intros st Hst; cbn [run_files];
    [exact Hst | apply IH; exact Hst |].
  pose proof (run_cases_invariant P Hstep data
                (default [] (suite_test_cases data)) 1 st Hst) as Hst'.
  destruct (uncaught (cases_loop data 1 _ st)); [exact Hst'|].
  apply IH. exact Hst'.
Qed.


Hypothesis retries_nonneg : 0 <= MAX_RETRIES.

(** Every case leaves one result, whatever happens to it, unless an
    exception leaves the request loop: then the case is counted in [total]
    and nothing more is recorded. *)
Lemma process_case_outcome (data : Suite) (idx : nat) (case : Case)
    (st : State) :
  (recorded_case (test_id_of data idx case) (SUMMARY st)
     (SUMMARY (case_step data idx case st))
   /\ uncaught (case_step data idx case st) = uncaught st)
  \/
  (0 < MAX_RETRIES /\ ~ 0 <= RETRY_DELAY <= SLEEP_MAX
   /\ SUMMARY (case_step data idx case st) = incr_total (SUMMARY st)
   /\ is_Some (uncaught (case_step data idx case st))).
Proof.
  unfold process_case.
  destruct (negb (String.eqb (method_of data case) "GET")).
  - left. cbn. split; [|reflexivity]. split; [reflexivity|]. eexists.
    split; [reflexivity | split; [reflexivity|]]. right; right. auto.
  - destruct (endpoint_of case) as [[|c endpoint]|].
    2:{ destruct (request_loop_outcome MAX_RETRIES RETRY_DELAY
                    ALLOW_PARTIAL_MESSAGE_MATCH py_repr repr_headers
                    json_dumps_indent requests_get
                    (prepared data idx case (String c endpoint)) 0
                    (with_summary incr_total st) retries_nonneg)
          as [[(Htotal & Hskipped & r & Hresults & Hid & Hverdict) Huncaught]
             |(Hretry & Hdelay & Hsummary & Huncaught)].
        - left. split; [|exact Huncaught].
          cbn in Htotal, Hskipped, Hresults, Hid, Hverdict.
          split; [exact Htotal|]. exists r.
          split; [exact Hresults | split; [exact Hid|]].
          destruct Hverdict as [(?&?&?)|(?&?&?)]; [left | right; left]; auto.
        - right. split; [exact Hretry|]. split; [exact Hdelay|].
          split; [exact Hsummary | exact Huncaught]. }
    all: left; cbn; (split; [|reflexivity]); (split; [reflexivity|]);
      eexists; (split; [reflexivity | split; [reflexivity|]]);
      right; right; auto.
Qed.

Lemma process_case_recorded (data : Suite) (idx : nat) (case : Case)
    (st : State) :
  uncaught (case_step data idx case st) = None ->
  recorded_case (test_id_of data idx case) (SUMMARY st)
    (SUMMARY (case_step data idx case st)).
Proof.
  intros Hreturned.
  destruct (process_case_outcome data idx case st)
    as [[H _]|(_ & _ & _ & [error H])]; [exact H | congruence].
Qed.

Lemma recorded_case_consistent (id : string) (s s' : Summary) :
  counters_consistent s -> recorded_case id s s' -> counters_consistent s'.
Proof.
  intros [Hsum Hlen] (Htotal & r & Hresults & _ & Hverdict).
  unfold counters_consistent. rewrite Hresults, length_app. cbn.
  destruct Hverdict as [(_&?&?&?)|[(_&?&?&?)|(_&?&?&?)]]; lia.
Qed.

(** When the loops are left without an exception, every case has been
    recorded: the counters add up, and the results are those of the cases,
    in order. *)
Lemma run_cases_returned (data : Suite) (cases : list Case) :
  forall (idx : nat) (st : State),
    uncaught (cases_loop data idx cases st) = None ->
    (counters_consistent (SUMMARY st) ->
     counters_consistent (SUMMARY (cases_loop data idx cases st))) /\
    map r_id (results (SUMMARY (cases_loop data idx cases st)))
    = map r_id (results (SUMMARY st)) ++ ids_of_cases data idx cases.
Proof.
  induction cases as [|case rest IH]; intros idx st;
    cbn [run_cases ids_of_cases].
  - intros _. rewrite app_nil_r. auto.
  - pose proof (process_case_recorded data idx case st) as Hcase.
    destruct (uncaught (case_step data idx case st)) eqn:Hstep;
      [intros H; congruence|].
    intros Hreturned. specialize (Hcase eq_refl).
    destruct (IH (S idx) _ Hreturned) as [Hcons Hids]. split.
    + intros Hst. apply Hcons.
      exact (recorded_case_consistent _ _ _ Hst Hcase).
    + rewrite Hids. destruct Hcase as (_ & r & Hresults & Hid & _).
      rewrite Hresults, map_app, <- app_assoc. cbn. rewrite Hid. reflexivity.
Qed.

Lemma run_files_returned (files : list JsonFile) :
  forall st : State,
    uncaught (files_loop files st) = None ->
    (counters_consistent (SUMMARY st) ->
     counters_consistent (SUMMARY (files_loop files st))) /\
    map r_id (results (SUMMARY (files_loop files st)))
    = map r_id (results (SUMMARY st)) ++ ids_of_files files.
Proof.
  induction files as [|[|data] rest IH]; intros st;
    cbn [run_files ids_of_files].
  - intros _. rewrite app_nil_r. auto.
  - apply IH.
  - pose proof (run_cases_returned data (default [] (suite_test_cases data))
                  1 st) as Hfile.
    destruct (uncaught (cases_loop data 1 _ st)) eqn:Hstep;
      [intros H; congruence|].
    intros Hreturned. destruct (Hfile eq_refl) as [Hcons Hids].
    destruct (IH _ Hreturned) as [Hcons' Hids']. split.
    + intros Hst. apply Hcons', Hcons, Hst.
    + rewrite Hids', Hids, <- app_assoc. reflexivity.
Qed.

(** C10, as the code has it.  Provided the configured retry count is not
    negative, every case that [run_all_tests] processes without an exception
    leaving it adds one to [total], one result entry and one to exactly one
    of [passed], [failed] and [skipped]; so the summary keeps
    [total = passed + failed + skipped = len(results)] after each case, and
    has it when the run, started from the fresh globals, returns. *)
Theorem run_all_tests_counters :
  (forall (data : Suite) (idx : nat) (case : Case) (st : State),
      uncaught (case_step data idx case st) = None ->
      recorded_case (test_id_of data idx case) (SUMMARY st)
        (SUMMARY (case_step data idx case st)) /\
      (counters_consistent (SUMMARY st) ->
       counters_consistent (SUMMARY (case_step data idx case st)))) /\
  (forall files : list JsonFile,
      let st' :=
        fst (run_all_tests MAX_RETRIES RETRY_DELAY
               ALLOW_PARTIAL_MESSAGE_MATCH BASE_URL py_hash py_repr
               repr_headers json_dumps_indent get_tokens_from_api
               requests_get files initial_state) in
      uncaught st' = None ->
      counters_consistent (SUMMARY st') /\
      total (SUMMARY st') = length (ids_of_files files)).
Proof.
  split.
  - intros data idx case st Hreturned. split.
    + apply process_case_recorded. exact Hreturned.
    + intros Hst.
      exact (recorded_case_consistent _ _ _ Hst
               (process_case_recorded data idx case st Hreturned)).
  - intros files. cbn. intros Hreturned.
    destruct (run_files_returned files initial_state Hreturned)
      as [Hcons Hids].
    assert (Hinv : counters_consistent
                     (SUMMARY (files_loop files initial_state))).
    { apply Hcons. split; reflexivity. }
    split; [exact Hinv|].
    destruct Hinv as [_ ->].
    rewrite <- (length_map r_id), Hids. reflexivity.
Qed.

Hypothesis delay_accepted :
  0 < MAX_RETRIES -> 0 <= RETRY_DELAY <= SLEEP_MAX.





End Run.

(** ** Token headers *)

Lemma all_tokens_keys (get_tokens_from_api : nat -> string -> Role_based.Tokens)
    (k : string) :
  is_Some (Role_based.ALL_TOKENS get_tokens_from_api !! k) ->
  k = "valid_admin" \/ k = "valid_aggregator" \/ k = "valid_branch"
  \/ k = "valid".
Proof.
  unfold Role_based.ALL_TOKENS, Role_based.role_map.
  cbn [Role_based.fetch_all_tokens].
  rewrite !lookup_insert. repeat case_decide; subst; auto.
  rewrite lookup_empty. intros [? ?]. discriminate.
Qed.

Lemma role_based_auth_empty
    (py_hash : option string -> Z)
    (get_tokens_from_api : nat -> string -> Role_based.Tokens)
    (tokens_dict headers : gmap string string) :
  let resolved :=
    Role_based.auth_headers py_hash get_tokens_from_api tokens_dict
      (Some "empty") headers in
  resolved !! "Authorization" = None /\ resolved !! "X-ID-Token" = None.
Proof.
  cbn zeta. unfold Role_based.auth_headers. cbn [mbind option_bind].
  destruct (Role_based.ALL_TOKENS get_tokens_from_api !! "empty") eqn:Hlookup.
  { destruct (all_tokens_keys get_tokens_from_api "empty")
      as [H|[H|[H|H]]]; [eauto | discriminate..]. }
  rewrite bool_decide_eq_true_2 by reflexivity.
  split.
  - rewrite lookup_delete_ne by discriminate. apply lookup_delete_eq.
  - apply lookup_delete_eq.
Qed.

Lemma new_auth_empty (tokens headers : gmap string string) :
  tokens !! "empty" = None \/ tokens !! "empty" = Some "" ->
  New.auth_headers tokens (Some "empty") headers !! "Authorization" = None.
Proof.
  intros H. unfold New.auth_headers. cbn [mbind option_bind].
  destruct H as [-> | ->];
    rewrite (bool_decide_eq_true_2 (Some "empty" = Some "empty"))
      by reflexivity;
    rewrite orb_true_r; apply lookup_delete_eq.
Qed.

Lemma retry_trace_events (request pause ev : Role_based.Event) (n : nat) :
  ev ∈ retry_trace request pause n -> ev = request \/ ev = pause.
Proof.
  induction n as [|[|n] IH]; cbn [retry_trace].
  - intros H. apply elem_of_nil in H. contradiction.
  - intros H. apply list_elem_of_singleton in H. auto.
  - intros H. apply elem_of_cons in H. destruct H as [->|H]; [auto|].
    apply elem_of_cons in H. destruct H as [->|H]; [auto|].
    apply IH. exact H.
Qed.

(** ** [test_api_from_json] *)

Section NewRun.

Context (json_validate : Py.json -> Py.json -> option string)
  (json_dumps : Py.json -> string) (repr_errors : list string -> string)
  (py_repr : Py.json -> string)
  (requests_request :
     nat -> string -> string -> gmap string string -> option Py.json
     -> Http.Outcome).

Import Py Http New.

Abbreviation one_case :=
  (run_case json_validate json_dumps repr_errors py_repr requests_request).
Abbreviation many_cases :=
  (run_cases json_validate json_dumps repr_errors py_repr requests_request).

(** What one case does: nothing on the network when it has no endpoint;
    otherwise one request, whose headers come out of the token handling, and
    one sample in [times] when the request is answered. *)
Lemma run_case_effects (filename : string) (data : Suite) (base_url : string)
    (idx : nat) (case : Case) (st : State) :
  let st' := fst (one_case filename data base_url idx case st) in
  (calls st' = calls st /\ trace st' = trace st /\
   times (SUMMARY st') = times (SUMMARY st))
  \/
  (exists method url base_headers json_body,
      let headers :=
        auth_headers (default ∅ (suite_tokens data))
          (default (Some "valid") (case_auth_token case)) base_headers in
      calls st' = S (calls st) /\
      trace st' = trace st ++ [EvRequest method url headers json_body] /\
      times (SUMMARY st')
      = times (SUMMARY st)
        ++ match requests_request (calls st) method url headers json_body with
           | Returned resp =>
               [(test_id_of filename idx case, resp_elapsed_ms resp, url)]
           | Raised _ => []
           end).
Proof.
  cbn zeta. unfold run_case.
  destruct (or_str (case_endpoint case) (case_api_endpoint case))
    as [[|c endpoint]|]; [left; cbn; auto | | left; cbn; auto].
  right. do 4 eexists.
  match goal with
  | |- context [requests_request ?n ?m ?u ?h ?b] =>
      destruct (requests_request n m u h b) as [resp|text] eqn:Hcall
  end.
  - match goal with
    | |- context [mbind ?k ?m] => destruct (mbind k m)
    end;
      (split; [reflexivity | split; [reflexivity |]]);
      cbn in Hcall |- *; rewrite Hcall; reflexivity.
  - split; [reflexivity | split; [reflexivity |]].
    cbn in Hcall |- *. rewrite Hcall, app_nil_r. reflexivity.
Qed.

(** The loop over the cases goes through a prefix of cases that all return,
    and stops at the first case that raises. *)
Lemma run_cases_app (filename : string) (data : Suite) (base_url : string)
    (pre post : list Case) :
  forall (idx : nat) (st : State),
    many_cases filename data base_url idx (pre ++ post) st
    = match many_cases filename data base_url idx pre st with
      | (st1, Ok _) =>
          many_cases filename data base_url (idx + length pre) post st1
      | (st1, Raise e) => (st1, Raise e)
      end.
Proof.
  induction pre as [|c pre IH]; intros idx st; cbn [app run_cases length].
  - rewrite Nat.add_0_r. reflexivity.
  - destruct (one_case filename data base_url idx c st) as [st1 [[]|e]];
      [|reflexivity].
    rewrite IH. replace (S idx + length pre)%nat with (idx + S (length pre))%nat
      by lia.
    reflexivity.
Qed.

Lemma run_cases_stop (filename : string) (data : Suite) (base_url : string)
    (idx : nat) (pre : list Case) (c : Case) (post : list Case)
    (st st1 st' : State) (e : Exn) :
  many_cases filename data base_url idx pre st = (st1, Ok tt) ->
  one_case filename data base_url (idx + length pre) c st1 = (st', Raise e) ->
  many_cases filename data base_url idx (pre ++ c :: post) st = (st', Raise e).
Proof.
  intros Hpre Hc. rewrite run_cases_app, Hpre. cbn [run_cases].
  rewrite Hc. reflexivity.
Qed.

Lemma session_runs_every_file (all_json_data : list (string * Suite)) :
  forall st : State,
    map fst (snd (session json_validate json_dumps repr_errors py_repr
                    requests_request all_json_data st))
    = map fst all_json_data.
Proof.
  induction all_json_data as [|[filename data] rest IH]; intros st;
    cbn [session]; [reflexivity|].
  destruct (test_api_from_json _ _ _ _ _ filename data st) as [st' outcome].
  specialize (IH st').
  destruct (session _ _ _ _ _ rest st') as [st'' outcomes].
  cbn in *. rewrite IH. reflexivity.
Qed.

End NewRun.

(** ** Candidate lists *)

Section Candidates.

Context (json_validate : Py.json -> Py.json -> option string)
  (json_dumps : Py.json -> string) (repr_errors : list string -> string)
  (test_id : string) (resp_json : Py.json).

Import Py New.

Abbreviation found := (discrepancies json_validate json_dumps test_id resp_json).
Abbreviation candidates_loop :=
  (validate_loop json_validate json_dumps test_id resp_json).
Abbreviation validate :=
  (validate_response json_validate json_dumps repr_errors test_id resp_json).

(** One round of the loop, for a candidate whose evaluation returns. *)
Lemma validate_loop_cons (c : Candidate) (rest : list Candidate)
    (temp_errors errors : list string) :
  dict_or_literal c -> found c = Ok temp_errors ->
  candidates_loop (c :: rest) errors
  = if is_nil temp_errors then Ok (true, errors)
    else candidates_loop rest (errors ++ temp_errors).
Proof.
  destruct c as [d|s|v]; cbn [dict_or_literal discrepancies validate_loop];
    [| |contradiction].
  - intros _ ->. reflexivity.
  - intros _ [= <-]. destruct (contains s (json_dumps resp_json)); reflexivity.
Qed.

(** Candidates that do not match add their discrepancies, in order. *)
Lemma validate_loop_mismatches (options rest : list Candidate)
    (found_each : list (list string)) :
  Forall2 (fun c e => dict_or_literal c /\ found c = Ok e /\ e <> [])
    options found_each ->
  forall errors,
    candidates_loop (options ++ rest) errors
    = candidates_loop rest (errors ++ concat found_each).
Proof.
  induction 1 as [|c e options found_each (Hkind & Hfound & Hne) _ IH];
    intros errors; cbn [app concat].
  - rewrite app_nil_r. reflexivity.
  - rewrite (validate_loop_cons c _ e errors Hkind Hfound).
    destruct e as [|m e]; [congruence|]. cbn [is_nil].
    rewrite IH, app_assoc. reflexivity.
Qed.

Lemma validate_loop_first_match (pre : list Candidate) (c : Candidate)
    (post : list Candidate) (found_each : list (list string)) :
  Forall2 (fun c e => dict_or_literal c /\ found c = Ok e /\ e <> [])
    pre found_each ->
  dict_or_literal c -> found c = Ok [] ->
  candidates_loop (pre ++ c :: post) [] = Ok (true, concat found_each).
Proof.
  intros Hpre Hkind Hfound.
  rewrite (validate_loop_mismatches pre (c :: post) found_each Hpre).
  rewrite (validate_loop_cons c post [] _ Hkind Hfound). reflexivity.
Qed.

Lemma validate_loop_no_match (options : list Candidate)
    (found_each : list (list string)) :
  Forall2 (fun c e => dict_or_literal c /\ found c = Ok e /\ e <> [])
    options found_each ->
  candidates_loop options [] = Ok (false, concat found_each).
Proof.
  intros H.
  rewrite <- (app_nil_r options).
  rewrite (validate_loop_mismatches options [] found_each H). reflexivity.
Qed.

(** When no evaluation raises, the loop ends with [matched] true exactly
    when some candidate has no discrepancy. *)
Lemma validate_loop_matched (options : list Candidate) :
  Forall (fun c => dict_or_literal c /\ exists e, found c = Ok e) options ->
  forall errors,
    exists matched errors',
      candidates_loop options errors = Ok (matched, errors') /\
      (matched = true <-> Exists (fun c => found c = Ok []) options).
Proof.
  induction 1 as [|c options (Hkind & e & Hfound) _ IH]; intros errors.
  - exists false, errors. split; [reflexivity|].
    split; [discriminate | intros H; inversion H].
  - rewrite (validate_loop_cons c options e errors Hkind Hfound).
    destruct e as [|m e]; cbn [is_nil].
    + exists true, errors. split; [reflexivity|].
      split; [intros _; left; exact Hfound | reflexivity].
    + destruct (IH (errors ++ m :: e)) as (matched & errors' & Hloop & Hiff).
      exists matched, errors'. split; [exact Hloop|].
      rewrite Hiff. split; [intros H; right; exact H|].
      intros H. inversion H as [? ? Hc|? ? Hrest]; subst; [congruence|].
      exact Hrest.
Qed.

End Candidates.

(** C6, as the code has it.  In [validate_response] of [new.py], for a list
    of candidates that are objects or literal strings: when a candidate has
    no discrepancy and those before it each have some, validation passes
    whatever follows that candidate; when every candidate has some
    discrepancy, validation fails and reports the discrepancies of all the
    candidates, concatenated in order; and when no evaluation of a candidate
    raises, validation passes if and only if some candidate has no
    discrepancy.  [validate_response_simple] of [Role_based.py] takes a list
    of candidates for an empty expectation. *)
Theorem candidate_list_validation :
  (forall json_validate json_dumps repr_errors test_id resp_json pre c post
          found_each,
      Forall2 (fun c e =>
                 dict_or_literal c /\
                 discrepancies json_validate json_dumps test_id resp_json c
                 = New.Ok e /\ e <> []) pre found_each ->
      dict_or_literal c ->
      discrepancies json_validate json_dumps test_id resp_json c = New.Ok [] ->
      New.validate_response json_validate json_dumps repr_errors test_id
        resp_json (New.Options (pre ++ c :: post)) = New.Ok tt) /\
  (forall json_validate json_dumps repr_errors test_id resp_json options
          found_each,
      Forall2 (fun c e =>
                 dict_or_literal c /\
                 discrepancies json_validate json_dumps test_id resp_json c
                 = New.Ok e /\ e <> []) options found_each ->
      New.validate_loop json_validate json_dumps test_id resp_json options []
      = New.Ok (false, concat found_each) /\
      New.validate_response json_validate json_dumps repr_errors test_id
        resp_json (New.Options options)
      = New.Raise
          (New.AssertionError
             (test_id +:+ " | Response validation failed: "
                +:+ repr_errors (concat found_each)))) /\
  (forall json_validate json_dumps repr_errors test_id resp_json options,
      Forall (fun c =>
                dict_or_literal c /\
                exists e,
                  discrepancies json_validate json_dumps test_id resp_json c
                  = New.Ok e) options ->
      (New.validate_response json_validate json_dumps repr_errors test_id
         resp_json (New.Options options) = New.Ok tt
       <-> Exists (fun c =>
                     discrepancies json_validate json_dumps test_id resp_json c
                     = New.Ok []) options)) /\
  (forall ALLOW_PARTIAL_MESSAGE_MATCH py_repr resp_json candidates
          query_content test_type nested_keys,
      Role_based.validate_response_simple ALLOW_PARTIAL_MESSAGE_MATCH py_repr
        resp_json (Py.JList candidates) query_content test_type nested_keys
      = Role_based.validate_response_simple ALLOW_PARTIAL_MESSAGE_MATCH py_repr
          resp_json (Py.JDict []) query_content test_type nested_keys).
Proof.
  split; [|split; [|split]].
  - intros json_validate json_dumps repr_errors test_id resp_json pre c post
      found_each Hpre Hkind Hfound.
    unfold New.validate_response.
    rewrite (validate_loop_first_match _ _ _ _ pre c post found_each
               Hpre Hkind Hfound).
    reflexivity.
  - intros json_validate json_dumps repr_errors test_id resp_json options
      found_each Hall.
    unfold New.validate_response.
    rewrite (validate_loop_no_match _ _ _ _ options found_each Hall).
    split; reflexivity.
  - intros json_validate json_dumps repr_errors test_id resp_json options Hall.
    unfold New.validate_response.
    destruct (validate_loop_matched json_validate json_dumps test_id resp_json
                options Hall []) as (matched & errors' & -> & Hiff).
    cbn. rewrite <- Hiff. destruct matched; split; congruence.
  - intros. destruct resp_json; reflexivity.
Qed.

(** In [Role_based.py] a list holding one candidate that does not match
    passes validation. *)
Lemma role_based_ignores_candidates :
  Role_based.validate_response_simple false Sample.py_repr
    (Py.JDict [("status", Py.JStr "ok")])
    (Py.JList [Py.JDict [("status", Py.JStr "fail")]]) None "" []
  = (true, []) /\
  Role_based.validate_response_simple false Sample.py_repr
    (Py.JDict [("status", Py.JStr "ok")])
    (Py.JDict [("status", Py.JStr "fail")]) None "" []
  = (false, ["Expected 'status': fail, got: ok"]).
Proof. split; reflexivity. Qed.

(** ** The synthesized identifier *)

Lemma append_inj (p a b : string) : p +:+ a = p +:+ b -> a = b.
Proof.
  induction p as [|c p IH]; [auto|].
  rewrite !append_cons. intros H. injection H as H. exact (IH H).
Qed.

Lemma to_int_not_nil (z : Z) :
  Z.to_int z <> Decimal.Pos Decimal.Nil /\ Z.to_int z <> Decimal.Neg Decimal.Nil.
Proof.
  destruct z as [|q|q]; cbn; split; try discriminate;
    intros [= H]; exact (DecimalPos.Unsigned.to_uint_nonnil q H).
Qed.

Lemma str_int_inj (a b : Z) : Py.str_int a = Py.str_int b -> a = b.
Proof.
  unfold Py.str_int. intros H.
  apply (f_equal NilZero.int_of_string) in H.
  destruct (to_int_not_nil a) as [Ha1 Ha2].
  destruct (to_int_not_nil b) as [Hb1 Hb2].
  rewrite !NilZero.isi in H by assumption.
  injection H as H.
  rewrite <- (DecimalZ.of_to a), <- (DecimalZ.of_to b), H. reflexivity.
Qed.

(** C9, at the code.  The synthesized identifier is computed from the
    built-in [hash] of the key, which the interpreter salts anew for every
    process: two runs whose hashes of a key differ, in absolute value modulo
    [10 ** 12], synthesize different identifiers for that key. *)
Theorem dummy_id_token_follows_hash (hash_a hash_b : option string -> Z)
    (key : option string) :
  Z.abs (hash_a key) mod 10 ^ 12 <> Z.abs (hash_b key) mod 10 ^ 12 ->
  Role_based.deterministic_dummy_id_token hash_a key
  <> Role_based.deterministic_dummy_id_token hash_b key.
Proof.
  intros Hne Heq. apply Hne.
  unfold Role_based.deterministic_dummy_id_token in Heq.
  apply append_inj in Heq. exact (str_int_inj _ _ Heq).
Qed.

(** ** Statements about both runners *)

Section Credentials.

Context (MAX_RETRIES RETRY_DELAY : Z) (ALLOW_PARTIAL_MESSAGE_MATCH : bool)
  (BASE_URL : string) (py_hash : option string -> Z)
  (py_repr : Py.json -> string) (repr_headers : gmap string string -> string)
  (json_dumps_indent : bool -> Py.json -> string)
  (get_tokens_from_api : nat -> string -> Role_based.Tokens)
  (requests_get :
     nat -> string -> gmap string string -> list (string * string)
     -> Http.Outcome).

Import Py Http Role_based.

(** A branch of [process_case] that sends nothing. *)
Ltac no_requests :=
  exists []; cbn; rewrite app_nil_r; split; [reflexivity|];
  intros ? ? ? H; apply elem_of_nil in H; contradiction.

(** The requests that a case of [run_all_tests] sends carry the headers of
    its resolved request. *)
Lemma process_case_requests (data : Suite) (idx : nat) (case : Case)
    (st : State) :
  exists evs : list Event,
    trace (process_case MAX_RETRIES RETRY_DELAY ALLOW_PARTIAL_MESSAGE_MATCH
             BASE_URL py_hash py_repr repr_headers json_dumps_indent
             get_tokens_from_api requests_get data idx case st)
    = trace st ++ evs /\
    forall url headers params,
      EvGet url headers params ∈ evs ->
      exists endpoint,
        headers
        = p_headers (prepare BASE_URL py_hash py_repr get_tokens_from_api
                       data idx case endpoint).
Proof.
  unfold process_case.
  destruct (negb (String.eqb (method_of data case) "GET")); [no_requests|].
  destruct (endpoint_of case) as [[|c endpoint]|]; [no_requests | | no_requests].
  destruct (Z_le_gt_dec 0 MAX_RETRIES) as [Hle|Hgt].
  - destruct (request_loop_effects MAX_RETRIES RETRY_DELAY
                ALLOW_PARTIAL_MESSAGE_MATCH py_repr repr_headers
                json_dumps_indent requests_get
                (prepare BASE_URL py_hash py_repr get_tokens_from_api
                   data idx case (String c endpoint))
                0 (with_summary incr_total st) Hle)
      as (k & _ & _ & _ & Htrace & _).
    eexists. split; [exact Htrace|].
    intros url headers params Hin.
    apply retry_trace_events in Hin. destruct Hin as [Heq|Heq];
      [|discriminate].
    exists (String c endpoint). congruence.
  - rewrite request_loop_exit by exact Hgt. no_requests.
Qed.

End Credentials.

(** C5, as the code has it.  For a case whose [auth_token] is ["empty"]:
    every request that [run_all_tests] sends for it has no entry
    [Authorization] and no entry [X-ID-Token] in its headers, whatever the
    headers of the file and of the case, the pre-fetched tokens and the
    [tokens] table of the suite; the request that [test_api_from_json] sends
    for it has no entry [Authorization] provided the [tokens] table of the
    suite has no non-empty entry named ["empty"]. *)
Theorem empty_token_sends_no_credentials :
  (forall MAX_RETRIES RETRY_DELAY ALLOW_PARTIAL_MESSAGE_MATCH BASE_URL py_hash
          py_repr repr_headers json_dumps_indent get_tokens_from_api
          requests_get data idx case st,
      Role_based.case_auth_token case = Some (Some "empty") ->
      exists evs,
        Role_based.trace
          (Role_based.process_case MAX_RETRIES RETRY_DELAY
             ALLOW_PARTIAL_MESSAGE_MATCH BASE_URL py_hash py_repr repr_headers
             json_dumps_indent get_tokens_from_api requests_get data idx case
             st)
        = Role_based.trace st ++ evs /\
        forall url headers params,
          Role_based.EvGet url headers params ∈ evs ->
          headers !! "Authorization" = None /\
          headers !! "X-ID-Token" = None) /\
  (forall json_validate json_dumps repr_errors py_repr requests_request
          filename data base_url idx case st,
      New.case_auth_token case = Some (Some "empty") ->
      default ∅ (New.suite_tokens data) !! "empty" = None \/
      default ∅ (New.suite_tokens data) !! "empty" = Some "" ->
      exists evs,
        New.trace
          (fst (New.run_case json_validate json_dumps repr_errors py_repr
                  requests_request filename data base_url idx case st))
        = New.trace st ++ evs /\
        forall method url headers json_body,
          New.EvRequest method url headers json_body ∈ evs ->
          headers !! "Authorization" = None).
Proof.
  split.
  - intros MAX_RETRIES RETRY_DELAY ALLOW_PARTIAL_MESSAGE_MATCH BASE_URL py_hash
      py_repr repr_headers json_dumps_indent get_tokens_from_api requests_get
      data idx case st Hauth.
    destruct (process_case_requests MAX_RETRIES RETRY_DELAY
                ALLOW_PARTIAL_MESSAGE_MATCH BASE_URL py_hash py_repr
                repr_headers json_dumps_indent get_tokens_from_api
                requests_get data idx case st) as (evs & Htrace & Hevs).
    exists evs. split; [exact Htrace|].
    intros url headers params Hin.
    destruct (Hevs url headers params Hin) as (endpoint & ->).
    cbn. rewrite Hauth. cbn [default].
    apply role_based_auth_empty.
  - intros json_validate json_dumps repr_errors py_repr requests_request
      filename data base_url idx case st Hauth Htokens.
    destruct (run_case_effects json_validate json_dumps repr_errors py_repr
                requests_request filename data base_url idx case st)
      as [(_ & Htrace & _)
         | (method & url & base_headers & json_body & _ & Htrace & _)].
    + exists []. rewrite Htrace, app_nil_r. split; [reflexivity|].
      intros ? ? ? ? H. apply elem_of_nil in H. contradiction.
    + eexists. split; [exact Htrace|].
      intros method' url' headers' json_body' Hin.
      apply list_elem_of_singleton in Hin. injection Hin as _ _ -> _.
      rewrite Hauth. cbn [default].
      apply new_auth_empty. exact Htokens.
Qed.

(** The header names are dictionary keys: a header of the file spelled
    [authorization] is another key, and stays. *)
Remark other_spelling_is_kept :
  Role_based.auth_headers Sample.py_hash Sample.get_tokens_from_api ∅
    (Some "empty") {["authorization" := "Bearer file-level"]}
  !! "authorization"
  = Some "Bearer file-level".
Proof. vm_compute. reflexivity. Qed.

(** With an entry named ["empty"] in the [tokens] table of the suite,
    [test_api_from_json] sends that token. *)
Lemma empty_token_overridden_by_tokens_table :
  New.case_auth_token Sample.anonymous_ping = Some (Some "empty") /\
  New.trace
    (fst (New.test_api_from_json Sample.json_validate Sample.json_dumps
            Sample.repr_errors Sample.py_repr Sample.server_error
            "anon" Sample.suite_with_empty_token New.initial_state))
  = [New.EvRequest "GET" "https://api.x/ping"
       (<["Authorization" := "Bearer abc"]>
          {["Accept" := "application/json"]}) None].
Proof. split; vm_compute; reflexivity. Qed.

(** C7, as the code has it.  Every HTTP attempt that returns a response has
    its elapsed milliseconds appended to the performance aggregate, whatever
    the response and the verdict: to [PERF_STATS] in the request loop of
    [run_all_tests], where the attempts of a case are consecutive calls of
    the endpoint, and to [SUMMARY["times"]] in [test_api_from_json].  An
    attempt that raises a transport exception appends nothing. *)
Theorem elapsed_time_of_answered_attempts :
  (forall MAX_RETRIES RETRY_DELAY ALLOW_PARTIAL_MESSAGE_MATCH py_repr
          repr_headers json_dumps_indent requests_get p attempt st,
      attempt <= MAX_RETRIES ->
      let st' :=
        Role_based.request_loop MAX_RETRIES RETRY_DELAY
          ALLOW_PARTIAL_MESSAGE_MATCH py_repr repr_headers json_dumps_indent
          requests_get p attempt st in
      exists attempts : nat,
        Role_based.calls st' = (Role_based.calls st + attempts)%nat /\
        (1 <= attempts)%nat /\
        Role_based.PERF_STATS st'
        = Role_based.PERF_STATS st
          ++ answered_ms requests_get (Role_based.p_url p)
               (Role_based.p_headers p) (Role_based.p_params p)
               (Role_based.calls st) attempts) /\
  (forall json_validate json_dumps repr_errors py_repr requests_request
          filename data base_url idx case st,
      let st' :=
        fst (New.run_case json_validate json_dumps repr_errors py_repr
               requests_request filename data base_url idx case st) in
      (New.calls st' = New.calls st /\
       New.times (New.SUMMARY st') = New.times (New.SUMMARY st))
      \/
      (exists method url headers json_body,
          New.calls st' = S (New.calls st) /\
          New.trace st'
          = New.trace st ++ [New.EvRequest method url headers json_body] /\
          New.times (New.SUMMARY st')
          = New.times (New.SUMMARY st)
            ++ match requests_request (New.calls st) method url headers
                       json_body with
               | Http.Returned resp =>
                   [(New.test_id_of filename idx case,
                     Http.resp_elapsed_ms resp, url)]
               | Http.Raised _ => []
               end)).
Proof.
  split.
  - intros. apply request_loop_perf. assumption.
  - intros json_validate json_dumps repr_errors py_repr requests_request
      filename data base_url idx case st.
    destruct (run_case_effects json_validate json_dumps repr_errors py_repr
                requests_request filename data base_url idx case st)
      as [(Hcalls & _ & Htimes)
         | (method & url & base_headers & json_body & Hcalls & Htrace & Htimes)].
    + left. auto.
    + right. eauto 10.
Qed.




(** With a retry count of -1 the run returns with two cases counted in
    [total], none in the other counters, and no result. *)
Lemma no_attempt_leaves_no_result :
  let st :=
    fst (Role_based.run_all_tests (-1) 1 false "" Sample.py_hash
           Sample.py_repr Sample.repr_headers Sample.json_dumps_indent
           Sample.get_tokens_from_api Sample.connection_refused
           [Role_based.Loaded Sample.ping_suite] Role_based.initial_state) in
  Role_based.uncaught st = None /\
  Role_based.total (Role_based.SUMMARY st) = 2%nat /\
  (Role_based.passed (Role_based.SUMMARY st)
   + Role_based.failed (Role_based.SUMMARY st)
   + Role_based.skipped (Role_based.SUMMARY st) = 0)%nat /\
  Role_based.results (Role_based.SUMMARY st) = [] /\
  ~ counters_consistent (Role_based.SUMMARY st).
Proof.
  vm_compute. repeat split. intros [H _]. discriminate.
Qed.

(** ** Instances on the sample environment *)


Lemma run_all_tests_counters_witness :
  counters_consistent
    (Role_based.SUMMARY
       (fst (Role_based.run_all_tests 2 1 false "" Sample.py_hash
               Sample.py_repr Sample.repr_headers Sample.json_dumps_indent
               Sample.get_tokens_from_api Sample.connection_refused
               [Role_based.LoadError; Role_based.Loaded Sample.ping_suite]
               Role_based.initial_state))).
Proof.
  refine (proj1 (proj2 (run_all_tests_counters 2 1 false "" Sample.py_hash
                          Sample.py_repr Sample.repr_headers
                          Sample.json_dumps_indent Sample.get_tokens_from_api
                          Sample.connection_refused _)
                   [Role_based.LoadError; Role_based.Loaded Sample.ping_suite]
                   _)).
  - lia.
  - reflexivity.
Defined.

(** Three attempts that all raise leave no sample in [PERF_STATS]. *)
Lemma raised_attempts_leave_no_sample :
  let st :=
    Role_based.process_case 2 1 false "" Sample.py_hash Sample.py_repr
      Sample.repr_headers Sample.json_dumps_indent Sample.get_tokens_from_api
      Sample.connection_refused Sample.ping_suite 1 Sample.ping
      Role_based.initial_state in
  Role_based.calls st = 3%nat /\ Role_based.PERF_STATS st = [].
Proof. vm_compute. split; reflexivity. Qed.

Lemma partial_match_is_more_permissive_witness :
  fst (Role_based.validate_response_simple true Sample.py_repr
         (Py.JDict [("status", Py.JStr " ok ")])
         (Py.JDict [("status", Py.JStr "ok")]) None "" []) = true.
Proof.
  apply (proj1 partial_match_is_more_permissive Sample.py_repr).
  reflexivity.
Defined.

Lemma numeric_children_share_a_group_witness :
  Role_based.group_key
    (Role_based.mkResult "F_001" "-" (Role_based.StatusCode 200)
       Role_based.PASS "" "GET /farmers/123" "GET" (Some "/farmers/123"))
  = "GET /farmers" /\
  Role_based.group_key
    (Role_based.mkResult "F_002" "-" (Role_based.StatusCode 404)
       Role_based.FAIL "" "GET /farmers/456" "GET" (Some "/farmers/456"))
  = Role_based.group_key
      (Role_based.mkResult "F_001" "-" (Role_based.StatusCode 200)
         Role_based.PASS "" "GET /farmers/123" "GET" (Some "/farmers/123")).
Proof.
  destruct (proj1 numeric_children_share_a_group "GET" "123" "456"
              (Role_based.mkResult "F_001" "-" (Role_based.StatusCode 200)
                 Role_based.PASS "" "GET /farmers/123" "GET"
                 (Some "/farmers/123"))
              (Role_based.mkResult "F_002" "-" (Role_based.StatusCode 404)
                 Role_based.FAIL "" "GET /farmers/456" "GET"
                 (Some "/farmers/456")))
    as (K1 & K2 & _); try reflexivity; try discriminate.
  split; [exact K1 | exact K2].
Defined.

Lemma dummy_id_token_follows_hash_witness :
  Role_based.deterministic_dummy_id_token (fun _ => 468594832165)
    (Some "invalid_token")
  <> Role_based.deterministic_dummy_id_token (fun _ => -895723559816)
       (Some "invalid_token").
Proof.
  apply dummy_id_token_follows_hash. vm_compute. discriminate.
Defined.

Lemma empty_token_sends_no_credentials_witness :
  exists evs,
    Role_based.trace
      (Role_based.process_case 2 1 false "" Sample.py_hash Sample.py_repr
         Sample.repr_headers Sample.json_dumps_indent
         Sample.get_tokens_from_api Sample.answers_ok
         Sample.suite_with_credentials 1 Sample.anonymous
         Role_based.initial_state)
    = Role_based.trace Role_based.initial_state ++ evs /\
    forall url headers params,
      Role_based.EvGet url headers params ∈ evs ->
      headers !! "Authorization" = None /\ headers !! "X-ID-Token" = None.
Proof.
  apply (proj1 empty_token_sends_no_credentials). reflexivity.
Defined.

Lemma candidate_list_validation_witness :
  New.validate_response Sample.json_validate Sample.json_dumps
    Sample.repr_errors "T1" Sample.body_with_id
    (New.Options ([Sample.wants_name] ++ Sample.wants_id :: [Sample.wants_name]))
  = New.Ok tt.
Proof.
  apply (proj1 candidate_list_validation Sample.json_validate
           Sample.json_dumps Sample.repr_errors "T1" Sample.body_with_id
           [Sample.wants_name] Sample.wants_id [Sample.wants_name]
           [["Missing mandatory field: name"]]).
  - constructor; [|constructor].
    split; [exact I | split; [reflexivity | discriminate]].
  - exact I.
  - reflexivity.
Defined.

Lemma elapsed_time_of_answered_attempts_witness :
  let p :=
    Role_based.prepare "" Sample.py_hash Sample.py_repr
      Sample.get_tokens_from_api Sample.ping_suite 1 Sample.ping "/ping" in
  let st' :=
    Role_based.request_loop 2 1 false Sample.py_repr Sample.repr_headers
      Sample.json_dumps_indent Sample.answers_ok p 0 Role_based.initial_state in
  exists attempts : nat,
    Role_based.calls st' = (0 + attempts)%nat /\
    (1 <= attempts)%nat /\
    Role_based.PERF_STATS st'
    = [] ++ answered_ms Sample.answers_ok (Role_based.p_url p)
              (Role_based.p_headers p) (Role_based.p_params p) 0 attempts.
Proof.
  cbv zeta.
  apply (proj1 elapsed_time_of_answered_attempts 2 1 false Sample.py_repr
           Sample.repr_headers Sample.json_dumps_indent Sample.answers_ok).
  lia.
Defined.


(** * Further properties of the code *)

(** ** Response validation in [Role_based.py] *)

(** X1.  [validate_headers] passes exactly when every expected header is
    found on the response, its name looked up without regard to case, with a
    value equal to the expected one up to case. *)
Theorem validate_headers_passes_iff (resp_headers : list (string * string))
    (expected_headers : gmap string string) :
  fst (Role_based.validate_headers resp_headers expected_headers) = true
  <-> forall key expected_value,
        expected_headers !! key = Some expected_value ->
        exists actual_value,
          Role_based.header_get key resp_headers = Some actual_value /\
          Py.lower actual_value = Py.lower expected_value.
Proof.
  unfold Role_based.validate_headers. cbn [fst]. rewrite is_nil_true.
  apply (map_fold_weak_ind
           (fun errors m =>
              errors = [] <->
              forall key expected_value,
                m !! key = Some expected_value ->
                exists actual_value,
                  Role_based.header_get key resp_headers = Some actual_value /\
                  Py.lower actual_value = Py.lower expected_value)).
  - split; [|reflexivity]. intros _ key v H.
    rewrite lookup_empty in H. discriminate.
  - intros i x m errors Hi [IH1 IH2]. split.
    + intros Hnil key v Hkey.
      destruct (Role_based.header_get i resp_headers) as [a|] eqn:Hget.
      2:{ apply app_eq_nil in Hnil. destruct Hnil as [_ Hnil]. discriminate. }
      destruct (String.eqb (Py.lower a) (Py.lower x)) eqn:Heq; cbn in Hnil.
      2:{ apply app_eq_nil in Hnil. destruct Hnil as [_ Hnil]. discriminate. }
      destruct (decide (i = key)) as [->|Hne].
      * rewrite lookup_insert_eq in Hkey. injection Hkey as <-.
        exists a. split; [exact Hget|]. apply String.eqb_eq. exact Heq.
      * rewrite lookup_insert_ne in Hkey by exact Hne.
        exact (IH1 Hnil key v Hkey).
    + intros Hall.
      destruct (Hall i x (lookup_insert_eq m i x)) as (a & Hget & Heq).
      rewrite Hget. apply String.eqb_eq in Heq. rewrite Heq. cbn.
      apply IH2. intros key v Hkey. apply Hall.
      rewrite lookup_insert_ne; [exact Hkey|]. congruence.
Qed.

Lemma resolve_path_null (keys : list string) :
  Role_based.resolve_path Py.JNull keys = Py.JNull.
Proof. destruct keys; reflexivity. Qed.

(** X2.  Walking a dotted path is walking its first part and then the rest
    from where the first part leads; a part that is not found stays not
    found. *)
Theorem resolve_path_app (val : Py.json) (keys more : list string) :
  Role_based.resolve_path val (keys ++ more)
  = Role_based.resolve_path (Role_based.resolve_path val keys) more.
Proof.
  revert val. induction keys as [|k keys IH]; intros val; [reflexivity|].
  cbn [app Role_based.resolve_path].
  destruct val as [| | | | |l|d]; try (symmetry; apply resolve_path_null).
  - destruct (Py.int_of_str k) as [idx|];
      [|symmetry; apply resolve_path_null].
    destruct ((0 <=? idx) && (idx <? Z.of_nat (length l)));
      [apply IH | symmetry; apply resolve_path_null].
  - destruct (Py.dict_get k d) as [v|];
      [apply IH | symmetry; apply resolve_path_null].
Qed.

Lemma in_concat_map {A B : Type} (f : A -> list B) (l : list A) (x : A) (y : B) :
  In x l -> In y (f x) -> In y (concat (map f l)).
Proof.
  intros Hx Hy. apply in_concat. exists (f x). split; [|exact Hy].
  apply in_map. exact Hx.
Qed.

(** X3.  A nested key whose path leads to a JSON null is reported as
    missing, with the toggle on or off and whatever value is expected, null
    included; the validation fails. *)
Theorem null_is_a_missing_nested_key (ALLOW_PARTIAL_MESSAGE_MATCH : bool)
    (py_repr : Py.json -> string) (resp : list (string * Py.json))
    (expected_response : Py.json) (query_content : option string)
    (test_type key_path : string) (expected_value : Py.json)
    (nested_keys : list (string * Py.json)) :
  In (key_path, expected_value) nested_keys ->
  Role_based.resolve_path (Py.JDict resp) (Py.split_on "." key_path)
  = Py.JNull ->
  let verdict :=
    Role_based.validate_response_simple ALLOW_PARTIAL_MESSAGE_MATCH py_repr
      (Py.JDict resp) expected_response query_content test_type nested_keys in
  fst verdict = false /\ In ("Missing nested key: " +:+ key_path) (snd verdict).
Proof.
  intros Hin Hnull. cbn zeta. unfold Role_based.validate_response_simple.
  cbn [fst snd].
  assert (Hmsg : In ("Missing nested key: " +:+ key_path)
                   (concat (map (Role_based.check_nested
                                   ALLOW_PARTIAL_MESSAGE_MATCH py_repr
                                   (Py.JDict resp)) nested_keys))).
  { apply (in_concat_map _ _ (key_path, expected_value)); [exact Hin|].
    unfold Role_based.check_nested. rewrite Hnull. left. reflexivity. }
  match goal with
  | |- Role_based.is_nil ?errors = false /\ In _ ?errors =>
      assert (Herr : In ("Missing nested key: " +:+ key_path) errors)
  end.
  { apply in_or_app. right. apply in_or_app. right. exact Hmsg. }
  split; [|exact Herr].
  match goal with
  | H : In _ ?errors |- Role_based.is_nil ?errors = false =>
      destruct errors; [contradiction | reflexivity]
  end.
Qed.

Lemma dict_get_filter {V : Type} (keep : string -> bool) (key : string)
    (d : list (string * V)) :
  keep key = true ->
  Py.dict_get key (List.filter (fun kv => keep (fst kv)) d) = Py.dict_get key d.
Proof.
  intros Hkeep. induction d as [|[k v] d IH]; [reflexivity|].
  cbn [List.filter fst Py.dict_get].
  destruct (String.eqb key k) eqn:Heq.
  - apply String.eqb_eq in Heq. subst k. rewrite Hkeep.
    cbn [Py.dict_get]. rewrite String.eqb_refl. reflexivity.
  - destruct (keep k); [|exact IH].
    cbn [Py.dict_get]. rewrite Heq. exact IH.
Qed.

(** X4.  Of an expectation object, [validate_response_simple] reads the keys
    [status] and [message] only: every other key of the expectation is
    ignored. *)
Theorem only_status_and_message_are_compared
    (ALLOW_PARTIAL_MESSAGE_MATCH : bool) (py_repr : Py.json -> string)
    (resp_json : Py.json) (expected : list (string * Py.json))
    (query_content : option string) (test_type : string)
    (nested_keys : list (string * Py.json)) :
  Role_based.validate_response_simple ALLOW_PARTIAL_MESSAGE_MATCH py_repr
    resp_json (Py.JDict expected) query_content test_type nested_keys
  = Role_based.validate_response_simple ALLOW_PARTIAL_MESSAGE_MATCH py_repr
      resp_json
      (Py.JDict (List.filter
                   (fun kv => Py.str_in (fst kv) ["status"; "message"])
                   expected))
      query_content test_type nested_keys.
Proof.
  unfold Role_based.validate_response_simple.
  destruct resp_json as [| | | | | |resp]; try reflexivity.
  cbn [map concat]. unfold Role_based.check_top_level.
  rewrite !(dict_get_filter
              (fun k => Py.str_in k ["status"; "message"])) by reflexivity.
  reflexivity.
Qed.

(** ** The verdict of a response *)

Section Verdicts.

Context (ALLOW_PARTIAL_MESSAGE_MATCH : bool) (py_repr : Py.json -> string)
  (repr_headers : gmap string string -> string)
  (json_dumps_indent : bool -> Py.json -> string).

Import Py Http Role_based.

Abbreviation check := (check_response ALLOW_PARTIAL_MESSAGE_MATCH py_repr).
Abbreviation answer :=
  (record_response ALLOW_PARTIAL_MESSAGE_MATCH py_repr repr_headers
     json_dumps_indent).

(** X5.  A response passes only if its status code is the expected one
    (when one is given and is not 0), the headers of the suite are found on
    it, and its content type, when it declares one, contains the expected
    one; and a status code other than the expected one fails the case with
    the message [Expected .., got ..] first. *)
Theorem passing_response (p : Prepared) (resp : Response) :
  (fst (check p resp) = true ->
   (forall expected_status,
       case_expected_status (p_case p) = Some expected_status ->
       expected_status <> 0 -> resp_status_code resp = expected_status) /\
   fst (validate_headers (resp_headers resp) (p_file_headers p)) = true /\
   (forall c ct,
       header_get "Content-Type" (resp_headers resp) = Some (String c ct) ->
       contains (default "application/json"
                   (case_expected_content_type (p_case p)))
         (String c ct) = true)) /\
  (forall expected_status,
      case_expected_status (p_case p) = Some expected_status ->
      expected_status <> 0 -> resp_status_code resp <> expected_status ->
      fst (check p resp) = false /\
      hd_error (snd (check p resp))
      = Some ("Expected " +:+ str_int expected_status +:+ ", got "
                +:+ str_int (resp_status_code resp))).
Proof.
  unfold check_response. cbn [fst snd]. split.
  - rewrite is_nil_true. intros H.
    apply app_eq_nil in H. destruct H as [Hstatus H].
    apply app_eq_nil in H. destruct H as [_ H].
    apply app_eq_nil in H. destruct H as [Hheaders Hct].
    split; [|split].
    + intros e He Hnz. rewrite He in Hstatus.
      destruct (Z.eqb_spec e 0) as [|_]; [contradiction|].
      destruct (Z.eqb_spec (resp_status_code resp) e) as [Heq|_];
        [exact Heq | discriminate].
    + unfold validate_headers. cbn [fst]. apply is_nil_true. exact Hheaders.
    + intros c ct Hget. rewrite Hget in Hct.
      destruct (contains _ (String c ct)); [reflexivity | discriminate].
  - intros e He Hnz Hne. rewrite He.
    destruct (Z.eqb_spec e 0) as [|_]; [contradiction|].
    destruct (Z.eqb_spec (resp_status_code resp) e) as [|_]; [contradiction|].
    split; reflexivity.
Qed.

(** X6.  An answered request is recorded with the status code of the
    response and the verdict of the checks, and its test id joins
    [slow_tests] exactly when the elapsed time exceeds the threshold of 1500
    ms, whatever the verdict. *)
Theorem answered_request_record (p : Prepared) (resp : Response) (st : State) :
  let st' := answer p resp st in
  (exists r,
      results (SUMMARY st') = results (SUMMARY st) ++ [r] /\
      r_status_code r = StatusCode (resp_status_code resp) /\
      r_result r = (if fst (check p resp) then PASS else FAIL)) /\
  slow_tests (SUMMARY st')
  = slow_tests (SUMMARY st)
    ++ (if resp_elapsed_ms resp >? 1500 then [p_test_id p] else []).
Proof.
  cbn zeta. unfold record_response.
  destruct (check p resp) as [test_passed errors]. cbn [fst].
  change GLOBAL_PERF_THRESHOLD_MS with 1500.
  destruct (resp_elapsed_ms resp >? 1500); destruct test_passed; cbn;
    rewrite ?app_nil_r; (split; [eexists; repeat split|reflexivity]).
Qed.

End Verdicts.

(** ** Attempts, skips and counters of [run_all_tests] *)

Section Attempts.

Context (MAX_RETRIES RETRY_DELAY : Z) (ALLOW_PARTIAL_MESSAGE_MATCH : bool)
  (BASE_URL : string) (py_hash : option string -> Z)
  (py_repr : Py.json -> string) (repr_headers : gmap string string -> string)
  (json_dumps_indent : bool -> Py.json -> string)
  (get_tokens_from_api : nat -> string -> Role_based.Tokens)
  (requests_get :
     nat -> string -> gmap string string -> list (string * string)
     -> Http.Outcome).

Import Py Http Role_based.

Abbreviation loop :=
  (request_loop MAX_RETRIES RETRY_DELAY ALLOW_PARTIAL_MESSAGE_MATCH py_repr
     repr_headers json_dumps_indent requests_get).
Abbreviation answer :=
  (record_response ALLOW_PARTIAL_MESSAGE_MATCH py_repr repr_headers
     json_dumps_indent).
Abbreviation case_step :=
  (process_case MAX_RETRIES RETRY_DELAY ALLOW_PARTIAL_MESSAGE_MATCH BASE_URL
     py_hash py_repr repr_headers json_dumps_indent get_tokens_from_api
     requests_get).
Abbreviation files_loop :=
  (run_files MAX_RETRIES RETRY_DELAY ALLOW_PARTIAL_MESSAGE_MATCH BASE_URL
     py_hash py_repr repr_headers json_dumps_indent get_tokens_from_api
     requests_get).

(** X7.  Whatever the endpoint does, a case sends at most [MAX_RETRIES + 1]
    requests, all of them the same request, and sleeps [RETRY_DELAY] seconds
    between two consecutive ones and at no other time. *)
Theorem attempts_are_bounded (data : Suite) (idx : nat) (case : Case)
    (st : State) :
  exists (attempts : nat) (request : Event),
    calls (case_step data idx case st) = (calls st + attempts)%nat /\
    Z.of_nat attempts <= Z.max 0 (MAX_RETRIES + 1) /\
    trace (case_step data idx case st)
    = trace st ++ retry_trace request (EvSleep RETRY_DELAY) attempts.
Proof.
  assert (Hnone : forall st0 : State,
             calls st0 = calls st -> trace st0 = trace st ->
             exists (attempts : nat) (request : Event),
               calls st0 = (calls st + attempts)%nat /\
               Z.of_nat attempts <= Z.max 0 (MAX_RETRIES + 1) /\
               trace st0
               = trace st ++ retry_trace request (EvSleep RETRY_DELAY) attempts).
  { intros st0 Hcalls Htrace. exists 0%nat, (EvSleep 0).
    cbn. rewrite app_nil_r. repeat split; [lia | lia | exact Htrace]. }
  unfold process_case.
  destruct (negb (String.eqb (method_of data case) "GET"));
    [apply Hnone; reflexivity|].
  destruct (endpoint_of case) as [[|c endpoint]|];
    [apply Hnone; reflexivity | | apply Hnone; reflexivity].
  destruct (Z_le_gt_dec 0 MAX_RETRIES) as [Hle|Hgt].
  - destruct (request_loop_effects MAX_RETRIES RETRY_DELAY
                ALLOW_PARTIAL_MESSAGE_MATCH py_repr repr_headers
                json_dumps_indent requests_get
                (prepare BASE_URL py_hash py_repr get_tokens_from_api
                   data idx case (String c endpoint))
                0 (with_summary incr_total st) Hle)
      as (k & Hcalls & _ & Hbound & Htrace & _).
    exists k. eexists. split; [exact Hcalls|]. split; [lia | exact Htrace].
  - rewrite request_loop_exit by exact Hgt. apply Hnone; reflexivity.
Qed.




(** X9.  A case whose method is not GET, or that has no endpoint, sends no
    request and takes no sample: it is counted in [total] and [skipped] and
    leaves one SKIPPED result without a status code. *)
Theorem skipped_case_sends_nothing (data : Suite) (idx : nat) (case : Case)
    (st : State) :
  method_of data case <> "GET" \/ endpoint_of case = None
  \/ endpoint_of case = Some "" ->
  let st' := case_step data idx case st in
  trace st' = trace st /\ calls st' = calls st /\
  PERF_STATS st' = PERF_STATS st /\
  total (SUMMARY st') = S (total (SUMMARY st)) /\
  skipped (SUMMARY st') = S (skipped (SUMMARY st)) /\
  passed (SUMMARY st') = passed (SUMMARY st) /\
  failed (SUMMARY st') = failed (SUMMARY st) /\
  exists r,
    results (SUMMARY st') = results (SUMMARY st) ++ [r] /\
    r_id r = test_id_of data idx case /\
    r_result r = SKIPPED /\ r_status_code r = StatusDash.
Proof.
  intros H. cbn zeta. unfold process_case.
  destruct (String.eqb_spec (method_of data case) "GET") as [Heq|Hne];
    cbn [negb].
  - destruct H as [H|[H|H]]; [contradiction | |]; rewrite H; cbn;
      repeat split; eexists; repeat split.
  - cbn. repeat split. eexists; repeat split.
Qed.

Lemma count_verdict_app (v : Verdict) (results : list Result) (r : Result) :
  count_verdict v (results ++ [r])
  = (count_verdict v results
     + (if verdict_eqb (r_result r) v then 1 else 0))%nat.
Proof.
  unfold count_verdict. rewrite List.filter_app, length_app. cbn.
  destruct (verdict_eqb (r_result r) v); reflexivity.
Qed.

Lemma recorded_case_by_verdict (id : string) (s s' : Summary) :
  counters_by_verdict s -> recorded_case id s s' -> counters_by_verdict s'.
Proof.
  intros (Hp & Hf & Hs) (_ & r & Hresults & _ & Hverdict).
  unfold counters_by_verdict. rewrite Hresults, !count_verdict_app.
  destruct Hverdict as [(->&?&?&?)|[(->&?&?&?)|(->&?&?&?)]]; cbn; lia.
Qed.

Hypothesis retries_nonneg : 0 <= MAX_RETRIES.

Lemma run_files_by_verdict (files : list JsonFile) :
  forall st : State,
    counters_by_verdict (SUMMARY st) ->
    counters_by_verdict (SUMMARY (files_loop files st)).
Proof.
  apply (run_files_invariant MAX_RETRIES RETRY_DELAY
           ALLOW_PARTIAL_MESSAGE_MATCH BASE_URL py_hash py_repr repr_headers
           json_dumps_indent get_tokens_from_api requests_get
           (fun st => counters_by_verdict (SUMMARY st))).
  intros data idx case st Hst.
  destruct (process_case_outcome MAX_RETRIES RETRY_DELAY
              ALLOW_PARTIAL_MESSAGE_MATCH BASE_URL py_hash py_repr
              repr_headers json_dumps_indent get_tokens_from_api
              requests_get retries_nonneg data idx case st)
    as [[Hrecorded _]|(_ & _ & Hsummary & _)].
  - exact (recorded_case_by_verdict _ _ _ Hst Hrecorded).
  - rewrite Hsummary. exact Hst.
Qed.

(** X10.  Provided the configured retry count is not negative: when the run
    returns, [passed], [failed] and [skipped] are the numbers of PASS, FAIL
    and SKIPPED results, so the script exits with status 0 exactly when no
    result is a FAIL; skipped cases do not change the exit status. *)
Theorem exit_status_reports_failures (files : list JsonFile) :
  let summary :=
    SUMMARY
      (fst (run_all_tests MAX_RETRIES RETRY_DELAY ALLOW_PARTIAL_MESSAGE_MATCH
              BASE_URL py_hash py_repr repr_headers json_dumps_indent
              get_tokens_from_api requests_get files initial_state)) in
  counters_by_verdict summary /\
  (Housekeeping.exit_status summary = 0
   <-> Forall (fun r => r_result r <> FAIL) (results summary)) /\
  (Housekeeping.exit_status summary = 1
   <-> Exists (fun r => r_result r = FAIL) (results summary)).
Proof.
  cbn zeta. cbn [run_all_tests fst].
  assert (Hinv : counters_by_verdict
                   (SUMMARY (files_loop files initial_state))).
  { apply run_files_by_verdict. repeat split. }
  split; [exact Hinv|].
  destruct Hinv as (_ & Hfailed & _).
  unfold Housekeeping.exit_status. rewrite Hfailed.
  generalize (results (SUMMARY (files_loop files initial_state))).
  intros results. unfold count_verdict.
  induction results as [|r results [IH0 IH1]]; cbn.
  - split; split; try discriminate; auto.
    + intros H. apply Exists_nil in H. contradiction.
  - destruct (r_result r) eqn:Hr; cbn.
    + rewrite IH0, IH1. split.
      * split; [intros H; constructor; [congruence | exact H]
               | intros H; inversion H; assumption].
      * split; [intros H; right; exact H
               | intros H; inversion H; [congruence | assumption]].
    + split.
      * split; [discriminate | intros H; inversion H; congruence].
      * split; [intros _; left; exact Hr | reflexivity].
    + rewrite IH0, IH1. split.
      * split; [intros H; constructor; [congruence | exact H]
               | intros H; inversion H; assumption].
      * split; [intros H; right; exact H
               | intros H; inversion H; [congruence | assumption]].
Qed.

End Attempts.

(** ** The headers of a request *)

Section ResolvedHeaders.

Context (BASE_URL : string) (py_hash : option string -> Z)
  (py_repr : Py.json -> string)
  (get_tokens_from_api : nat -> string -> Role_based.Tokens).

Import Py Role_based.

Abbreviation token_logic := (auth_headers py_hash get_tokens_from_api).

(** The token logic changes no header but [Authorization] and
    [X-ID-Token]. *)
Lemma auth_headers_frame (tokens_dict : gmap string string)
    (token_key : option string) (headers : gmap string string) (k : string) :
  k <> "Authorization" -> k <> "X-ID-Token" ->
  token_logic tokens_dict token_key headers !! k = headers !! k.
Proof.
  intros H1 H2. unfold auth_headers.
  destruct (token_key ≫= _) as [TOKENS|].
  - rewrite !lookup_insert_ne by congruence. reflexivity.
  - destruct (bool_decide _).
    + rewrite !lookup_delete_ne by congruence. reflexivity.
    + rewrite !lookup_insert_ne by congruence. reflexivity.
Qed.

(** X11.  Every request of [run_all_tests] carries [Accept:
    application/json], whatever the file and the case say; and for any other
    name than [Accept], [Authorization] and [X-ID-Token], the header sent is
    the one of the case when the case has it, and the one of the file
    otherwise. *)
Theorem resolved_request_headers (data : Suite) (idx : nat) (case : Case)
    (endpoint : string) :
  let headers :=
    p_headers (prepare BASE_URL py_hash py_repr get_tokens_from_api data idx
                 case endpoint) in
  headers !! "Accept" = Some "application/json" /\
  forall k : string,
    k <> "Accept" -> k <> "Authorization" -> k <> "X-ID-Token" ->
    headers !! k
    = match default ∅ (case_headers case) !! k with
      | Some v => Some v
      | None => default ∅ (suite_headers data) !! k
      end.
Proof.
  cbn zeta. cbn [prepare p_headers]. split.
  - rewrite auth_headers_frame by discriminate. apply lookup_insert_eq.
  - intros k Ha Hb Hc. rewrite auth_headers_frame by assumption.
    rewrite lookup_insert_ne by congruence.
    rewrite lookup_union.
    destruct (default ∅ (case_headers case) !! k);
      destruct (default ∅ (suite_headers data) !! k); reflexivity.
Qed.

Lemma fetch_all_tokens_frame (entries : list (string * string)) :
  forall (i : nat) (acc : gmap string Tokens) (key : string),
    ~ In key (map fst entries) ->
    fetch_all_tokens get_tokens_from_api i entries acc !! key = acc !! key.
Proof.
  induction entries as [|[key0 role0] entries IH]; intros i acc key Hfresh;
    [reflexivity|].
  cbn [fetch_all_tokens]. cbn [map fst In] in Hfresh.
  rewrite IH by tauto. apply lookup_insert_ne. tauto.
Qed.

Lemma fetch_all_tokens_lookup (entries : list (string * string)) :
  forall (i : nat) (acc : gmap string Tokens) (j : nat) (key role : string),
    List.NoDup (map fst entries) ->
    entries !! j = Some (key, role) ->
    fetch_all_tokens get_tokens_from_api i entries acc !! key
    = Some (get_tokens_from_api (i + j)%nat role).
Proof.
  induction entries as [|[key0 role0] entries IH];
    intros i acc j key role Hnodup Hj; [discriminate|].
  cbn [fetch_all_tokens]. cbn [map fst] in Hnodup.
  inversion Hnodup as [|? ? Hfresh Hrest]; subst.
  destruct j as [|j].
  - injection Hj as -> ->. rewrite Nat.add_0_r.
    rewrite fetch_all_tokens_frame by exact Hfresh.
    apply lookup_insert_eq.
  - cbn in Hj. rewrite (IH (S i) _ j key role Hrest Hj).
    f_equal. f_equal. lia.
Qed.

(** X12.  A case that names one of the four role keys sends the tokens of
    the login made for that key at start-up, over any [Authorization] or
    [X-ID-Token] header of the file or the case; a key that is none of them
    and is not ["empty"] sends the suite's token of that name, or no token
    text when the suite has none, with the synthesized identifier. *)
Theorem token_key_headers (tokens_dict headers : gmap string string)
    (key : string) :
  (forall (j : nat) (role : string),
      role_map !! j = Some (key, role) ->
      let TOKENS := get_tokens_from_api j role in
      let resolved := token_logic tokens_dict (Some key) headers in
      resolved !! "Authorization"
      = Some ("Bearer " +:+ access_token TOKENS) /\
      resolved !! "X-ID-Token" = Some (id_token TOKENS)) /\
  (~ In key (map fst role_map) -> key <> "empty" ->
   let resolved := token_logic tokens_dict (Some key) headers in
   resolved !! "Authorization"
   = Some ("Bearer " +:+ default "" (tokens_dict !! key)) /\
   resolved !! "X-ID-Token"
   = Some (deterministic_dummy_id_token py_hash (Some key))).
Proof.
  split.
  - intros j role Hj. cbn zeta. unfold auth_headers. cbn [mbind option_bind].
    unfold ALL_TOKENS.
    rewrite (fetch_all_tokens_lookup role_map 0 ∅ j key role);
      [|repeat constructor; cbn; intuition discriminate | exact Hj].
    cbn [Nat.add]. split.
    + rewrite lookup_insert_ne by discriminate. apply lookup_insert_eq.
    + apply lookup_insert_eq.
  - intros Hrole Hempty. cbn zeta. unfold auth_headers.
    cbn [mbind option_bind].
    destruct (ALL_TOKENS get_tokens_from_api !! key) as [t|] eqn:Hlookup.
    { exfalso. apply Hrole.
      destruct (all_tokens_keys get_tokens_from_api key) as [E|[E|[E|E]]];
        [eauto | rewrite E; cbn; auto..]. }
    rewrite bool_decide_eq_false_2 by congruence. split.
    + rewrite lookup_insert_ne by discriminate. apply lookup_insert_eq.
    + apply lookup_insert_eq.
Qed.

End ResolvedHeaders.

(** X13.  Redacting twice is redacting once, and redaction keeps the names
    of the headers: in both runners the redacted mapping has an entry for a
    name exactly when the headers have one. *)
Theorem redaction_is_idempotent (headers : gmap string string) :
  Role_based.redact_headers (Role_based.redact_headers headers)
  = Role_based.redact_headers headers /\
  New.redact_headers (New.redact_headers headers) = New.redact_headers headers /\
  forall k : string,
    (is_Some (Role_based.redact_headers headers !! k) <-> is_Some (headers !! k))
    /\ (is_Some (New.redact_headers headers !! k) <-> is_Some (headers !! k)).
Proof.
  split; [|split].
  - apply map_eq. intros k. rewrite !role_based_redact_lookup.
    destruct (headers !! k); [|reflexivity].
    cbn [fmap option_fmap option_map].
    destruct (is_sensitive Role_based.sensitive_names k); reflexivity.
  - apply map_eq. intros k. rewrite !new_redact_lookup.
    destruct (headers !! k); [|reflexivity].
    cbn [fmap option_fmap option_map].
    destruct (is_sensitive New.sensitive_names k); reflexivity.
  - intros k. rewrite role_based_redact_lookup, new_redact_lookup.
    rewrite !fmap_is_Some. tauto.
Qed.

(** ** The groups of the report *)

Lemma dict_get_group_append (key : string) (r : Role_based.Result)
    (groups : list (string * list Role_based.Result)) (k : string) :
  Py.dict_get k (Role_based.group_append key r groups)
  = if String.eqb k key
    then Some (default [] (Py.dict_get key groups) ++ [r])
    else Py.dict_get k groups.
Proof.
  induction groups as [|[k0 rs] rest IH]; cbn [Role_based.group_append].
  - cbn. destruct (String.eqb k key); reflexivity.
  - destruct (String.eqb k0 key) eqn:E0.
    + apply String.eqb_eq in E0. subst k0. cbn [Py.dict_get].
      rewrite String.eqb_refl. cbn [default].
      destruct (String.eqb k key); reflexivity.
    + cbn [Py.dict_get]. rewrite IH.
      rewrite (String.eqb_sym key k0), E0.
      destruct (String.eqb k key) eqn:E; [|reflexivity].
      apply String.eqb_eq in E. subst k.
      rewrite (String.eqb_sym key k0), E0. reflexivity.
Qed.

Lemma group_append_keys (key : string) (r : Role_based.Result)
    (groups : list (string * list Role_based.Result)) (k : string) :
  In k (map fst (Role_based.group_append key r groups))
  <-> k = key \/ In k (map fst groups).
Proof.
  induction groups as [|[k0 rs] rest IH]; cbn [Role_based.group_append].
  - cbn. intuition congruence.
  - destruct (String.eqb k0 key) eqn:E0.
    + apply String.eqb_eq in E0. subst k0. cbn. intuition congruence.
    + cbn [map fst In]. rewrite IH. tauto.
Qed.

Lemma group_append_nodup (key : string) (r : Role_based.Result)
    (groups : list (string * list Role_based.Result)) :
  List.NoDup (map fst groups) ->
  List.NoDup (map fst (Role_based.group_append key r groups)).
Proof.
  induction groups as [|[k0 rs] rest IH]; cbn [Role_based.group_append].
  - intros _. cbn. repeat constructor. intros [].
  - intros Hnodup. cbn [map fst] in Hnodup.
    inversion Hnodup as [|? ? Hfresh Hrest]; subst.
    destruct (String.eqb k0 key) eqn:E0.
    + cbn [map fst]. constructor; assumption.
    + cbn [map fst]. constructor; [|exact (IH Hrest)].
      rewrite group_append_keys. intros [->|Hin]; [|exact (Hfresh Hin)].
      rewrite String.eqb_refl in E0. discriminate.
Qed.

Lemma dict_get_in {V : Type} (d : list (string * V)) (k : string) (v : V) :
  List.NoDup (map fst d) -> (In (k, v) d <-> Py.dict_get k d = Some v).
Proof.
  induction d as [|[k0 v0] d IH]; cbn [Py.dict_get In map fst].
  - intros _. split; [intros [] | discriminate].
  - intros Hnodup. inversion Hnodup as [|? ? Hfresh Hrest]; subst.
    destruct (String.eqb k k0) eqn:E.
    + apply String.eqb_eq in E. subst k0. split.
      * intros [Heq|Hin]; [congruence|].
        exfalso. apply Hfresh. apply (in_map fst) in Hin. exact Hin.
      * intros Heq. left. congruence.
    + rewrite <- (IH Hrest). split; [|tauto].
      intros [Heq|Hin]; [|exact Hin].
      injection Heq as -> ->. rewrite String.eqb_refl in E. discriminate.
Qed.

Lemma api_groups_lookup (rs : list Role_based.Result) :
  let groups :=
    fold_left (fun groups r =>
                 Role_based.group_append (Role_based.group_key r) r groups)
      rs [] in
  List.NoDup (map fst groups) /\
  forall k : string,
    Py.dict_get k groups
    = match List.filter (fun r => String.eqb (Role_based.group_key r) k) rs with
      | [] => None
      | tests => Some tests
      end.
Proof.
  induction rs as [|r rs IH] using rev_ind; cbn zeta.
  - split; [constructor | reflexivity].
  - cbn zeta in IH. destruct IH as [Hnodup Hget].
    rewrite fold_left_app. cbn [fold_left]. split.
    + apply group_append_nodup. exact Hnodup.
    + intros k. rewrite dict_get_group_append, List.filter_app.
      cbn [List.filter]. rewrite (String.eqb_sym k).
      destruct (String.eqb (Role_based.group_key r) k) eqn:E.
      * apply String.eqb_eq in E. subst k. rewrite Hget.
        destruct (List.filter _ rs) as [|x tests]; reflexivity.
      * rewrite app_nil_r. apply Hget.
Qed.

(** X14.  [generate_html] files every result under exactly one heading: the
    headings are distinct, and the tests listed under a heading are the
    results with that group key, all of them, in the order in which they were
    run; no heading is empty. *)
Theorem groups_partition_the_results (summary : Role_based.Summary) :
  let groups := Role_based.api_groups summary in
  List.NoDup (map fst groups) /\
  forall (api_name : string) (tests : list Role_based.Result),
    In (api_name, tests) groups
    <-> tests <> [] /\
        tests = List.filter
                  (fun r => String.eqb (Role_based.group_key r) api_name)
                  (Role_based.results summary).
Proof.
  cbn zeta. unfold Role_based.api_groups.
  destruct (api_groups_lookup (Role_based.results summary)) as [Hnodup Hget].
  split; [exact Hnodup|].
  intros api_name tests. rewrite (dict_get_in _ _ _ Hnodup), Hget.
  destruct (List.filter _ _) as [|x rest].
  - split; [discriminate | intros [Hne ->]; congruence].
  - split; [intros [= <-]; split; [discriminate | reflexivity]|].
    intros [_ ->]. reflexivity.
Qed.

Lemma rstrip_by_idem (p : ascii -> bool) (s : string) :
  Py.rstrip_by p (Py.rstrip_by p s) = Py.rstrip_by p s.
Proof.
  induction s as [|c s IH]; [reflexivity|].
  cbn [Py.rstrip_by].
  destruct (Py.rstrip_by p s) as [|c' s'] eqn:E.
  - destruct (p c) eqn:Hc; [reflexivity|].
    cbn [Py.rstrip_by]. rewrite Hc. reflexivity.
  - cbn [Py.rstrip_by] in IH |- *.
    destruct (match Py.rstrip_by p s' with
              | EmptyString => if p c' then EmptyString else String c' EmptyString
              | String a s0 => String c' (String a s0)
              end) eqn:E'; [discriminate|].
    injection IH as -> ->. reflexivity.
Qed.

Lemma all_chars_rstrip (q p : ascii -> bool) (s : string) :
  all_chars q s = true -> all_chars q (Py.rstrip_by p s) = true.
Proof.
  induction s as [|c s IH]; [reflexivity|].
  cbn [all_chars Py.rstrip_by]. intros H.
  apply andb_true_iff in H. destruct H as [Hc Hs]. specialize (IH Hs).
  destruct (Py.rstrip_by p s).
  - destruct (p c); [reflexivity|]. cbn. rewrite Hc. reflexivity.
  - cbn [all_chars] in IH |- *. rewrite Hc, IH. reflexivity.
Qed.

Lemma all_chars_lstrip (q p : ascii -> bool) (s : string) :
  all_chars q s = true -> all_chars q (Py.lstrip_by p s) = true.
Proof.
  induction s as [|c s IH]; [reflexivity|].
  cbn [Py.lstrip_by]. intros H. destruct (p c); [|exact H].
  cbn [all_chars] in H. apply andb_true_iff in H. apply IH, H.
Qed.

Lemma all_chars_strip_volatile (q : ascii -> bool) (s : string) :
  all_chars q s = true ->
  forall skip : nat, all_chars q (Role_based.strip_volatile skip s) = true.
Proof.
  induction s as [|c s IH]; [reflexivity|].
  cbn [all_chars]. intros H skip.
  apply andb_true_iff in H. destruct H as [Hc Hs].
  cbn [Role_based.strip_volatile]. destruct skip; [|apply IH, Hs].
  destruct (Role_based.match_volatile (String c s)); [apply IH, Hs|].
  cbn [all_chars]. rewrite Hc. apply IH, Hs.
Qed.

Lemma split_on_head (sep : ascii) (s : string) :
  all_chars (fun c => negb (Ascii.eqb c sep)) (hd "" (Py.split_on sep s)) = true.
Proof.
  induction s as [|c s IH]; [reflexivity|].
  cbn [Py.split_on]. destruct (Ascii.eqb c sep) eqn:E; [reflexivity|].
  destruct (Py.split_on sep s) as [|h t].
  - cbn. rewrite E. reflexivity.
  - cbn [hd all_chars] in IH |- *. rewrite E, IH. reflexivity.
Qed.

(** X15.  A heading of the report is never empty, holds no question mark,
    and ends with a slash only when it is the lone slash that stands for an
    empty base endpoint. *)
Theorem group_key_shape (r : Role_based.Result) :
  let api_name := Role_based.group_key r in
  api_name <> "" /\
  all_chars (fun c => negb (Ascii.eqb c "?")) api_name = true /\
  (api_name = "/" \/ Py.rstrip_slash api_name = api_name).
Proof.
  cbn zeta. unfold Role_based.group_key.
  set (endpoint := hd "" (Py.split_on "?" _)).
  destruct (String.eqb (Py.rstrip_slash (Role_based.strip_volatile 0 endpoint)) "")
    eqn:E.
  - split; [discriminate|]. split; [reflexivity | left; reflexivity].
  - split; [intros H; rewrite H in E; discriminate|]. split.
    + apply all_chars_rstrip, all_chars_strip_volatile.
      apply split_on_head.
    + right. apply rstrip_by_idem.
Qed.

Lemma rstrip_by_after (p : ascii -> bool) (c : ascii) (s t : string) :
  p c = false ->
  exists t' : string, Py.rstrip_by p (s +:+ String c t) = s +:+ String c t'.
Proof.
  intros Hc. induction s as [|x s [t' IH]].
  - change ("" +:+ String c t) with (String c t). cbn [Py.rstrip_by].
    destruct (Py.rstrip_by p t); rewrite ?Hc; eexists; reflexivity.
  - exists t'. rewrite append_cons. cbn [Py.rstrip_by]. rewrite IH.
    destruct s; reflexivity.
Qed.

Lemma split_on_first (sep : ascii) (s t : string) :
  all_chars (fun c => negb (Ascii.eqb c sep)) s = true ->
  hd "" (Py.split_on sep (s +:+ String sep t)) = s.
Proof.
  induction s as [|c s IH]; intros H.
  - change ("" +:+ String sep t) with (String sep t). cbn [Py.split_on].
    rewrite Ascii.eqb_refl. reflexivity.
  - cbn [all_chars] in H. apply andb_true_iff in H. destruct H as [Hc Hs].
    apply negb_true_iff in Hc. specialize (IH Hs).
    rewrite append_cons. cbn [Py.split_on]. rewrite Hc.
    destruct (Py.split_on sep (s +:+ String sep t)); cbn [hd] in IH |- *;
      rewrite IH; reflexivity.
Qed.

(** X16.  The query string of an endpoint plays no part in the heading: a
    result whose endpoint is [e?q] is filed where the result with the same
    method and the endpoint [e] is, for a method and an [e] without white
    space and question mark. *)
Theorem query_string_is_not_part_of_the_group (r r' : Role_based.Result)
    (m e q : string) :
  let plain := fun c => negb (Py.is_space c) && negb (Ascii.eqb c "?") in
  m <> "" -> all_chars plain m = true ->
  e <> "" -> all_chars plain e = true ->
  Role_based.r_method r = m -> Role_based.r_endpoint r = Some e ->
  Role_based.r_method r' = m ->
  Role_based.r_endpoint r' = Some (e +:+ "?" +:+ q) ->
  Role_based.group_key r' = Role_based.group_key r.
Proof.
  intros plain Hm Hplain_m He Hplain_e Hmethod Hendpoint Hmethod' Hendpoint'.
  assert (Hspace : forall s, all_chars plain s = true ->
                             all_chars (fun c => negb (Py.is_space c)) s = true).
  { intros s. apply all_chars_weaken. intros c H.
    apply andb_true_iff in H. tauto. }
  assert (Hmark : forall s, all_chars plain s = true ->
                    all_chars (fun c => negb (Ascii.eqb c "?")) s = true).
  { intros s. apply all_chars_weaken. intros c H.
    apply andb_true_iff in H. tauto. }
  assert (Hlstrip : forall t, Py.lstrip_by Py.is_space (m +:+ t) = m +:+ t).
  { intros t. destruct m as [|c m]; [contradiction|].
    cbn [all_chars] in Hplain_m. apply andb_true_iff in Hplain_m.
    destruct Hplain_m as [Hc _]. apply andb_true_iff in Hc.
    destruct Hc as [Hc _]. apply negb_true_iff in Hc.
    rewrite append_cons. cbn [Py.lstrip_by]. rewrite Hc. reflexivity. }
  assert (Hnonempty : forall t, String.eqb (m +:+ t) "" = false).
  { intros t. destruct m; [contradiction | reflexivity]. }
  assert (Hhead : all_chars (fun c => negb (Ascii.eqb c "?")) (m +:+ " " +:+ e)
                  = true).
  { rewrite !all_chars_app, (Hmark m Hplain_m), (Hmark e Hplain_e).
    reflexivity. }
  unfold Role_based.group_key.
  rewrite Hmethod, Hendpoint, Hmethod', Hendpoint'.
  change (Py.fmt_opt (Some e)) with e.
  change (Py.fmt_opt (Some (e +:+ "?" +:+ q))) with (e +:+ "?" +:+ q).
  unfold Py.strip. rewrite !Hlstrip.
  replace (Py.rstrip_by Py.is_space (m +:+ " " +:+ e)) with (m +:+ " " +:+ e).
  2:{ symmetry. rewrite <- append_assoc.
      apply rstrip_by_keep; [exact He | exact (Hspace e Hplain_e)]. }
  destruct (rstrip_by_after Py.is_space "?" (m +:+ " " +:+ e) q eq_refl)
    as [q' Hq].
  replace (m +:+ " " +:+ e +:+ "?" +:+ q)
    with ((m +:+ " " +:+ e) +:+ String "?" q)
    by (rewrite !append_assoc; reflexivity).
  rewrite Hq, (append_assoc m), !Hnonempty.
  rewrite <- (append_assoc m).
  rewrite (split_on_first "?" _ q' Hhead), (split_on_absent "?" _ Hhead).
  reflexivity.
Qed.

(** ** The rows of the report *)

Lemma all_chars_map_chars (q : ascii -> bool) (f : ascii -> ascii) (s : string) :
  (forall c, q (f c) = true) -> all_chars q (Py.map_chars f s) = true.
Proof.
  intros Hf. induction s as [|c s IH]; [reflexivity|].
  cbn [Py.map_chars all_chars]. rewrite Hf, IH. reflexivity.
Qed.

Lemma digits_of_uint (u : Decimal.uint) :
  all_chars Py.is_digit (NilEmpty.string_of_uint u) = true.
Proof. induction u; cbn; [reflexivity | exact IHu ..]. Qed.

Lemma str_int_digits (n : nat) :
  all_chars Py.is_digit (Py.str_int (Z.of_nat n)) = true.
Proof.
  unfold Py.str_int. destruct (Z.of_nat n) as [|q|q] eqn:E; [reflexivity| |lia].
  cbn [Z.to_int NilZero.string_of_int NilZero.string_of_uint].
  assert (H := digits_of_uint (Pos.to_uint q)).
  destruct (Pos.to_uint q); [reflexivity | exact H ..].
Qed.

(** X17.  The identifier that [generate_html] gives to the details of a row
    is made of letters, digits and underscores only, so that it can stand
    unescaped in the page; and the rows of one group get distinct
    identifiers. *)
Theorem row_ids_are_identifiers (api_name : string) (i : nat) :
  all_chars Py.is_word (Housekeeping.row_id api_name i) = true /\
  forall j : nat,
    Housekeeping.row_id api_name i = Housekeeping.row_id api_name j -> i = j.
Proof.
  unfold Housekeeping.row_id. split.
  - rewrite !all_chars_app.
    assert (Hdigit : forall c, Py.is_digit c = true -> Py.is_word c = true).
    { intros c H. unfold Py.is_word. rewrite H.
      destruct (Py.is_upper c), (Py.is_lower c); reflexivity. }
    rewrite (all_chars_weaken Py.is_digit Py.is_word _ Hdigit
               (str_int_digits i)).
    unfold Housekeeping.group_id.
    rewrite all_chars_rstrip; [reflexivity|].
    apply all_chars_lstrip, all_chars_map_chars.
    intros c. unfold Housekeeping.is_alnum, Py.is_word.
    destruct (Py.is_upper c || Py.is_lower c || Py.is_digit c) eqn:E;
      [rewrite E|]; reflexivity.
  - intros j H.
    apply append_inj, append_inj, append_inj, str_int_inj in H. lia.
Qed.

(** Escaped text holds no angle bracket and no quote. *)
Lemma html_escape_no_markup (s : string) :
  all_chars
    (fun c => negb (Ascii.eqb c "<" || Ascii.eqb c ">"
                    || Ascii.eqb c (ascii_of_N 34) || Ascii.eqb c "'"))
    (Py.html_escape s) = true.
Proof.
  induction s as [|c s IH]; [reflexivity|].
  cbn [Py.html_escape]. rewrite all_chars_app, IH, andb_true_r.
  destruct (Ascii.eqb c "&"); [reflexivity|].
  destruct (Ascii.eqb c "<") eqn:E1; [reflexivity|].
  destruct (Ascii.eqb c ">") eqn:E2; [reflexivity|].
  destruct (Ascii.eqb c (ascii_of_N 34)) eqn:E3; [reflexivity|].
  destruct (Ascii.eqb c "'") eqn:E4; [reflexivity|].
  cbn [all_chars]. rewrite E1, E2, E3, E4. reflexivity.
Qed.

Section ErrorRows.

Context (MAX_RETRIES RETRY_DELAY : Z) (ALLOW_PARTIAL_MESSAGE_MATCH : bool)
  (BASE_URL : string) (py_hash : option string -> Z)
  (py_repr : Py.json -> string) (repr_headers : gmap string string -> string)
  (json_dumps_indent : bool -> Py.json -> string)
  (get_tokens_from_api : nat -> string -> Role_based.Tokens)
  (requests_get :
     nat -> string -> gmap string string -> list (string * string)
     -> Http.Outcome).

Import Py Http Role_based.

(** The details of a result whose status cell is ERROR. *)
Abbreviation escaped_exception r :=
  (r_status_code r = StatusError ->
   exists body : string,
     r_details r = "<pre>Exception: " +:+ body +:+ "</pre>" /\
     all_chars
       (fun c => negb (Ascii.eqb c "<" || Ascii.eqb c ">"
                       || Ascii.eqb c (ascii_of_N 34) || Ascii.eqb c "'"))
       body = true).

Lemma request_loop_error_rows (p : Prepared) (attempt : Z) (st : State) :
  Forall (fun r => escaped_exception r) (results (SUMMARY st)) ->
  Forall (fun r => escaped_exception r)
    (results (SUMMARY (request_loop MAX_RETRIES RETRY_DELAY
                         ALLOW_PARTIAL_MESSAGE_MATCH py_repr repr_headers
                         json_dumps_indent requests_get p attempt st))).
Proof.
  apply (request_loop_ind MAX_RETRIES RETRY_DELAY ALLOW_PARTIAL_MESSAGE_MATCH
           py_repr repr_headers json_dumps_indent requests_get p
           (fun _ st st' =>
              Forall (fun r => escaped_exception r) (results (SUMMARY st)) ->
              Forall (fun r => escaped_exception r) (results (SUMMARY st')))).
  - intros a s _ H. exact H.
  - intros a s resp _ _ H. unfold record_response.
    destruct (check_response _ _ p resp) as [test_passed errors].
    destruct (resp_elapsed_ms resp >? GLOBAL_PERF_THRESHOLD_MS);
      destruct test_passed; cbn; apply Forall_app; (split; [exact H|]);
      (constructor; [discriminate | constructor]).
  - intros a s text s' _ _ _ IH H. apply IH.
    destruct (a + 1 >? MAX_RETRIES); [|exact H].
    cbn. apply Forall_app. split; [exact H|].
    constructor; [|constructor]. intros _.
    exists (html_escape text). split; [reflexivity|].
    apply html_escape_no_markup.
  - intros a s text error _ _ _ H. exact H.
Qed.

(** X18.  Every result that a run records with the status cell ERROR, for a
    request whose retries are used up, has as details the text of the
    exception between [<pre>Exception: ] and [</pre>], escaped: that text
    holds no angle bracket and no quote, so it cannot close the [pre]
    element of the row or open a tag. *)
Theorem error_rows_hold_no_markup (files : list JsonFile) :
  Forall (fun r => escaped_exception r)
    (results
       (SUMMARY
          (fst (run_all_tests MAX_RETRIES RETRY_DELAY
                  ALLOW_PARTIAL_MESSAGE_MATCH BASE_URL py_hash py_repr
                  repr_headers json_dumps_indent get_tokens_from_api
                  requests_get files initial_state)))).
Proof.
  cbn [run_all_tests fst].
  apply (run_files_invariant MAX_RETRIES RETRY_DELAY
           ALLOW_PARTIAL_MESSAGE_MATCH BASE_URL py_hash py_repr repr_headers
           json_dumps_indent get_tokens_from_api requests_get
           (fun st => Forall (fun r => escaped_exception r)
                        (results (SUMMARY st)))); [|constructor].
  intros data idx case st Hst. unfold process_case.
  destruct (negb (String.eqb (method_of data case) "GET")).
  - cbn. apply Forall_app. split; [exact Hst|].
    constructor; [discriminate | constructor].
  - destruct (endpoint_of case) as [[|c endpoint]|].
    2:{ apply request_loop_error_rows. exact Hst. }
    all: cbn; apply Forall_app; (split; [exact Hst|]);
      constructor; [discriminate | constructor].
Qed.

End ErrorRows.

(** ** Path placeholders *)

Lemma placeholder_needs_brace (c : ascii) (r : string) :
  Ascii.eqb c "{" = false -> Py.placeholder_at (String c r) = None.
Proof.
  destruct c as [[] [] [] [] [] [] [] []]; cbn; congruence.
Qed.

Lemma findall_plain (s : string) :
  all_chars (fun c => negb (Ascii.eqb c "{")) s = true ->
  forall skip : nat, Py.findall_placeholders skip s = [].
Proof.
  induction s as [|c s IH]; [reflexivity|].
  cbn [all_chars]. intros H skip.
  apply andb_true_iff in H. destruct H as [Hc Hs]. apply negb_true_iff in Hc.
  cbn [Py.findall_placeholders]. destruct skip; [|apply IH, Hs].
  rewrite (placeholder_needs_brace c s Hc). apply IH, Hs.
Qed.

Lemma findall_skip (x s : string) (k : nat) :
  Py.findall_placeholders (String.length x + k) (x +:+ s)
  = Py.findall_placeholders k s.
Proof. induction x as [|c x IH]; [reflexivity | exact IH]. Qed.

Lemma findall_after_plain (pre s : string) :
  all_chars (fun c => negb (Ascii.eqb c "{")) pre = true ->
  Py.findall_placeholders 0 (pre +:+ s) = Py.findall_placeholders 0 s.
Proof.
  induction pre as [|c pre IH]; [reflexivity|].
  cbn [all_chars]. intros H.
  apply andb_true_iff in H. destruct H as [Hc Hs]. apply negb_true_iff in Hc.
  rewrite append_cons. cbn [Py.findall_placeholders].
  rewrite (placeholder_needs_brace c _ Hc). apply IH, Hs.
Qed.

Lemma span_stop (p : ascii -> bool) (a : string) (c : ascii) (t : string) :
  all_chars p a = true -> p c = false ->
  Py.span p (a +:+ String c t) = (a, String c t).
Proof.
  intros Ha Hc. induction a as [|x a IH].
  - change ("" +:+ String c t) with (String c t). cbn [Py.span].
    rewrite Hc. reflexivity.
  - cbn [all_chars] in Ha. apply andb_true_iff in Ha. destruct Ha as [Hx Ha].
    rewrite append_cons. cbn [Py.span]. rewrite Hx, (IH Ha). reflexivity.
Qed.

Lemma prefix_append (a b : string) : String.prefix a (a +:+ b) = true.
Proof.
  induction a as [|c a IH]; [destruct b; reflexivity|].
  rewrite append_cons. cbn [String.prefix].
  destruct (ascii_dec c c); [exact IH | congruence].
Qed.

Lemma replace_plain (o new s : string) :
  all_chars (fun c => negb (Ascii.eqb c "{")) s = true ->
  Py.replace (String "{" o) new 0 s = s.
Proof.
  induction s as [|c s IH]; [reflexivity|].
  cbn [all_chars]. intros H.
  apply andb_true_iff in H. destruct H as [Hc Hs]. apply negb_true_iff in Hc.
  cbn [Py.replace String.prefix].
  destruct (ascii_dec "{" c) as [<-|_]; [discriminate|].
  rewrite (IH Hs). reflexivity.
Qed.

Lemma replace_after_plain (o new pre s : string) :
  all_chars (fun c => negb (Ascii.eqb c "{")) pre = true ->
  Py.replace (String "{" o) new 0 (pre +:+ s)
  = pre +:+ Py.replace (String "{" o) new 0 s.
Proof.
  induction pre as [|c pre IH]; [reflexivity|].
  cbn [all_chars]. intros H.
  apply andb_true_iff in H. destruct H as [Hc Hs]. apply negb_true_iff in Hc.
  rewrite !append_cons. cbn [Py.replace String.prefix].
  destruct (ascii_dec "{" c) as [<-|_]; [discriminate|].
  rewrite (IH Hs). reflexivity.
Qed.

Lemma replace_skip (old new x s : string) (k : nat) :
  Py.replace old new (String.length x + k) (x +:+ s) = Py.replace old new k s.
Proof. induction x as [|c x IH]; [reflexivity | exact IH]. Qed.

Lemma length_append (a b : string) :
  String.length (a +:+ b) = (String.length a + String.length b)%nat.
Proof.
  induction a as [|c a IH]; [reflexivity|].
  rewrite append_cons. cbn [String.length]. rewrite IH. reflexivity.
Qed.

(** X19.  A placeholder for which the case gives no path parameter stays in
    the endpoint as it is written: when none of the names found has a value,
    the endpoint is requested unchanged. *)
Theorem unresolved_placeholders_stay (py_repr : Py.json -> string)
    (path_params : gmap string Py.json) (endpoint : string) :
  (forall ph : string,
      In ph (Py.findall_placeholders 0 endpoint) -> path_params !! ph = None) ->
  Py.substitute_path_params py_repr path_params endpoint = endpoint.
Proof.
  unfold Py.substitute_path_params.
  generalize (Py.findall_placeholders 0 endpoint). intros names.
  induction names as [|ph names IH]; intros H; [reflexivity|].
  cbn [fold_left]. rewrite (H ph) by (left; reflexivity).
  apply IH. intros ph' Hin. apply H. right. exact Hin.
Qed.

(** X20.  A placeholder [{name}] standing between texts without an opening
    brace is replaced by the text of the path parameter of that name, and the
    texts around it are kept. *)
Theorem resolved_placeholder_is_replaced (py_repr : Py.json -> string)
    (path_params : gmap string Py.json) (pre name suf : string) (v : Py.json) :
  all_chars (fun c => negb (Ascii.eqb c "{")) pre = true ->
  all_chars (fun c => negb (Ascii.eqb c "{")) suf = true ->
  name <> "" -> all_chars Py.is_word name = true ->
  path_params !! name = Some v ->
  Py.substitute_path_params py_repr path_params
    (pre +:+ "{" +:+ name +:+ "}" +:+ suf)
  = pre +:+ Py.str py_repr v +:+ suf.
Proof.
  intros Hpre Hsuf Hname Hword Hv.
  unfold Py.substitute_path_params.
  assert (Hfind : Py.findall_placeholders 0 (pre +:+ "{" +:+ name +:+ "}" +:+ suf)
                  = [name]).
  { rewrite (findall_after_plain pre _ Hpre).
    change ("{" +:+ name +:+ "}" +:+ suf) with (String "{" (name +:+ String "}" suf)).
    cbn [Py.findall_placeholders Py.placeholder_at].
    rewrite (span_stop Py.is_word name "}" suf Hword eq_refl).
    destruct name as [|c name]; [contradiction|].
    change (String c name +:+ String "}" suf)
      with (String c name +:+ "}" +:+ suf).
    rewrite <- append_assoc.
    replace (S (String.length (String c name)))
      with (String.length (String c name +:+ "}") + 0)%nat
      by (rewrite length_append; cbn; lia).
    rewrite findall_skip, (findall_plain suf Hsuf). reflexivity. }
  rewrite Hfind. cbn [fold_left]. rewrite Hv.
  change ("{" +:+ name +:+ "}") with (String "{" (name +:+ "}")).
  rewrite (replace_after_plain _ _ pre _ Hpre). f_equal.
  change ("{" +:+ name +:+ "}" +:+ suf) with (String "{" (name +:+ "}" +:+ suf)).
  cbn [Py.replace].
  replace (String "{" (name +:+ "}" +:+ suf))
    with (String "{" (name +:+ "}") +:+ suf)
    by (rewrite append_cons, append_assoc; reflexivity).
  rewrite prefix_append. f_equal.
  rewrite <- append_assoc.
  replace (String.length (String "{" (name +:+ "}")) - 1)%nat
    with (String.length (name +:+ "}") + 0)%nat by (cbn; lia).
  rewrite replace_skip. apply replace_plain. exact Hsuf.
Qed.

(** ** The performance figures *)

Lemma fold_max_bounds (x : Z) (rest : list Z) :
  In (fold_right Z.max x rest) (x :: rest) /\
  forall y : Z, In y (x :: rest) -> y <= fold_right Z.max x rest.
Proof.
  induction rest as [|z rest [IHin IHle]]; cbn [fold_right].
  - split; [left; reflexivity|]. intros y [<-|[]]. lia.
  - split.
    + destruct (Z.max_spec z (fold_right Z.max x rest)) as [[_ ->]|[_ ->]].
      * destruct IHin as [<-|Hin]; [left; reflexivity | right; right; exact Hin].
      * right; left; reflexivity.
    + intros y [<-|[<-|Hin]].
      * specialize (IHle x (or_introl eq_refl)). lia.
      * lia.
      * specialize (IHle y (or_intror Hin)). lia.
Qed.

Lemma fold_min_bounds (x : Z) (rest : list Z) :
  In (fold_right Z.min x rest) (x :: rest) /\
  forall y : Z, In y (x :: rest) -> fold_right Z.min x rest <= y.
Proof.
  induction rest as [|z rest [IHin IHle]]; cbn [fold_right].
  - split; [left; reflexivity|]. intros y [<-|[]]. lia.
  - split.
    + destruct (Z.min_spec z (fold_right Z.min x rest)) as [[_ ->]|[_ ->]].
      * right; left; reflexivity.
      * destruct IHin as [<-|Hin]; [left; reflexivity | right; right; exact Hin].
    + intros y [<-|[<-|Hin]].
      * specialize (IHle x (or_introl eq_refl)). lia.
      * lia.
      * specialize (IHle y (or_intror Hin)). lia.
Qed.

(** X21.  When some attempt was answered, the [max] and [min] that
    [run_all_tests] returns are elapsed times of answered attempts and every
    such time lies between them; when none was, the three figures are 0. *)
Theorem performance_bounds (samples : list Z) :
  let stats := Role_based.perf_summary samples in
  (samples = [] ->
   Role_based.avg stats = 0 /\ Role_based.max stats = 0
   /\ Role_based.min stats = 0) /\
  (samples <> [] ->
   In (Role_based.max stats) samples /\ In (Role_based.min stats) samples /\
   forall elapsed_ms : Z,
     In elapsed_ms samples ->
     Role_based.min stats <= elapsed_ms <= Role_based.max stats).
Proof.
  cbn zeta. split.
  - intros ->. repeat split.
  - intros Hne. destruct samples as [|x rest]; [congruence|].
    cbn [Role_based.perf_summary Role_based.max Role_based.min].
    destruct (fold_max_bounds x rest) as [Hmax_in Hmax].
    destruct (fold_min_bounds x rest) as [Hmin_in Hmin].
    split; [exact Hmax_in|]. split; [exact Hmin_in|].
    intros y Hy. split; [apply Hmin | apply Hmax]; exact Hy.
Qed.

(** ** Old reports *)

Lemma insert_report_perm (r : Housekeeping.ReportFile)
    (reports : list Housekeeping.ReportFile) :
  Permutation (Housekeeping.insert_report r reports) (r :: reports).
Proof.
  induction reports as [|x rest IH]; cbn [Housekeeping.insert_report];
    [reflexivity|].
  destruct (_ >? _); [|reflexivity].
  rewrite IH. apply perm_swap.
Qed.

Lemma newest_first_perm (found : list Housekeeping.ReportFile) :
  Permutation (Housekeeping.newest_first found) found.
Proof.
  induction found as [|r found IH]; [reflexivity|].
  unfold Housekeeping.newest_first in *. cbn [fold_right].
  rewrite insert_report_perm, IH. reflexivity.
Qed.

Lemma insert_report_sorted (r : Housekeeping.ReportFile)
    (reports : list Housekeeping.ReportFile) :
  StronglySorted
    (fun a b => Housekeeping.report_mtime b <= Housekeeping.report_mtime a)
    reports ->
  StronglySorted
    (fun a b => Housekeeping.report_mtime b <= Housekeeping.report_mtime a)
    (Housekeeping.insert_report r reports).
Proof.
  induction 1 as [|x rest Hsorted IH Hall]; cbn [Housekeeping.insert_report].
  - repeat constructor.
  - destruct (_ >? _) eqn:E.
    + apply Z.gtb_lt in E. constructor; [exact IH|].
      apply List.Forall_forall. intros y Hy.
      apply (Permutation_in _ (insert_report_perm r rest)) in Hy.
      destruct Hy as [<-|Hy]; [lia|].
      rewrite List.Forall_forall in Hall. exact (Hall y Hy).
    + assert (Hle : Housekeeping.report_mtime x <= Housekeeping.report_mtime r).
      { destruct (Z.gtb_spec (Housekeeping.report_mtime x)
                    (Housekeeping.report_mtime r)); [discriminate | lia]. }
      constructor; [constructor; assumption|].
      constructor; [exact Hle|].
      rewrite List.Forall_forall in Hall |- *. intros y Hy.
      specialize (Hall y Hy). lia.
Qed.

Lemma newest_first_sorted (found : list Housekeeping.ReportFile) :
  StronglySorted
    (fun a b => Housekeeping.report_mtime b <= Housekeeping.report_mtime a)
    (Housekeeping.newest_first found).
Proof.
  induction found as [|r found IH]; [constructor|].
  apply insert_report_sorted. exact IH.
Qed.

Lemma sorted_take_drop {A : Type} (R : A -> A -> Prop) (l : list A) :
  StronglySorted R l ->
  forall (n : nat) (a b : A), In a (take n l) -> In b (drop n l) -> R a b.
Proof.
  induction 1 as [|x rest Hsorted IH Hall]; intros n a b Ha Hb.
  - rewrite take_nil in Ha. destruct Ha.
  - destruct n as [|n]; [destruct Ha|].
    cbn [take drop] in Ha, Hb. destruct Ha as [<-|Ha].
    + rewrite List.Forall_forall in Hall. apply Hall.
      revert Hb. clear. revert rest.
      induction n as [|n IHn]; intros rest Hb; [exact Hb|].
      destruct rest as [|y rest]; [destruct Hb|].
      right. apply IHn. exact Hb.
    + exact (IH n a b Ha Hb).
Qed.

Lemma unlink_each_prefix (unlink_ok : string -> bool)
    (old : list Housekeeping.ReportFile) :
  old = Housekeeping.unlink_each unlink_ok old
        ++ drop (length (Housekeeping.unlink_each unlink_ok old)) old.
Proof.
  induction old as [|r old IH]; [reflexivity|].
  cbn [Housekeeping.unlink_each].
  destruct (unlink_ok _); [|reflexivity].
  cbn [length drop app]. rewrite <- IH. reflexivity.
Qed.

Lemma unlink_each_all (unlink_ok : string -> bool)
    (old : list Housekeeping.ReportFile) :
  (forall name, unlink_ok name = true) ->
  Housekeeping.unlink_each unlink_ok old = old.
Proof.
  intros Hok. induction old as [|r old IH]; [reflexivity|].
  cbn [Housekeeping.unlink_each]. rewrite Hok, IH. reflexivity.
Qed.

(** X22.  [cleanup_old_reports] loses no file and never deletes one of the
    five newest: every report found is either deleted or left, the five
    newest are the first five left, each deleted report is no newer than any
    of them, nothing is deleted when five or fewer are found, and when every
    [unlink] succeeds exactly the five newest are left. *)
Theorem cleanup_keeps_the_newest (unlink_ok : string -> bool)
    (found : list Housekeeping.ReportFile) :
  let '(deleted, remaining) := Housekeeping.cleanup_old_reports unlink_ok found in
  Permutation (deleted ++ remaining) found /\
  length (take 5 remaining) = Nat.min 5 (length found) /\
  (forall old_report kept : Housekeeping.ReportFile,
      In old_report deleted -> In kept (take 5 remaining) ->
      Housekeeping.report_mtime old_report <= Housekeeping.report_mtime kept) /\
  (length found <= 5 -> deleted = [])%nat /\
  ((forall name, unlink_ok name = true) ->
   length remaining = Nat.min 5 (length found)).
Proof.
  unfold Housekeeping.cleanup_old_reports, Housekeeping.MAX_REPORTS_TO_KEEP.
  set (reports := Housekeeping.newest_first found).
  set (old := drop 5 reports).
  set (deleted := Housekeeping.unlink_each unlink_ok old).
  assert (Hlen : length reports = length found).
  { apply Permutation_length, newest_first_perm. }
  assert (Hold : old = deleted ++ drop (length deleted) old).
  { apply unlink_each_prefix. }
  assert (Hfirst : take 5 (take 5 reports ++ drop (length deleted) old)
                   = take 5 reports).
  { destruct (Nat.le_gt_cases 5 (length reports)) as [Hge|Hlt].
    - rewrite take_app_le by (rewrite length_take; lia).
      rewrite take_take. reflexivity.
    - assert (Hnil : old = []) by (apply drop_ge; lia).
      rewrite Hnil, drop_nil, app_nil_r, take_take. reflexivity. }
  split; [|split; [|split; [|split]]].
  - rewrite <- (newest_first_perm found). fold reports.
    rewrite <- (take_drop 5 reports) at 2. fold old.
    rewrite Hold at 2.
    rewrite Permutation_app_swap_app. reflexivity.
  - rewrite Hfirst, length_take. lia.
  - intros old_report kept Hdel Hkept. rewrite Hfirst in Hkept.
    apply (sorted_take_drop _ reports (newest_first_sorted found) 5);
      [exact Hkept|].
    fold old. rewrite Hold. apply in_or_app. left. exact Hdel.
  - intros Hfew. assert (Hnil : old = []) by (apply drop_ge; lia).
    unfold deleted. rewrite Hnil. reflexivity.
  - intros Hok. unfold deleted. rewrite (unlink_each_all unlink_ok old Hok).
    rewrite drop_all, app_nil_r, length_take. lia.
Qed.

(** ** The session of [new.py] *)

Section NewSession.

Context (json_validate : Py.json -> Py.json -> option string)
  (json_dumps : Py.json -> string) (repr_errors : list string -> string)
  (py_repr : Py.json -> string)
  (requests_request :
     nat -> string -> string -> gmap string string -> option Py.json
     -> Http.Outcome).

Import Py Http New.

Abbreviation one_case :=
  (run_case json_validate json_dumps repr_errors py_repr requests_request).
Abbreviation many_cases :=
  (run_cases json_validate json_dumps repr_errors py_repr requests_request).
Abbreviation one_file :=
  (test_api_from_json json_validate json_dumps repr_errors py_repr
     requests_request).
Abbreviation whole_session :=
  (session json_validate json_dumps repr_errors py_repr requests_request).

Lemma counted_trans (a b : nat) (s1 s2 s3 : Summary) :
  counted a s1 s2 -> counted b s2 s3 -> counted (a + b) s1 s3.
Proof. unfold counted. intros. intuition lia. Qed.

Lemma run_case_counted (filename : string) (data : Suite) (base_url : string)
    (idx : nat) (case : Case) (st : State) :
  let '(st', outcome) := one_case filename data base_url idx case st in
  counted (match outcome with Raise _ => 1 | Ok _ => 0 end)
    (SUMMARY st) (SUMMARY st').
Proof.
  unfold run_case.
  destruct (or_str (case_endpoint case) (case_api_endpoint case))
    as [[|c endpoint]|]; [unfold counted; cbn; lia| |unfold counted; cbn; lia].
  match goal with
  | |- context [requests_request ?n ?m ?u ?h ?b] =>
      destruct (requests_request n m u h b) as [resp|text]
  end; [|unfold counted; cbn; lia].
  match goal with
  | |- context [mbind ?k ?m] => destruct (mbind k m)
  end; unfold counted; cbn; lia.
Qed.

Lemma run_cases_counted (filename : string) (data : Suite) (base_url : string)
    (cases : list Case) :
  forall (idx : nat) (st : State),
    let '(st', outcome) := many_cases filename data base_url idx cases st in
    counted (match outcome with Raise _ => 1 | Ok _ => 0 end)
      (SUMMARY st) (SUMMARY st').
Proof.
  induction cases as [|case rest IH]; intros idx st; cbn [run_cases].
  - unfold counted. lia.
  - pose proof (run_case_counted filename data base_url idx case st) as Hcase.
    destruct (one_case filename data base_url idx case st) as [st1 [[]|e]];
      [|exact Hcase].
    specialize (IH (S idx) st1).
    destruct (many_cases filename data base_url (S idx) rest st1)
      as [st' outcome].
    exact (counted_trans 0 _ _ _ _ Hcase IH).
Qed.

Lemma test_api_counted (filename : string) (data : Suite) (st : State) :
  let '(st', outcome) := one_file filename data st in
  counted (match outcome with Raise _ => 1 | Ok _ => 0 end)
    (SUMMARY st) (SUMMARY st').
Proof.
  unfold test_api_from_json.
  destruct (String.eqb _ ""); [unfold counted; lia|].
  apply run_cases_counted.
Qed.

(** X23.  The counters of [new.py] over a session: [failed] is never
    touched; every case that is counted as passed or skipped is counted in
    [total]; and the cases counted in [total] but not as passed are at most
    one for each test instance that ended with an exception, as are the cases
    counted as skipped. *)
Theorem new_session_counters (all_json_data : list (string * Suite)) :
  forall st : State,
    let '(st', outcomes) := whole_session all_json_data st in
    let s := SUMMARY st in
    let s' := SUMMARY st' in
    failed s' = failed s /\
    (passed s <= passed s')%nat /\ (skipped s <= skipped s')%nat /\
    (total s + passed s' + skipped s' <= total s' + passed s + skipped s)%nat /\
    (total s' + passed s <= total s + passed s' + raised_outcomes outcomes)%nat /\
    (skipped s' <= skipped s + raised_outcomes outcomes)%nat.
Proof.
  induction all_json_data as [|[filename data] rest IH]; intros st;
    cbn [session].
  - cbn. lia.
  - pose proof (test_api_counted filename data st) as Hfile.
    destruct (one_file filename data st) as [st1 outcome].
    specialize (IH st1).
    destruct (whole_session rest st1) as [st' outcomes].
    pose proof (counted_trans _ _ _ _ _ Hfile IH) as Hall.
    unfold raised_outcomes. cbn [List.filter snd].
    destruct outcome as [[]|e]; cbn [length]; exact Hall.
Qed.

Lemma or_json_cases (a b : option json) :
  (exists v, or_json a b = Some v /\ truthy v = true) \/ or_json a b = b.
Proof.
  destruct a as [v|]; cbn [or_json]; [|right; reflexivity].
  destruct (truthy v) eqn:E; [left; eauto | right; reflexivity].
Qed.

Lemma new_auth_headers_frame (tokens : gmap string string)
    (token_key : option string) (headers : gmap string string) (k : string) :
  k <> "Authorization" ->
  auth_headers tokens token_key headers !! k = headers !! k.
Proof.
  intros Hk. unfold auth_headers.
  destruct (token_key ≫= _) as [[|c token_value]|];
    try (destruct (_ || _); [apply lookup_delete_ne; congruence | reflexivity]).
  apply lookup_insert_ne. congruence.
Qed.

Lemma run_case_requests (filename : string) (data : Suite) (base_url : string)
    (idx : nat) (case : Case) (st : State) :
  exists events : list Event,
    trace (fst (one_case filename data base_url idx case st))
    = trace st ++ events /\
    Forall well_formed_request events.
Proof.
  unfold run_case.
  destruct (or_str (case_endpoint case) (case_api_endpoint case))
    as [[|c endpoint]|];
    [exists []; cbn; rewrite app_nil_r; auto | |
     exists []; cbn; rewrite app_nil_r; auto].
  eexists [_].
  split.
  - match goal with
    | |- context [requests_request ?n ?m ?u ?h ?b] =>
        destruct (requests_request n m u h b) as [resp|text]
    end; [|reflexivity].
    match goal with
    | |- context [mbind ?k ?m] => destruct (mbind k m)
    end; reflexivity.
  - constructor; [|constructor]. cbn [well_formed_request].
    split; [|split].
    + rewrite new_auth_headers_frame by discriminate. apply lookup_insert_eq.
    + destruct (str_in _ _); split; congruence.
    + intros body. destruct (str_in _ _); [|discriminate].
      intros [= <-].
      destruct (or_json_cases
                  (or_json (or_json (case_body case) (case_request_body case))
                     (case_payload case))
                  (Some (JDict []))) as [(v & -> & Hv)| ->].
      * left. exact Hv.
      * right. reflexivity.
Qed.

Lemma run_cases_requests (filename : string) (data : Suite) (base_url : string)
    (cases : list Case) :
  forall (idx : nat) (st : State),
    exists events : list Event,
      trace (fst (many_cases filename data base_url idx cases st))
      = trace st ++ events /\
      Forall well_formed_request events.
Proof.
  induction cases as [|case rest IH]; intros idx st; cbn [run_cases].
  - exists []. cbn. rewrite app_nil_r. auto.
  - destruct (run_case_requests filename data base_url idx case st)
      as (events & Htrace & Hok).
    destruct (one_case filename data base_url idx case st) as [st1 [[]|e]];
      cbn [fst] in Htrace |- *; [|eauto].
    destruct (IH (S idx) st1) as (events' & Htrace' & Hok').
    exists (events ++ events'). rewrite Htrace', Htrace, app_assoc.
    split; [reflexivity | apply Forall_app; auto].
Qed.

(** X24.  Every request that a session of [new.py] sends carries [Accept:
    application/json], has a JSON body exactly when its method is POST, PUT
    or PATCH, and that body is the body of the case or, when the case gives
    none that counts as true, the empty object. *)
Theorem new_requests_are_well_formed (all_json_data : list (string * Suite)) :
  forall st : State,
    exists events : list Event,
      trace (fst (whole_session all_json_data st)) = trace st ++ events /\
      Forall well_formed_request events.
Proof.
  induction all_json_data as [|[filename data] rest IH]; intros st;
    cbn [session].
  - exists []. cbn. rewrite app_nil_r. auto.
  - assert (Hfile : exists events,
               trace (fst (one_file filename data st)) = trace st ++ events /\
               Forall well_formed_request events).
    { unfold test_api_from_json. destruct (String.eqb _ "").
      - exists []. cbn. rewrite app_nil_r. auto.
      - apply run_cases_requests. }
    destruct Hfile as (events & Htrace & Hok).
    destruct (one_file filename data st) as [st1 outcome].
    destruct (IH st1) as (events' & Htrace' & Hok').
    destruct (whole_session rest st1) as [st' outcomes].
    cbn [fst] in *.
    exists (events ++ events'). rewrite Htrace', Htrace, app_assoc.
    split; [reflexivity | apply Forall_app; auto].
Qed.

(** X25.  A case of [new.py] is counted as passed only when its request was
    answered, the answer has the expected status code when the case names one
    other than 0, and the body passes validation when the case has an
    expectation that counts as true. *)
Theorem passed_case_was_checked (filename : string) (data : Suite)
    (base_url : string) (idx : nat) (case : Case) (st st' : State) :
  one_case filename data base_url idx case st = (st', Ok tt) ->
  exists (method url : string) (headers : gmap string string)
         (json_body : option json) (response : Response),
    requests_request (calls st) method url headers json_body
    = Returned response /\
    trace st' = trace st ++ [EvRequest method url headers json_body] /\
    passed (SUMMARY st') = S (passed (SUMMARY st)) /\
    (forall expected_status : Z,
        case_expected_status case = Some expected_status ->
        expected_status <> 0 ->
        resp_status_code response = expected_status) /\
    (forall expected_response : Expected,
        case_expected_response case = Some expected_response ->
        expected_truthy expected_response = true ->
        validate_response json_validate json_dumps repr_errors
          (test_id_of filename idx case)
          (default (JDict []) (resp_json response)) expected_response
        = Ok tt).
Proof.
  unfold run_case.
  destruct (or_str (case_endpoint case) (case_api_endpoint case))
    as [[|c endpoint]|]; [discriminate| |discriminate].
  match goal with
  | |- context [requests_request ?n ?m ?u ?h ?b] =>
      destruct (requests_request n m u h b) as [resp|text] eqn:Hcall
  end; [|discriminate].
  cbn zeta. intros Hrun.
  do 4 eexists. exists resp. split; [exact Hcall|].
  destruct (case_expected_status case) as [expected_status|] eqn:Hstatus;
    destruct (case_expected_response case) as [expected_response|] eqn:Hbody.
  all: cbn [mbind res_bind] in Hrun.
  all: repeat match type of Hrun with
         | context [if ?b then _ else _] => destruct b eqn:?
         end.
  all: cbn [mbind res_bind] in Hrun.
  all: repeat match type of Hrun with
         | context [match ?m with Ok _ => _ | Raise _ => _ end] =>
             destruct m eqn:?
         end.
  all: try discriminate.
  all: injection Hrun as <-.
  all: split; [reflexivity|]; split; [reflexivity|]; split.
  all: try (intros ? [=]; subst).
  all: try (intros ? [= <-]).
  all: try congruence.
  all: try (intros Hne;
            match goal with
            | H : negb _ && negb _ = false |- _ =>
                apply andb_false_iff in H; destruct H as [H|H];
                apply negb_false_iff in H; apply Z.eqb_eq in H; congruence
            end).
  all: try (intros _; match goal with u : unit |- _ => destruct u end;
            assumption).
Qed.

End NewSession.

(** ** Validation in [new.py] *)

Section NewValidation.

Context (json_validate : Py.json -> Py.json -> option string)
  (json_dumps : Py.json -> string) (repr_errors : list string -> string)
  (test_id : string).

Import Py New.

(** X26.  A schema violation is not a discrepancy of its candidate: once
    the candidates before it have each been found wanting, a candidate whose
    schema the response violates fails the case at once, with the message of
    the schema validator, whatever candidates follow it. *)
Theorem schema_violation_fails_at_once (resp : list (string * json))
    (pre post : list Candidate) (found_each : list (list string))
    (d : ExpectDict) (schema : json) (message : string) :
  Forall2 (fun c e =>
             dict_or_literal c /\
             discrepancies json_validate json_dumps test_id (JDict resp) c
             = Ok e /\ e <> []) pre found_each ->
  exp_schema d = Some schema ->
  json_validate (JDict resp) schema = Some message ->
  validate_response json_validate json_dumps repr_errors test_id (JDict resp)
    (Options (pre ++ CandDict d :: post))
  = Raise (AssertionError
             (test_id +:+ " | Schema validation failed: " +:+ message)).
Proof.
  intros Hpre Hschema Hviolation. unfold validate_response.
  rewrite (validate_loop_mismatches json_validate json_dumps test_id
             (JDict resp) pre (CandDict d :: post) found_each Hpre).
  cbn [validate_loop]. unfold dict_candidate_errors, validate_schema.
  rewrite Hschema, Hviolation. reflexivity.
Qed.

(** X27.  The mandatory fields of a candidate, checked against a [data]
    object: one message for each field that the object lacks, in the order of
    the list, after the messages collected before. *)
Theorem missing_mandatory_fields (fields : list string)
    (d : list (string * json)) :
  forall temp_errors : list string,
    check_mandatory fields (JDict d) temp_errors
    = Ok (temp_errors
          ++ map (fun field => "Missing mandatory field: " +:+ field)
               (List.filter (fun field => negb (present (dict_get field d)))
                  fields)).
Proof.
  induction fields as [|field rest IH]; intros temp_errors;
    cbn [check_mandatory List.filter map].
  - rewrite app_nil_r. reflexivity.
  - cbn [has_field mbind res_bind]. rewrite IH.
    destruct (present (dict_get field d)); cbn [negb map];
      [reflexivity|].
    rewrite <- app_assoc. reflexivity.
Qed.

(** X28.  Typed fields that the [data] object lacks: a field of type
    [string] or [null|string], or of a type name that the code does not know,
    is let through, and a field of type [boolean] is reported, as a
    [NoneType]. *)
Theorem absent_typed_fields (field_types : list (string * string))
    (d : list (string * json)) :
  (forall k v_type, In (k, v_type) field_types -> dict_get k d = None) ->
  forall temp_errors : list string,
    check_field_types field_types (JDict d) temp_errors
    = Ok (temp_errors
          ++ map (fun kt => "Field '" +:+ fst kt
                            +:+ "' expected boolean, got NoneType")
               (List.filter (fun kt => String.eqb (snd kt) "boolean")
                  field_types)).
Proof.
  induction field_types as [|[k v_type] rest IH]; intros Habsent temp_errors;
    cbn [check_field_types List.filter map].
  - rewrite app_nil_r. reflexivity.
  - cbn [get_field mbind res_bind].
    rewrite (Habsent k v_type) by (left; reflexivity).
    cbn [default is_none is_str is_bool negb type_name snd fst].
    rewrite !andb_false_r, !andb_true_r.
    rewrite IH by (intros k' t' Hin; apply (Habsent k' t'); right; exact Hin).
    destruct (String.eqb v_type "boolean"); cbn [map fst];
      [|reflexivity].
    rewrite <- app_assoc. reflexivity.
Qed.

End NewValidation.

Section NewSkips.

Context (json_validate : Py.json -> Py.json -> option string)
  (json_dumps : Py.json -> string) (repr_errors : list string -> string)
  (py_repr : Py.json -> string)
  (requests_request :
     nat -> string -> string -> gmap string string -> option Py.json
     -> Http.Outcome).

Import Py Http New.

(** X29.  A case of [new.py] without an endpoint ends its file: it is
    counted in [total] and [skipped], no request is sent for it, and the
    cases that follow it in the file are neither counted nor run. *)
Theorem case_without_endpoint_ends_the_file (filename : string) (data : Suite)
    (base_url : string) (idx : nat) (pre : list Case) (case : Case)
    (post : list Case) (st st1 : State) :
  run_cases json_validate json_dumps repr_errors py_repr requests_request
    filename data base_url idx pre st = (st1, Ok tt) ->
  or_str (case_endpoint case) (case_api_endpoint case) = None
  \/ or_str (case_endpoint case) (case_api_endpoint case) = Some "" ->
  run_cases json_validate json_dumps repr_errors py_repr requests_request
    filename data base_url idx (pre ++ case :: post) st
  = (with_summary (fun s => incr_skipped (incr_total s)) st1,
     Raise (Skipped (test_id_of filename (idx + length pre) case
                       +:+ " skipped: 'endpoint' missing in JSON"))).
Proof.
  intros Hpre Hendpoint.
  apply (run_cases_stop _ _ _ _ _ _ _ _ _ pre case post st st1 _ _ Hpre).
  unfold run_case. destruct Hendpoint as [-> | ->]; reflexivity.
Qed.

End NewSkips.

(** ** Instances of the further properties on the sample data *)

Lemma null_is_a_missing_nested_key_witness :
  let verdict :=
    Role_based.validate_response_simple false Sample.py_repr
      (Py.JDict [("data", Py.JNull)]) (Py.JDict []) None ""
      [("data", Py.JStr "x")] in
  fst verdict = false /\ In ("Missing nested key: " +:+ "data") (snd verdict).
Proof.
  apply (null_is_a_missing_nested_key false Sample.py_repr
           [("data", Py.JNull)] (Py.JDict []) None "" "data" (Py.JStr "x")
           [("data", Py.JStr "x")]).
  - left. reflexivity.
  - reflexivity.
Defined.


Lemma skipped_case_sends_nothing_witness :
  Role_based.trace
    (Role_based.process_case 2 1 false "" Sample.py_hash Sample.py_repr
       Sample.repr_headers Sample.json_dumps_indent Sample.get_tokens_from_api
       Sample.connection_refused Sample.ping_suite 1 Fixtures.no_endpoint
       Role_based.initial_state)
  = Role_based.trace Role_based.initial_state.
Proof.
  refine (proj1 (skipped_case_sends_nothing 2 1 false "" Sample.py_hash
                   Sample.py_repr Sample.repr_headers Sample.json_dumps_indent
                   Sample.get_tokens_from_api Sample.connection_refused
                   Sample.ping_suite 1 Fixtures.no_endpoint
                   Role_based.initial_state _)).
  right. left. reflexivity.
Defined.

Lemma exit_status_reports_failures_witness :
  counters_by_verdict
    (Role_based.SUMMARY
       (fst (Role_based.run_all_tests 2 1 false "" Sample.py_hash
               Sample.py_repr Sample.repr_headers Sample.json_dumps_indent
               Sample.get_tokens_from_api Sample.connection_refused
               [Role_based.LoadError; Role_based.Loaded Sample.ping_suite]
               Role_based.initial_state))).
Proof.
  refine (proj1 (exit_status_reports_failures 2 1 false "" Sample.py_hash
                   Sample.py_repr Sample.repr_headers Sample.json_dumps_indent
                   Sample.get_tokens_from_api Sample.connection_refused _
                   [Role_based.LoadError; Role_based.Loaded Sample.ping_suite])).
  lia.
Defined.

Lemma query_string_is_not_part_of_the_group_witness :
  Role_based.group_key Fixtures.farmers_page
  = Role_based.group_key Fixtures.farmers.
Proof.
  apply (query_string_is_not_part_of_the_group Fixtures.farmers
           Fixtures.farmers_page "GET" "/farmers" "page=2");
    try reflexivity; discriminate.
Defined.

Lemma unresolved_placeholders_stay_witness :
  Py.substitute_path_params Sample.py_repr {["farmer" := Py.JInt 7]}
    "/farmers/{id}"
  = "/farmers/{id}".
Proof.
  apply unresolved_placeholders_stay.
  intros ph Hin. vm_compute in Hin. destruct Hin as [<-|[]].
  vm_compute. reflexivity.
Defined.

Lemma resolved_placeholder_is_replaced_witness :
  Py.substitute_path_params Sample.py_repr {["id" := Py.JInt 42]}
    ("/farmers/" +:+ "{" +:+ "id" +:+ "}" +:+ "/plots")
  = "/farmers/" +:+ Py.str Sample.py_repr (Py.JInt 42) +:+ "/plots".
Proof.
  apply resolved_placeholder_is_replaced.
  - reflexivity.
  - reflexivity.
  - discriminate.
  - reflexivity.
  - vm_compute. reflexivity.
Defined.

Lemma passed_case_was_checked_witness :
  let st' :=
    fst (New.run_case Sample.json_validate Sample.json_dumps
           Sample.repr_errors Sample.py_repr Fixtures.answers_200 "ping"
           Sample.new_suite "https://api.x" 1 Sample.new_ping
           New.initial_state) in
  New.passed (New.SUMMARY st') = 1%nat.
Proof.
  cbv zeta.
  destruct (passed_case_was_checked Sample.json_validate Sample.json_dumps
              Sample.repr_errors Sample.py_repr Fixtures.answers_200 "ping"
              Sample.new_suite "https://api.x" 1 Sample.new_ping
              New.initial_state
              (fst (New.run_case Sample.json_validate Sample.json_dumps
                      Sample.repr_errors Sample.py_repr Fixtures.answers_200
                      "ping" Sample.new_suite "https://api.x" 1
                      Sample.new_ping New.initial_state)))
    as (method & url & headers & json_body & response & _ & _ & Hpassed & _).
  - vm_compute. reflexivity.
  - exact Hpassed.
Defined.

Lemma schema_violation_fails_at_once_witness :
  New.validate_response Fixtures.rejects Sample.json_dumps Sample.repr_errors
    "T1" (Py.JDict [("data", Py.JDict [("id", Py.JInt 7)])])
    (New.Options ([] ++ New.CandDict Fixtures.schema_expectation
                     :: [Sample.wants_id]))
  = New.Raise
      (New.AssertionError
         ("T1" +:+ " | Schema validation failed: "
            +:+ "'name' is a required property")).
Proof.
  apply (schema_violation_fails_at_once Fixtures.rejects Sample.json_dumps
           Sample.repr_errors "T1" [("data", Py.JDict [("id", Py.JInt 7)])]
           [] [Sample.wants_id] [] Fixtures.schema_expectation
           (Py.JDict [("required", Py.JList [Py.JStr "name"])])).
  - constructor.
  - reflexivity.
  - reflexivity.
Defined.

Lemma absent_typed_fields_witness :
  New.check_field_types [("active", "boolean"); ("name", "string")]
    (Py.JDict []) []
  = New.Ok ["Field '" +:+ "active" +:+ "' expected boolean, got NoneType"].
Proof.
  apply (absent_typed_fields [("active", "boolean"); ("name", "string")] [] 
           (fun k v_type _ => eq_refl) []).
Defined.

Lemma case_without_endpoint_ends_the_file_witness :
  New.run_cases Sample.json_validate Sample.json_dumps Sample.repr_errors
    Sample.py_repr Fixtures.answers_200 "ping" Sample.new_suite
    "https://api.x" 1 ([] ++ Fixtures.new_no_endpoint :: [Sample.new_ping])
    New.initial_state
  = (New.with_summary (fun s => New.incr_skipped (New.incr_total s))
       New.initial_state,
     New.Raise
       (New.Skipped
          (New.test_id_of "ping" (1 + 0) Fixtures.new_no_endpoint
             +:+ " skipped: 'endpoint' missing in JSON"))).
Proof.
  apply (case_without_endpoint_ends_the_file Sample.json_validate
           Sample.json_dumps Sample.repr_errors Sample.py_repr
           Fixtures.answers_200 "ping" Sample.new_suite "https://api.x" 1 []
           Fixtures.new_no_endpoint [Sample.new_ping] New.initial_state
           New.initial_state).
  - reflexivity.
  - left. reflexivity.
Defined.
